(** * ATS Bridge: the resume-analysis service and its orchestration

    A shallow embedding of [services/geminiService.ts] (three revisions of
    the file are kept in the repository), of the two revisions of [App.tsx]
    (state, handlers, and of the view whether its evaluation goes through)
    and of [types.ts], together with the part of the JavaScript runtime the
    code relies on: strings, [trim], [JSON.parse], [JSON.stringify], property
    access, string coercion and spread.

    The delegate (the [@google/genai] client) is an external collaborator:
    it appears as an oracle answering the two operations the code performs on
    it, the construction of a client and [generateContent]. *)

From Stdlib Require Import String Ascii List NArith ZArith Bool Lia.
Import ListNotations.

Set Warnings "-register-all".
Local Open Scope N_scope.

(* ------------------------------------------------------------------ *)
(** ** JavaScript strings *)

(** A JavaScript string is a sequence of UTF-16 code units. *)
Definition jsstring := list N.

(** Literals of the source are ASCII: one code unit per character. *)
Definition js (s : string) : jsstring :=
  map N_of_ascii (list_ascii_of_string s).
Arguments js s%_string.

(** JSON texts in examples are written with single quotes standing for
    double quotes. *)
Definition dq (s : string) : jsstring :=
  map (fun c => if c =? 39 then 34 else c) (js s).
Arguments dq s%_string.

Fixpoint str_eqb (a b : jsstring) : bool :=
  match a, b with
  | [], [] => true
  | x :: a', y :: b' => (x =? y) && str_eqb a' b'
  | _, _ => false
  end.

(** [WhiteSpace] and [LineTerminator] of ECMAScript, the code points that
    [String.prototype.trim] strips. *)
Definition isWhiteSpace (c : N) : bool :=
  (c =? 9) || (c =? 10) || (c =? 11) || (c =? 12) || (c =? 13) ||
  (c =? 32) || (c =? 160) || (c =? 5760) ||
  ((8192 <=? c) && (c <=? 8202)) ||
  (c =? 8232) || (c =? 8233) || (c =? 8239) || (c =? 8287) ||
  (c =? 12288) || (c =? 65279).

Fixpoint trimStart (s : jsstring) : jsstring :=
  match s with
  | c :: r => if isWhiteSpace c then trimStart r else s
  | [] => []
  end.

Definition trimEnd (s : jsstring) : jsstring := rev (trimStart (rev s)).

(** [s.trim()] *)
Definition trim (s : jsstring) : jsstring := trimEnd (trimStart s).

(** [sep] between consecutive elements: the string part of [Array.prototype.join]. *)
Fixpoint join (sep : jsstring) (l : list jsstring) : jsstring :=
  match l with
  | [] => []
  | [x] => x
  | x :: r => x ++ sep ++ join sep r
  end.

(* ------------------------------------------------------------------ *)
(** ** Numbers

    The code never computes with a number: scores are read from the
    delegate's JSON and stored or printed.  A number is kept as the exact
    decimal [(-1)^negative * mantissa * 10^exponent] of its literal, with
    [mantissa] not divisible by ten unless it is zero.  The rounding of a
    literal to a binary64 value is outside the model; the two agree on
    literals of at most fifteen significant digits within range. *)
Record Number := mkNumber { negative : bool; mantissa : N; exponent : Z }.

Definition isDigit (c : N) : bool := (48 <=? c) && (c <=? 57).

Definition digitsToN (ds : list N) : N :=
  fold_left (fun acc d => 10 * acc + (d - 48)) ds 0.

Fixpoint dropZeros (ds : list N) : list N :=
  match ds with
  | d :: r => if d =? 48 then dropZeros r else ds
  | [] => []
  end.

(** The decimal digits of [n] as code units, without leading zeros
    (the empty list for zero). *)
Definition digitsOfN (n : N) : list N :=
  match n with
  | N0 => []
  | Npos p =>
      (fix go (u : Decimal.uint) : list N :=
         match u with
         | Decimal.Nil => []
         | Decimal.D0 r => 48 :: go r
         | Decimal.D1 r => 49 :: go r
         | Decimal.D2 r => 50 :: go r
         | Decimal.D3 r => 51 :: go r
         | Decimal.D4 r => 52 :: go r
         | Decimal.D5 r => 53 :: go r
         | Decimal.D6 r => 54 :: go r
         | Decimal.D7 r => 55 :: go r
         | Decimal.D8 r => 56 :: go r
         | Decimal.D9 r => 57 :: go r
         end) (Pos.to_uint p)
  end.

(** Decimal rendering of a natural number, ["0"] for zero. *)
Definition decimal (n : N) : jsstring :=
  match digitsOfN n with [] => [48] | ds => ds end.

(** The number denoted by a literal: [neg] sign, integer digits, fraction
    digits and the (signed) exponent. *)
Definition mkLiteral (neg : bool) (int frac : list N) (exp : Z) : Number :=
  let sig := rev (dropZeros (rev (dropZeros (int ++ frac)))) in
  let trailing := (length (dropZeros (int ++ frac)) - length sig)%nat in
  match sig with
  | [] => mkNumber neg 0 0
  | _ => mkNumber neg (digitsToN sig)
           (exp - Z.of_nat (length frac) + Z.of_nat trailing)%Z
  end.

(** [Number::toString] in radix ten (ECMA-262, 6.1.6.1.20). *)
Definition Number_toString (x : Number) : jsstring :=
  match digitsOfN (mantissa x) with
  | [] => js "0"
  | d :: ds =>
      let k := Z.of_nat (length (d :: ds)) in
      let n := (k + exponent x)%Z in
      let sign := if negative x then js "-" else [] in
      sign ++
      (if ((k <=? n) && (n <=? 21))%Z then
         (d :: ds) ++ repeat 48 (Z.to_nat (n - k))
       else if ((0 <? n) && (n <=? 21))%Z then
         firstn (Z.to_nat n) (d :: ds) ++ js "." ++ skipn (Z.to_nat n) (d :: ds)
       else if ((-6 <? n) && (n <=? 0))%Z then
         js "0." ++ repeat 48 (Z.to_nat (- n)) ++ (d :: ds)
       else
         let e := (n - 1)%Z in
         let es := (if (e <? 0)%Z then js "-" else js "+") ++ decimal (Z.abs_N e) in
         match ds with
         | [] => [d] ++ js "e" ++ es
         | _ => [d] ++ js "." ++ ds ++ js "e" ++ es
         end)
  end.

(* ------------------------------------------------------------------ *)
(** ** Values

    What [JSON.parse] returns, plus [undefined].  An object is the list of
    its own properties in property order. *)
Inductive JSValue : Type :=
| JUndefined
| JNull
| JBool (b : bool)
| JNumber (n : Number)
| JString (s : jsstring)
| JArray (elems : list JSValue)
| JObject (props : list (jsstring * JSValue)).

(** What the program can throw or see thrown. *)
Inductive Exn : Type :=
| Error (message : jsstring)   (* [throw new Error(message)] in the source *)
| TypeError                    (* raised by the runtime *)
| SyntaxError                  (* raised by [JSON.parse] *)
| Rejected (reason : JSValue). (* the delegate threw or rejected; opaque *)

(** Result of an operation that may throw. *)
Definition result (A : Type) : Type := Exn + A.

Definition ok {A} (a : A) : result A := inr a.
Definition throw {A} (e : Exn) : result A := inl e.

Definition rbind {A B} (r : result A) (f : A -> result B) : result B :=
  match r with
  | inl e => inl e
  | inr a => f a
  end.

Declare Scope result_scope.
Delimit Scope result_scope with result.
Notation "'let?' x ':=' r 'in' k" := (rbind r (fun x => k))
  (at level 10, x name, r at level 100, k at level 200) : result_scope.

(* ------------------------------------------------------------------ *)
(** ** Objects: own properties in property order

    Array indices come first, in ascending order, then the other keys in
    the order of their creation. *)

(** The array index a key denotes, if any: the canonical decimal of an
    integer below [2^32 - 1]. *)
Definition arrayIndex (k : jsstring) : option N :=
  if forallb isDigit k && str_eqb (decimal (digitsToN k)) k
     && (digitsToN k <? 4294967295)
  then Some (digitsToN k) else None.

Fixpoint hasProperty (k : jsstring) (ps : list (jsstring * JSValue)) : bool :=
  match ps with
  | [] => false
  | (k', _) :: r => str_eqb k' k || hasProperty k r
  end.

Fixpoint replaceProperty (k : jsstring) (v : JSValue)
    (ps : list (jsstring * JSValue)) : list (jsstring * JSValue) :=
  match ps with
  | [] => []
  | (k', v') :: r =>
      if str_eqb k' k then (k', v) :: r else (k', v') :: replaceProperty k v r
  end.

Fixpoint insertIndexed (i : N) (k : jsstring) (v : JSValue)
    (ps : list (jsstring * JSValue)) : list (jsstring * JSValue) :=
  match ps with
  | [] => [(k, v)]
  | (k', v') :: r =>
      match arrayIndex k' with
      | Some j => if j <? i then (k', v') :: insertIndexed i k v r
                  else (k, v) :: ps
      | None => (k, v) :: ps
      end
  end.

(** [CreateDataProperty]: an existing key keeps its place and takes the new
    value; a new key is added in property order. *)
Definition setProperty (k : jsstring) (v : JSValue)
    (ps : list (jsstring * JSValue)) : list (jsstring * JSValue) :=
  if hasProperty k ps then replaceProperty k v ps
  else match arrayIndex k with
       | Some i => insertIndexed i k v ps
       | None => ps ++ [(k, v)]
       end.

Fixpoint lookup (k : jsstring) (ps : list (jsstring * JSValue)) : option JSValue :=
  match ps with
  | [] => None
  | (k', v) :: r => if str_eqb k' k then Some v else lookup k r
  end.

(* ------------------------------------------------------------------ *)
(** ** JSON.parse (ECMA-404 grammar, ECMA-262 25.5.1) *)

Inductive parsed (A : Type) : Type :=
| Parsed (a : A) (rest : jsstring)
| Unexpected
| OutOfFuel.
Arguments Parsed {A} a rest.
Arguments Unexpected {A}.
Arguments OutOfFuel {A}.

Definition isJSONWhiteSpace (c : N) : bool :=
  (c =? 9) || (c =? 10) || (c =? 13) || (c =? 32).

Fixpoint skipWhiteSpace (s : jsstring) : jsstring :=
  match s with
  | c :: r => if isJSONWhiteSpace c then skipWhiteSpace r else s
  | [] => []
  end.

Definition hexValue (c : N) : option N :=
  if isDigit c then Some (c - 48)
  else if (97 <=? c) && (c <=? 102) then Some (c - 87)
  else if (65 <=? c) && (c <=? 70) then Some (c - 55)
  else None.

(** The character an escape letter stands for: quote, backslash, slash,
    b, f, n, r, t. *)
Definition escapeChar (c : N) : option N :=
  if c =? 34 then Some 34
  else if c =? 92 then Some 92
  else if c =? 47 then Some 47
  else if c =? 98 then Some 8
  else if c =? 102 then Some 12
  else if c =? 110 then Some 10
  else if c =? 114 then Some 13
  else if c =? 116 then Some 9
  else None.

(** The characters of a string literal after its opening quote, up to and
    including the closing quote. *)
Fixpoint parseChars (s : jsstring) (acc : jsstring) : parsed jsstring :=
  match s with
  | [] => Unexpected
  | c :: r =>
      if c =? 34 then Parsed (rev acc) r
      else if c <? 32 then Unexpected
      else if c =? 92 then
        match r with
        | [] => Unexpected
        | e :: r1 =>
            match escapeChar e with
            | Some u => parseChars r1 (u :: acc)
            | None =>
                if e =? 117 then
                  match r1 with
                  | h1 :: h2 :: h3 :: h4 :: r2 =>
                      match hexValue h1, hexValue h2, hexValue h3, hexValue h4 with
                      | Some a, Some b, Some c', Some d =>
                          parseChars r2 ((((a * 16 + b) * 16 + c') * 16 + d) :: acc)
                      | _, _, _, _ => Unexpected
                      end
                  | _ => Unexpected
                  end
                else Unexpected
            end
        end
      else parseChars r (c :: acc)
  end.

Fixpoint spanDigits (s : jsstring) : list N * jsstring :=
  match s with
  | c :: r =>
      if isDigit c then let (ds, rest) := spanDigits r in (c :: ds, rest)
      else ([], s)
  | [] => ([], [])
  end.

(** Optional exponent part: [e] or [E], optional sign, digits. *)
Definition parseExponent (s : jsstring) : parsed Z :=
  match s with
  | c :: r =>
      if (c =? 101) || (c =? 69) then
        let (neg, r1) :=
          match r with
          | sg :: r' => if sg =? 45 then (true, r')
                        else if sg =? 43 then (false, r') else (false, r)
          | [] => (false, r)
          end in
        match spanDigits r1 with
        | ([], _) => Unexpected
        | (ds, rest) =>
            Parsed (if neg then (- Z.of_N (digitsToN ds))%Z
                    else Z.of_N (digitsToN ds)) rest
        end
      else Parsed 0%Z s
  | [] => Parsed 0%Z s
  end.

(** Optional fraction part: a dot and at least one digit. *)
Definition parseFraction (s : jsstring) : parsed (list N) :=
  match s with
  | c :: r =>
      if c =? 46 then
        match spanDigits r with
        | ([], _) => Unexpected
        | (ds, rest) => Parsed ds rest
        end
      else Parsed [] s
  | [] => Parsed [] s
  end.

Definition parseNumber (s : jsstring) : parsed Number :=
  let (neg, s1) :=
    match s with
    | c :: r => if c =? 45 then (true, r) else (false, s)
    | [] => (false, s)
    end in
  match spanDigits s1 with
  | ([], _) => Unexpected
  | (d :: ds, s2) =>
      if (d =? 48) && negb (match ds with [] => true | _ => false end)
      then Unexpected
      else
        match parseFraction s2 with
        | Parsed frac s3 =>
            match parseExponent s3 with
            | Parsed e s4 => Parsed (mkLiteral neg (d :: ds) frac e) s4
            | Unexpected => Unexpected
            | OutOfFuel => OutOfFuel
            end
        | Unexpected => Unexpected
        | OutOfFuel => OutOfFuel
        end
  end.

(** The rest of a keyword ([true], [false], [null]) after its first letter. *)
Fixpoint expect (kw s : jsstring) : option jsstring :=
  match kw, s with
  | [], _ => Some s
  | k :: kw', c :: r => if k =? c then expect kw' r else None
  | _ :: _, [] => None
  end.

Definition parseKeyword (kw : jsstring) (v : JSValue) (s : jsstring) : parsed JSValue :=
  match expect kw s with
  | Some rest => Parsed v rest
  | None => Unexpected
  end.

Fixpoint parseValue (fuel : nat) (s : jsstring) {struct fuel} : parsed JSValue :=
  match fuel with
  | O => OutOfFuel
  | S fuel' =>
      match s with
      | [] => Unexpected
      | c :: r =>
          if c =? 123 then
            match skipWhiteSpace r with
            | c1 :: r1 =>
                if c1 =? 125 then Parsed (JObject []) r1
                else parseMembers fuel' (c1 :: r1) []
            | [] => Unexpected
            end
          else if c =? 91 then
            match skipWhiteSpace r with
            | c1 :: r1 =>
                if c1 =? 93 then Parsed (JArray []) r1
                else parseElements fuel' (c1 :: r1) []
            | [] => Unexpected
            end
          else if c =? 34 then
            match parseChars r [] with
            | Parsed str rest => Parsed (JString str) rest
            | Unexpected => Unexpected
            | OutOfFuel => OutOfFuel
            end
          else if c =? 116 then parseKeyword (js "rue") (JBool true) r
          else if c =? 102 then parseKeyword (js "alse") (JBool false) r
          else if c =? 110 then parseKeyword (js "ull") JNull r
          else
            match parseNumber s with
            | Parsed n rest => Parsed (JNumber n) rest
            | Unexpected => Unexpected
            | OutOfFuel => OutOfFuel
            end
      end
  end
with parseElements (fuel : nat) (s : jsstring) (acc : list JSValue)
    {struct fuel} : parsed JSValue :=
  match fuel with
  | O => OutOfFuel
  | S fuel' =>
      match parseValue fuel' s with
      | Parsed v rest =>
          match skipWhiteSpace rest with
          | c :: r =>
              if c =? 44 then parseElements fuel' (skipWhiteSpace r) (v :: acc)
              else if c =? 93 then Parsed (JArray (rev (v :: acc))) r
              else Unexpected
          | [] => Unexpected
          end
      | Unexpected => Unexpected
      | OutOfFuel => OutOfFuel
      end
  end
with parseMembers (fuel : nat) (s : jsstring) (acc : list (jsstring * JSValue))
    {struct fuel} : parsed JSValue :=
  match fuel with
  | O => OutOfFuel
  | S fuel' =>
      match s with
      | c :: r =>
          if c =? 34 then
            match parseChars r [] with
            | Parsed key rest =>
                match skipWhiteSpace rest with
                | c1 :: r1 =>
                    if c1 =? 58 then
                      match parseValue fuel' (skipWhiteSpace r1) with
                      | Parsed v rest2 =>
                          match skipWhiteSpace rest2 with
                          | c2 :: r2 =>
                              if c2 =? 44 then
                                parseMembers fuel' (skipWhiteSpace r2)
                                  (setProperty key v acc)
                              else if c2 =? 125 then
                                Parsed (JObject (setProperty key v acc)) r2
                              else Unexpected
                          | [] => Unexpected
                          end
                      | Unexpected => Unexpected
                      | OutOfFuel => OutOfFuel
                      end
                    else Unexpected
                | [] => Unexpected
                end
            | Unexpected => Unexpected
            | OutOfFuel => OutOfFuel
            end
          else Unexpected
      | [] => Unexpected
      end
  end.

(** [JSON.parse(text)]: one value between optional white space, or a
    [SyntaxError].  The fuel covers every text ([parseValue_fuel] below). *)
Definition JSON_parse (text : jsstring) : result JSValue :=
  match parseValue (2 * length text + 2) (skipWhiteSpace text) with
  | Parsed v rest =>
      match skipWhiteSpace rest with
      | [] => ok v
      | _ :: _ => throw SyntaxError
      end
  | Unexpected => throw SyntaxError
  | OutOfFuel => throw SyntaxError
  end.


(* ------------------------------------------------------------------ *)
(** ** Operations of the runtime on values *)

Local Open Scope result_scope.

(** [ToBoolean]: what [!v], [v && ...], [v ? ... : ...] and [v || ...] test. *)
Definition ToBoolean (v : JSValue) : bool :=
  match v with
  | JUndefined | JNull => false
  | JBool b => b
  | JNumber n => negb (mantissa n =? 0)
  | JString s => match s with [] => false | _ => true end
  | JArray _ | JObject _ => true
  end.

Definition numberOfNat (n : nat) : Number :=
  mkLiteral false (decimal (N.of_nat n)) [] 0.

(** [v.k].  Reading a property of [undefined] or [null] throws; otherwise
    the own property, or [undefined].  Inherited members (the methods of
    [Object.prototype], [Array.prototype], ...) are not values of the model:
    the program calls some of them but reads none by name. *)
Definition getProp (v : JSValue) (k : jsstring) : result JSValue :=
  match v with
  | JUndefined | JNull => throw TypeError
  | JObject ps => ok (match lookup k ps with Some x => x | None => JUndefined end)
  | JArray l =>
      if str_eqb k (js "length") then ok (JNumber (numberOfNat (length l)))
      else match arrayIndex k with
           | Some i => ok (nth (N.to_nat i) l JUndefined)
           | None => ok JUndefined
           end
  | JString s =>
      if str_eqb k (js "length") then ok (JNumber (numberOfNat (length s)))
      else match arrayIndex k with
           | Some i => ok (match nth_error s (N.to_nat i) with
                           | Some c => JString [c]
                           | None => JUndefined
                           end)
           | None => ok JUndefined
           end
  | JBool _ | JNumber _ => ok JUndefined
  end.

(** The own property [k] of [v], [undefined] where there is none to read. *)
Definition getProp_or_undefined (v : JSValue) (k : jsstring) : JSValue :=
  match getProp v k with
  | inr x => x
  | inl _ => JUndefined
  end.

(** The strings [Array.prototype.join] puts between separators:
    [undefined] and [null] elements give the empty string. *)
Fixpoint joinParts (toString : JSValue -> result jsstring) (l : list JSValue)
    : result (list jsstring) :=
  match l with
  | [] => ok []
  | x :: r =>
      let? s := match x with
                | JUndefined | JNull => ok []
                | _ => toString x
                end in
      let? rs := joinParts toString r in
      ok (s :: rs)
  end.

(** [ToString], as applied by template literals and by [join].  An object
    goes through [OrdinaryToPrimitive]: with an own [toString] property
    (never callable in a value read from JSON) no method yields a primitive
    and a [TypeError] is thrown; otherwise [Object.prototype.toString]
    answers. *)
Fixpoint ToString (v : JSValue) : result jsstring :=
  match v with
  | JUndefined => ok (js "undefined")
  | JNull => ok (js "null")
  | JBool true => ok (js "true")
  | JBool false => ok (js "false")
  | JNumber n => ok (Number_toString n)
  | JString s => ok s
  | JArray l => let? parts := joinParts ToString l in ok (join (js ",") parts)
  | JObject ps =>
      if hasProperty (js "toString") ps then throw TypeError
      else ok (js "[object Object]")
  end.

(** [a.join(sep)] on an array. *)
Definition Array_join (l : list JSValue) (sep : jsstring) : result jsstring :=
  let? parts := joinParts ToString l in ok (join sep parts).

Definition isHighSurrogate (c : N) : bool := (55296 <=? c) && (c <=? 56319).
Definition isLowSurrogate (c : N) : bool := (56320 <=? c) && (c <=? 57343).

(** The string iterator: one string per code point. *)
Fixpoint codePoints (s : jsstring) : list JSValue :=
  match s with
  | [] => []
  | c :: r =>
      match r with
      | c' :: r' =>
          if isHighSurrogate c && isLowSurrogate c'
          then JString [c; c'] :: codePoints r'
          else JString [c] :: codePoints r
      | [] => [JString [c]]
      end
  end.

(** [...v] inside an array literal: arrays and strings are iterable, no
    other value of the model is. *)
Definition spread (v : JSValue) : result (list JSValue) :=
  match v with
  | JArray l => ok l
  | JString s => ok (codePoints s)
  | _ => throw TypeError
  end.

Fixpoint indexed {A} (f : A -> JSValue) (i : nat) (l : list A)
    : list (jsstring * JSValue) :=
  match l with
  | [] => []
  | x :: r => (decimal (N.of_nat i), f x) :: indexed f (S i) r
  end.

(** [...v] inside an object literal ([CopyDataProperties]): the own
    enumerable properties; none for [undefined], [null], numbers, booleans. *)
Definition ownProperties (v : JSValue) : list (jsstring * JSValue) :=
  match v with
  | JObject ps => ps
  | JArray l => indexed (fun x => x) 0 l
  | JString s => indexed (fun c => JString [c]) 0 s
  | _ => []
  end.

Definition hexDigit (d : N) : N := if d <? 10 then 48 + d else 87 + d.

(** [\uXXXX] with lower-case digits. *)
Definition unicodeEscape (c : N) : jsstring :=
  [92; 117; hexDigit (c / 4096 mod 16); hexDigit (c / 256 mod 16);
   hexDigit (c / 16 mod 16); hexDigit (c mod 16)].

Fixpoint quoteChars (s : jsstring) : jsstring :=
  match s with
  | [] => []
  | c :: r =>
      if c =? 34 then [92; 34] ++ quoteChars r
      else if c =? 92 then [92; 92] ++ quoteChars r
      else if c =? 8 then [92; 98] ++ quoteChars r
      else if c =? 9 then [92; 116] ++ quoteChars r
      else if c =? 10 then [92; 110] ++ quoteChars r
      else if c =? 12 then [92; 102] ++ quoteChars r
      else if c =? 13 then [92; 114] ++ quoteChars r
      else if c <? 32 then unicodeEscape c ++ quoteChars r
      else if isHighSurrogate c then
        match r with
        | c' :: r' =>
            if isLowSurrogate c' then c :: c' :: quoteChars r'
            else unicodeEscape c ++ quoteChars r
        | [] => unicodeEscape c
        end
      else if isLowSurrogate c then unicodeEscape c ++ quoteChars r
      else c :: quoteChars r
  end.

(** [QuoteJSONString] *)
Definition quoteJSONString (s : jsstring) : jsstring :=
  [34] ++ quoteChars s ++ [34].

(** [SerializeJSONProperty] without indentation: [None] stands for
    [undefined], which [JSON.stringify] returns for an [undefined] value
    and which makes a property disappear from its object. *)
Fixpoint serialize (v : JSValue) : option jsstring :=
  match v with
  | JUndefined => None
  | JNull => Some (js "null")
  | JBool true => Some (js "true")
  | JBool false => Some (js "false")
  | JNumber n => Some (Number_toString n)
  | JString s => Some (quoteJSONString s)
  | JArray l =>
      Some (js "[" ++
            join (js ",")
              (map (fun x => match serialize x with
                             | Some t => t
                             | None => js "null"
                             end) l) ++
            js "]")
  | JObject ps =>
      Some (js "{" ++
            join (js ",")
              ((fix members (ps : list (jsstring * JSValue)) : list jsstring :=
                  match ps with
                  | [] => []
                  | (k, x) :: r =>
                      match serialize x with
                      | Some t => (quoteJSONString k ++ js ":" ++ t) :: members r
                      | None => members r
                      end
                  end) ps) ++
            js "}")
  end.

(** [JSON.stringify(v)] *)
Definition JSON_stringify (v : JSValue) : JSValue :=
  match serialize v with
  | Some t => JString t
  | None => JUndefined
  end.

(* ------------------------------------------------------------------ *)
(** ** types.ts

    The interfaces describe what the delegate is asked to produce; nothing
    checks a value against them at run time, so what flows through the
    program is a [JSValue].  Only the values the program builds itself are
    records here. *)

Record FilePayload := mkFile { data : jsstring; mimeType : jsstring; name : jsstring }.

Record ResumeSource := mkSource { text : option jsstring; file : option FilePayload }.

(** [ResumeDraft]: always built by an object literal with these six keys. *)
Record ResumeDraft := mkDraft {
  personal_info : JSValue;
  education : JSValue;
  experience : JSValue;
  skills : JSValue;
  certifications : JSValue;
  summary : JSValue }.

Record ExperienceEntry := mkExperience {
  company : jsstring; role : jsstring; date : jsstring; bullets : list jsstring }.

Record RectifyResponse := mkRectify {
  revisedSummary : jsstring; revisedExperience : list ExperienceEntry }.

(** The values these two interfaces describe. *)
Definition ExperienceEntry_value (e : ExperienceEntry) : JSValue :=
  JObject [(js "company", JString (company e)); (js "role", JString (role e));
           (js "date", JString (date e));
           (js "bullets", JArray (map JString (bullets e)))].

Definition RectifyResponse_value (r : RectifyResponse) : JSValue :=
  JObject [(js "revisedSummary", JString (revisedSummary r));
           (js "revisedExperience",
            JArray (map ExperienceEntry_value (revisedExperience r)))].

(* ------------------------------------------------------------------ *)
(** ** The delegate's interface ([@google/genai]) *)

Inductive Schema : Type :=
| STRING
| STRING_enum (values : list jsstring)
| NUMBER
| ARRAY (items : Schema)
| OBJECT (properties : list (jsstring * Schema)) (required : list jsstring).

Inductive Part : Type :=
| TextPart (t : jsstring)                     (* [{ text }] *)
| InlineData (d : jsstring) (mime : jsstring). (* [{ inlineData: { data, mimeType } }] *)

Inductive Contents : Type :=
| ContentParts (parts : list Part)   (* [contents: { parts }] *)
| ContentText (prompt : jsstring).   (* [contents: prompt] *)

Record GenerationConfig := mkConfig {
  responseMimeType : jsstring;
  responseSchema : Schema;
  thinkingBudget : N }.

Record GenerateContentParameters := mkParams {
  model : jsstring;
  contents : Contents;
  config : GenerationConfig }.

(** Of the response the code reads [response.text] only: a string or
    [undefined]. *)
Record GenerateContentResponse := mkResponse { response_text : option jsstring }.

(** The client object returned by [new GoogleGenAI({ apiKey })]. *)
Record GoogleGenAI := mkClient { apiKey : option jsstring }.

(** The delegate as an oracle.  [i] is the position, in the session, of
    the service call that is asking, so that one request may be answered
    differently over time.  [construct] says whether the constructor
    throws. *)
Record Delegate := mkDelegate {
  construct : nat -> option jsstring -> option Exn;
  respond : nat -> GoogleGenAI -> GenerateContentParameters
            -> result GenerateContentResponse }.

(* ------------------------------------------------------------------ *)
(** ** Service programs

    An [async] function of the service is a tree of its interactions with
    the delegate and the console. *)

Inductive Svc (A : Type) : Type :=
| Return (a : A)
| Throw (e : Exn)
| NewGoogleGenAI (key : option jsstring) (k : result GoogleGenAI -> Svc A)
| GenerateContent (ai : GoogleGenAI) (params : GenerateContentParameters)
    (k : result GenerateContentResponse -> Svc A)
| ConsoleError (label : jsstring) (e : option Exn) (k : Svc A).
Arguments Return {A} a.
Arguments Throw {A} e.
Arguments NewGoogleGenAI {A} key k.
Arguments GenerateContent {A} ai params k.
Arguments ConsoleError {A} label e k.

Definition liftSvc {A} (r : result A) : Svc A :=
  match r with
  | inl e => Throw e
  | inr a => Return a
  end.

Fixpoint bindSvc {A B} (p : Svc A) (f : A -> Svc B) : Svc B :=
  match p with
  | Return a => f a
  | Throw e => Throw e
  | NewGoogleGenAI key k => NewGoogleGenAI key (fun r => bindSvc (k r) f)
  | GenerateContent ai params k => GenerateContent ai params (fun r => bindSvc (k r) f)
  | ConsoleError label e k => ConsoleError label e (bindSvc k f)
  end.

(** [try { p } catch (error) { h error }] *)
Fixpoint tryCatchSvc {A} (p : Svc A) (h : Exn -> Svc A) : Svc A :=
  match p with
  | Return a => Return a
  | Throw e => h e
  | NewGoogleGenAI key k => NewGoogleGenAI key (fun r => tryCatchSvc (k r) h)
  | GenerateContent ai params k =>
      GenerateContent ai params (fun r => tryCatchSvc (k r) h)
  | ConsoleError label e k => ConsoleError label e (tryCatchSvc k h)
  end.

(** [new GoogleGenAI({ apiKey: key })] *)
Definition newGoogleGenAI (key : option jsstring) : Svc GoogleGenAI :=
  NewGoogleGenAI key liftSvc.

(** [await ai.models.generateContent(params)] *)
Definition generateContent (ai : GoogleGenAI) (params : GenerateContentParameters)
    : Svc GenerateContentResponse :=
  GenerateContent ai params liftSvc.

Declare Scope svc_scope.
Delimit Scope svc_scope with svc.
Notation "x <- p ;; k" := (bindSvc p (fun x => k))
  (at level 61, p at next level, right associativity) : svc_scope.

(** What running a service program against a delegate shows. *)
Record SvcRun (A : Type) := mkSvcRun {
  outcome : result A;
  requests : list (GoogleGenAI * GenerateContentParameters);
  console : list (jsstring * option Exn) }.
Arguments mkSvcRun {A} outcome requests console.
Arguments outcome {A} s.
Arguments requests {A} s.
Arguments console {A} s.

Fixpoint runSvc {A} (d : Delegate) (i : nat) (p : Svc A) : SvcRun A :=
  match p with
  | Return a => mkSvcRun (ok a) [] []
  | Throw e => mkSvcRun (throw e) [] []
  | NewGoogleGenAI key k =>
      runSvc d i (k (match construct d i key with
                     | Some e => throw e
                     | None => ok (mkClient key)
                     end))
  | GenerateContent ai params k =>
      let r := runSvc d i (k (respond d i ai params)) in
      mkSvcRun (outcome r) ((ai, params) :: requests r) (console r)
  | ConsoleError label e k =>
      let r := runSvc d i k in
      mkSvcRun (outcome r) (requests r) ((label, e) :: console r)
  end.

(* ------------------------------------------------------------------ *)
(** ** services/geminiService.ts: what the three revisions share *)

Definition ANALYSIS_SCHEMA : Schema :=
  OBJECT
    [(js "match_score", NUMBER);
     (js "personal_info",
      OBJECT [(js "name", STRING); (js "role", STRING); (js "email", STRING);
              (js "phone", STRING); (js "location", STRING);
              (js "linkedin", STRING); (js "links", ARRAY STRING)]
             [js "name"; js "email"; js "phone"]);
     (js "education",
      ARRAY (OBJECT [(js "institution", STRING); (js "degree", STRING);
                     (js "date", STRING); (js "description", STRING)]
                    [js "institution"; js "degree"]));
     (js "experience",
      ARRAY (OBJECT [(js "company", STRING); (js "role", STRING);
                     (js "date", STRING); (js "bullets", ARRAY STRING)]
                    [js "company"; js "role"; js "bullets"]));
     (js "skills",
      ARRAY (OBJECT [(js "category", STRING); (js "items", ARRAY STRING)]
                    [js "category"; js "items"]));
     (js "certifications", ARRAY STRING);
     (js "missing_keywords", ARRAY STRING);
     (js "hard_skill_gaps", ARRAY STRING);
     (js "soft_skill_gaps", ARRAY STRING);
     (js "formatting_issues", ARRAY STRING);
     (js "impact_analysis", STRING);
     (js "impact_score", NUMBER);
     (js "original_text", STRING);
     (js "annotations",
      ARRAY (OBJECT [(js "text_segment", STRING); (js "critique", STRING);
                     (js "severity", STRING_enum [js "low"; js "medium"; js "high"]);
                     (js "suggested_fix", STRING)]
                    [js "text_segment"; js "critique"; js "severity"]));
     (js "mode", STRING_enum [js "generalized"; js "specific"])]
    [js "match_score"; js "personal_info"; js "education"; js "experience";
     js "skills"; js "certifications"; js "missing_keywords";
     js "hard_skill_gaps"; js "soft_skill_gaps"; js "formatting_issues";
     js "impact_analysis"; js "impact_score"; js "original_text";
     js "annotations"; js "mode"].

Definition RECTIFY_SCHEMA : Schema :=
  OBJECT
    [(js "revisedSummary", STRING);
     (js "revisedExperience",
      ARRAY (OBJECT [(js "company", STRING); (js "role", STRING);
                     (js "date", STRING); (js "bullets", ARRAY STRING)]
                    [js "company"; js "role"; js "bullets"]))]
    [js "revisedSummary"; js "revisedExperience"].

(** [process.env] *)
Record Env := mkEnv { API_KEY : option jsstring }.

(** Truth value of an optional string: [undefined] and [''] are falsy. *)
Definition truthy (s : option jsstring) : bool :=
  match s with
  | Some (_ :: _) => true
  | _ => false
  end.

(** [!jobDescription || jobDescription.trim().length === 0] *)
Definition isGeneralizedFor (jobDescription : option jsstring) : bool :=
  negb (truthy jobDescription) ||
  match jobDescription with
  | Some s => Nat.eqb (length (trim s)) 0
  | None => true
  end.

(** The lines of a template literal. *)
Definition lines (l : list jsstring) : jsstring := join [10] l.

(** The parts after the instruction: the file if there is one, else the
    text if it is not empty, else nothing.  [label] is the heading the
    revision puts before the text. *)
Definition sourceParts (label : jsstring) (source : ResumeSource) : list Part :=
  match file source with
  | Some f => [InlineData (data f) (mimeType f)]
  | None =>
      match text source with
      | Some (c :: t) => [TextPart (label ++ [10] ++ c :: t)]
      | _ => []
      end
  end.

(** [[...analysis.missing_keywords, ...analysis.hard_skill_gaps].join(', ')] *)
Definition keywordsListOf (analysis : JSValue) : result jsstring :=
  let? mk := getProp analysis (js "missing_keywords") in
  let? l1 := spread mk in
  let? hg := getProp analysis (js "hard_skill_gaps") in
  let? l2 := spread hg in
  Array_join (l1 ++ l2) (js ", ").

Local Open Scope svc_scope.

(* ------------------------------------------------------------------ *)
(** ** services/geminiService.ts, revision [part_000] *)

Module GeminiService0.

Definition systemPrompt : jsstring :=
  lines
    [js "You are a Senior Full-Stack AI Engineer and CV Data Architect. ";
     js "  TASK: Perform a lossless high-fidelity extraction and analysis.";
     js "  ";
     js "  ZERO-LOSS PROTOCOL:";
     js "  1. Capture 100% of roles, companies, and bullet points.";
     js "  2. Map personal data exactly. Use 'Present' for current roles.";
     js "  3. Categorize skills into logical groups.";
     js "  ";
     js "  OUTPUT: Strict JSON matching the schema. No text wrapping."].

Definition prompt (keywordsList summary experience : jsstring) : jsstring :=
  lines
    [js "You are an expert Resume Surgeon. ";
     js "  TASK: Transform bullets to Action-Result format without omitting ANY existing data.";
     js "  ";
     js "  STRICT RULES:";
     js "  1. Maintain 100% of roles and companies.";
     js "  2. Integrate: [" ++ keywordsList ++ js "].";
     js "  3. DO NOT cut the middle of text.";
     js "  ";
     js "  INPUT:";
     js "  Summary: " ++ summary;
     js "  Experience: " ++ experience].

(** The instruction of a revision request: [keywordsList], then the
    template literal, whose substitutions are converted to strings from
    left to right. *)
Definition promptFor (analysis : JSValue) : result jsstring :=
  let? keywordsList := keywordsListOf analysis in
  let? impact := getProp analysis (js "impact_analysis") in
  let? summary := ToString impact in
  let? exp := getProp analysis (js "experience") in
  let? experience := ToString (JSON_stringify exp) in
  ok (prompt keywordsList summary experience).

Definition analysisParams (source : ResumeSource) : GenerateContentParameters :=
  mkParams (js "gemini-3-pro-preview")
    (ContentParts (TextPart systemPrompt
                   :: sourceParts (js "RAW CONTENT:") source))
    (mkConfig (js "application/json") ANALYSIS_SCHEMA 4000).

Definition rectifyParams (p : jsstring) : GenerateContentParameters :=
  mkParams (js "gemini-3-pro-preview") (ContentText p)
    (mkConfig (js "application/json") RECTIFY_SCHEMA 4000).

Definition analyzeResume (env : Env) (source : ResumeSource)
    (jobDescription : option jsstring) : Svc JSValue :=
  if negb (truthy (API_KEY env)) then
    ConsoleError
      (js "Gemini API Key is missing. Please set API_KEY in your environment variables.")
      None
      (Throw (Error (js "Missing API Key")))
  else
    ai <- newGoogleGenAI (API_KEY env) ;;
    let isGeneralized := isGeneralizedFor jobDescription in
    tryCatchSvc
      (response <- generateContent ai (analysisParams source) ;;
       match response_text response with
       | Some (c :: t) => liftSvc (JSON_parse (trim (c :: t)))
       | _ => Throw (Error (js "Empty response from AI"))
       end)
      (fun error => ConsoleError (js "AI Analysis Error:") (Some error) (Throw error)).

Definition rectifyResume (env : Env) (analysis : JSValue)
    (jobDescription : option jsstring) : Svc JSValue :=
  if negb (truthy (API_KEY env)) then Throw (Error (js "Missing API Key"))
  else
    ai <- newGoogleGenAI (API_KEY env) ;;
    p <- liftSvc (promptFor analysis) ;;
    tryCatchSvc
      (response <- generateContent ai (rectifyParams p) ;;
       match response_text response with
       | Some (c :: t) => liftSvc (JSON_parse (trim (c :: t)))
       | _ => Throw (Error (js "Empty response from AI"))
       end)
      (fun error =>
         ConsoleError (js "AI Rectification Error:") (Some error) (Throw error)).

End GeminiService0.

(* ------------------------------------------------------------------ *)
(** ** services/geminiService.ts, revision [part_001] *)

Module GeminiService1.

Definition systemPrompt (isGeneralized : bool) : jsstring :=
  lines
    [js "You are the High-Fidelity CV Data Architect. ";
     js "  TASK: Perform a FULL EXTRACTION of the provided CV. ";
     js "  ";
     js "  STRICT RULES:";
     js "  1. DO NOT TRUNCATE professional experience. Capture EVERY bullet point provided in the source.";
     js "  2. If a section like 'Education' or 'Skills' exists, it MUST be extracted 100%. ";
     js "  3. Map personal data exactly. Fix logical errors (e.g. '2025' should be 'Present' if relevant to current employment).";
     js "  ";
     js "  ANALYSIS:";
     js "  - Mode: " ++ (if isGeneralized then js "GENERAL" else js "SPECIFIC ALIGNMENT") ++ js ".";
     js "  - Be critical about the ATS score (0-100).";
     js "  - List keywords missing relative to the JD.";
     js "  ";
     js "  OUTPUT FORMAT: JSON ONLY. DO NOT ADD MARKDOWN WRAPPERS."].

Definition prompt (keywordsList summary experience : jsstring) : jsstring :=
  lines
    [js "You are a Senior Resume Surgeon. ";
     js "  TASK: Refactor professional bullets for maximum impact without losing information.";
     js "  ";
     js "  ZERO-LOSS RECTIFICATION RULES:";
     js "  1. Use the Action-Result format for ALL bullets.";
     js "  2. Maintain 100% of the roles and companies from the input. ";
     js "  3. DO NOT cut the middle of text. Each bullet must be a complete sentence.";
     js "  4. Inject these keywords naturally: [" ++ keywordsList ++ js "].";
     js "  ";
     js "  INPUT EXPERIENCE:";
     js "  " ++ experience;
     js "  ";
     js "  INPUT SUMMARY:";
     js "  " ++ summary].

(** The instruction of a revision request: [keywordsList], then the
    template literal, whose substitutions are converted to strings from
    left to right. *)
Definition promptFor (analysis : JSValue) : result jsstring :=
  let? keywordsList := keywordsListOf analysis in
  let? exp := getProp analysis (js "experience") in
  let? experience := ToString (JSON_stringify exp) in
  let? impact := getProp analysis (js "impact_analysis") in
  let? summary := ToString impact in
  ok (prompt keywordsList summary experience).

Definition analysisParams (source : ResumeSource) (isGeneralized : bool)
    : GenerateContentParameters :=
  mkParams (js "gemini-3-pro-preview")
    (ContentParts (TextPart (systemPrompt isGeneralized)
                   :: sourceParts (js "CV CONTENT:") source))
    (mkConfig (js "application/json") ANALYSIS_SCHEMA 8000).

Definition rectifyParams (p : jsstring) : GenerateContentParameters :=
  mkParams (js "gemini-3-pro-preview") (ContentText p)
    (mkConfig (js "application/json") RECTIFY_SCHEMA 8000).

(** [JSON.parse(response.text.trim() || '{}')]: [trim] on [undefined]
    throws; an empty trimmed text is replaced by ['{}']. *)
Definition parseOrEmpty (response : GenerateContentResponse) : Svc JSValue :=
  match response_text response with
  | None => Throw TypeError
  | Some t =>
      liftSvc (JSON_parse (if truthy (Some (trim t)) then trim t else js "{}"))
  end.

Definition analyzeResume (env : Env) (source : ResumeSource)
    (jobDescription : option jsstring) : Svc JSValue :=
  ai <- newGoogleGenAI (API_KEY env) ;;
  let isGeneralized := isGeneralizedFor jobDescription in
  response <- generateContent ai (analysisParams source isGeneralized) ;;
  parseOrEmpty response.

Definition rectifyResume (env : Env) (analysis : JSValue)
    (jobDescription : option jsstring) : Svc JSValue :=
  ai <- newGoogleGenAI (API_KEY env) ;;
  p <- liftSvc (promptFor analysis) ;;
  response <- generateContent ai (rectifyParams p) ;;
  parseOrEmpty response.

End GeminiService1.

(* ------------------------------------------------------------------ *)
(** ** services/geminiService.ts, revision [part_002] *)

Module GeminiService2.

Definition systemPrompt : jsstring :=
  lines
    [js "You are a Senior Full-Stack AI Engineer and CV Data Architect. ";
     js "  TASK: Perform a lossless high-fidelity extraction and analysis of the provided resume.";
     js "  ";
     js "  ZERO-LOSS PROTOCOL:";
     js "  1. DO NOT discard or summarize sections out of existence.";
     js "  2. Extract 100% of the roles, companies, dates, and bullet points. ";
     js "  3. Ensure 'Present' is used for current roles instead of future-dated years like '2025'.";
     js "  4. Categorize skills into logical groups (e.g., Languages, Frameworks, Tools).";
     js "  ";
     js "  ANALYSIS:";
     js "  - If a JD is provided, match strictly against it. ";
     js "  - If not, audit against universal ATS formatting and impact best practices.";
     js "  ";
     js "  OUTPUT: Strict JSON matching the schema."].

Definition prompt (keywordsList summary experience : jsstring) : jsstring :=
  lines
    [js "You are an expert Resume Surgeon. ";
     js "  TASK: Optimize the summary and experience bullets while maintaining a strictly ZERO-LOSS approach.";
     js "  ";
     js "  SURGERY RULES:";
     js "  1. Transform every experience bullet into an 'Action-Result' masterpiece (e.g., 'Enhanced system throughput by 40% via implementation of X').";
     js "  2. Maintain EVERY role and company. DO NOT omit history to save space.";
     js "  3. Integrate keywords naturally: [" ++ keywordsList ++ js "].";
     js "  4. Ensure sentences are complete and professional. No " ++ [34] ++ js "cut-out" ++ [34] ++ js " text.";
     js "  ";
     js "  INPUT DATA:";
     js "  Summary: " ++ summary;
     js "  Experience: " ++ experience].

(** The instruction of a revision request: [keywordsList], then the
    template literal, whose substitutions are converted to strings from
    left to right. *)
Definition promptFor (analysis : JSValue) : result jsstring :=
  let? keywordsList := keywordsListOf analysis in
  let? impact := getProp analysis (js "impact_analysis") in
  let? summary := ToString impact in
  let? exp := getProp analysis (js "experience") in
  let? experience := ToString (JSON_stringify exp) in
  ok (prompt keywordsList summary experience).

Definition analysisParams (source : ResumeSource) : GenerateContentParameters :=
  mkParams (js "gemini-3-pro-preview")
    (ContentParts (TextPart systemPrompt
                   :: sourceParts (js "RAW CONTENT:") source))
    (mkConfig (js "application/json") ANALYSIS_SCHEMA 8000).

Definition rectifyParams (p : jsstring) : GenerateContentParameters :=
  mkParams (js "gemini-3-pro-preview") (ContentText p)
    (mkConfig (js "application/json") RECTIFY_SCHEMA 8000).

(** [JSON.parse(response.text.trim() || '{}')]: [trim] on [undefined]
    throws; an empty trimmed text is replaced by ['{}']. *)
Definition parseOrEmpty (response : GenerateContentResponse) : Svc JSValue :=
  match response_text response with
  | None => Throw TypeError
  | Some t =>
      liftSvc (JSON_parse (if truthy (Some (trim t)) then trim t else js "{}"))
  end.

Definition analyzeResume (env : Env) (source : ResumeSource)
    (jobDescription : option jsstring) : Svc JSValue :=
  ai <- newGoogleGenAI (API_KEY env) ;;
  let isGeneralized := isGeneralizedFor jobDescription in
  response <- generateContent ai (analysisParams source) ;;
  parseOrEmpty response.

Definition rectifyResume (env : Env) (analysis : JSValue)
    (jobDescription : option jsstring) : Svc JSValue :=
  ai <- newGoogleGenAI (API_KEY env) ;;
  p <- liftSvc (promptFor analysis) ;;
  response <- generateContent ai (rectifyParams p) ;;
  parseOrEmpty response.

End GeminiService2.

Local Close Scope svc_scope.

(** A revision of the service, as the application imports it. *)
Record Service := mkService {
  analyze : Env -> ResumeSource -> option jsstring -> Svc JSValue;
  rectify : Env -> JSValue -> option jsstring -> Svc JSValue }.

Definition geminiService0 : Service :=
  mkService GeminiService0.analyzeResume GeminiService0.rectifyResume.
Definition geminiService1 : Service :=
  mkService GeminiService1.analyzeResume GeminiService1.rectifyResume.
Definition geminiService2 : Service :=
  mkService GeminiService2.analyzeResume GeminiService2.rectifyResume.

(* ------------------------------------------------------------------ *)
(** ** App.tsx: component state and event handlers

    State updates requested in one synchronous stretch of a handler are
    queued and applied together at the next render, which happens when the
    handler suspends on [await] or ends (React's batching).  The machine
    below keeps the states given to the renders; what the component returns
    for a state, and whether evaluating it throws, is the matter of the
    view, further down.  The PDF export and the file reader are outside the
    model. *)

Record AppState := mkState {
  resumeSource : option ResumeSource;
  jobDescription : jsstring;
  isAnalyzing : bool;
  analysis : JSValue;          (* [AnalysisResult | null] *)
  prevScore : JSValue;         (* [number | undefined] *)
  isRectifying : bool;
  draft : option ResumeDraft }.

(** The values given to [useState]. *)
Definition initialState : AppState :=
  mkState None [] false JNull JUndefined false None.

Inductive Update : Type :=
| setResumeSource (v : option ResumeSource)
| setJobDescription (v : jsstring)
| setIsAnalyzing (v : bool)
| setAnalysis (v : JSValue)
| setAnalysisWith (f : JSValue -> result JSValue)  (* [setAnalysis(prev => ...)] *)
| setPrevScore (v : JSValue)
| setIsRectifying (v : bool)
| setDraft (v : option ResumeDraft).

(** An updater function runs when the update is applied; it may throw. *)
Definition applyUpdate (u : Update) (s : AppState) : result AppState :=
  match u with
  | setResumeSource v =>
      ok (mkState v (jobDescription s) (isAnalyzing s) (analysis s) (prevScore s)
            (isRectifying s) (draft s))
  | setJobDescription v =>
      ok (mkState (resumeSource s) v (isAnalyzing s) (analysis s) (prevScore s)
            (isRectifying s) (draft s))
  | setIsAnalyzing v =>
      ok (mkState (resumeSource s) (jobDescription s) v (analysis s) (prevScore s)
            (isRectifying s) (draft s))
  | setAnalysis v =>
      ok (mkState (resumeSource s) (jobDescription s) (isAnalyzing s) v (prevScore s)
            (isRectifying s) (draft s))
  | setAnalysisWith f =>
      let? v := f (analysis s) in
      ok (mkState (resumeSource s) (jobDescription s) (isAnalyzing s) v (prevScore s)
            (isRectifying s) (draft s))
  | setPrevScore v =>
      ok (mkState (resumeSource s) (jobDescription s) (isAnalyzing s) (analysis s) v
            (isRectifying s) (draft s))
  | setIsRectifying v =>
      ok (mkState (resumeSource s) (jobDescription s) (isAnalyzing s) (analysis s)
            (prevScore s) v (draft s))
  | setDraft v =>
      ok (mkState (resumeSource s) (jobDescription s) (isAnalyzing s) (analysis s)
            (prevScore s) (isRectifying s) v)
  end.

Fixpoint applyAll (us : list Update) (s : AppState) : result AppState :=
  match us with
  | [] => ok s
  | u :: r => let? s' := applyUpdate u s in applyAll r s'
  end.

(** The two calls a handler awaits. *)
Inductive Call : Type :=
| AnalyzeResume (source : ResumeSource) (jobDescription : option jsstring)
| RectifyResume (analysis : JSValue) (jobDescription : option jsstring).

(** The text of an [alert]. *)
Inductive Message : Type :=
| Literal (s : jsstring)
| AuditFailed (err : Exn).
  (* [`Audit failed: ${err.message || 'Check connection/API key'}. Please
     check the browser console for details.`] *)

(** An event handler: its awaits, state updates, alerts and console output. *)
Inductive Task (A : Type) : Type :=
| Done (a : A)
| Fail (e : Exn)
| Await (c : Call) (k : result JSValue -> Task A)
| SetState (u : Update) (k : Task A)
| Alert (m : Message) (k : Task A)
| Console (label : jsstring) (e : Exn) (k : Task A).
Arguments Done {A} a.
Arguments Fail {A} e.
Arguments Await {A} c k.
Arguments SetState {A} u k.
Arguments Alert {A} m k.
Arguments Console {A} label e k.

Definition liftTask {A} (r : result A) : Task A :=
  match r with
  | inl e => Fail e
  | inr a => Done a
  end.

Fixpoint bindTask {A B} (p : Task A) (f : A -> Task B) : Task B :=
  match p with
  | Done a => f a
  | Fail e => Fail e
  | Await c k => Await c (fun r => bindTask (k r) f)
  | SetState u k => SetState u (bindTask k f)
  | Alert m k => Alert m (bindTask k f)
  | Console label e k => Console label e (bindTask k f)
  end.

(** [try { p } catch (err) { h err }] *)
Fixpoint tryCatch {A} (p : Task A) (h : Exn -> Task A) : Task A :=
  match p with
  | Done a => Done a
  | Fail e => h e
  | Await c k => Await c (fun r => tryCatch (k r) h)
  | SetState u k => SetState u (tryCatch k h)
  | Alert m k => Alert m (tryCatch k h)
  | Console label e k => Console label e (tryCatch k h)
  end.

(** [try { p } finally { f }] *)
Fixpoint finally {A} (p : Task A) (f : Task unit) : Task A :=
  match p with
  | Done a => bindTask f (fun _ => Done a)
  | Fail e => bindTask f (fun _ => Fail e)
  | Await c k => Await c (fun r => finally (k r) f)
  | SetState u k => SetState u (finally k f)
  | Alert m k => Alert m (finally k f)
  | Console label e k => Console label e (finally k f)
  end.

Definition await (c : Call) : Task JSValue := Await c liftTask.
Definition set (u : Update) : Task unit := SetState u (Done tt).
Definition alert (m : Message) : Task unit := Alert m (Done tt).
Definition console_error (label : jsstring) (e : Exn) : Task unit :=
  Console label e (Done tt).

Declare Scope task_scope.
Delimit Scope task_scope with task.
Notation "x <- p ;; k" := (bindTask p (fun x => k))
  (at level 61, p at next level, right associativity) : task_scope.
Notation "p ;; k" := (bindTask p (fun _ => k))
  (at level 61, right associativity) : task_scope.

(** What the outside of a handler answers to its calls: the [i]-th call of
    the session, [c], settles with [serve i c]. *)
Definition Server := nat -> Call -> result JSValue.

(** The server made of a revision of the service, an environment and a
    delegate. *)
Definition serveWith (svc : Service) (env : Env) (d : Delegate) : Server :=
  fun i c =>
    outcome (runSvc d i
               match c with
               | AnalyzeResume source jd => analyze svc env source jd
               | RectifyResume a jd => rectify svc env a jd
               end).

(** What the component does, as seen from the component: the states it
    gives to its renders, its calls with their answers, its alerts and the
    console lines of its handlers.  What a call writes to the console
    belongs to the call ([console] of [runSvc]) and is not among them. *)
Inductive Event : Type :=
| Rendered (s : AppState)
| Called (c : Call) (r : result JSValue)
| Alerted (m : Message)
| Logged (label : jsstring) (e : Exn).

(** The mounted component: the state given to the last render, the queued
    updates, the error that unmounted it if an updater threw during a
    render, the number of calls served and the events so far. *)
Record Machine := mkMachine {
  state : AppState;
  pending : list Update;
  renderError : option Exn;
  served : nat;
  events : list Event }.

Definition mount (s : AppState) : Machine := mkMachine s [] None 0 [].

(** A render, up to the evaluation of the view: the queued updates are
    applied in order and the state they give is handed to the view.  An
    updater that throws takes the component down (there is no error
    boundary); later updates are dropped.  So does a view that throws on
    the new state: that is [viewOf]'s to say, state by state. *)
Definition flush (m : Machine) : Machine :=
  match renderError m, pending m with
  | Some _, _ => mkMachine (state m) [] (renderError m) (served m) (events m)
  | None, [] => m
  | None, us =>
      match applyAll us (state m) with
      | inr s' => mkMachine s' [] None (served m) (events m ++ [Rendered s'])
      | inl e => mkMachine (state m) [] (Some e) (served m) (events m)
      end
  end.

Fixpoint runTask {A} (serve : Server) (t : Task A) (m : Machine)
    : result A * Machine :=
  match t with
  | Done a => (ok a, m)
  | Fail e => (throw e, m)
  | Await c k =>
      let m1 := flush m in
      let r := serve (served m1) c in
      runTask serve (k r)
        (mkMachine (state m1) (pending m1) (renderError m1) (S (served m1))
           (events m1 ++ [Called c r]))
  | SetState u k =>
      runTask serve k
        (mkMachine (state m) (pending m ++ [u]) (renderError m) (served m) (events m))
  | Alert msg k =>
      runTask serve k
        (mkMachine (state m) (pending m) (renderError m) (served m)
           (events m ++ [Alerted msg]))
  | Console label e k =>
      runTask serve k
        (mkMachine (state m) (pending m) (renderError m) (served m)
           (events m ++ [Logged label e]))
  end.

(** An event reaches a handler: the handler is the closure of the last
    render, so it reads that render's state; when it has run, the component
    renders. *)
Definition dispatch (serve : Server) (handler : AppState -> Task unit) (m : Machine)
    : Machine :=
  flush (snd (runTask serve (handler (state m)) m)).

(** *** Handlers that overlap

    [dispatch] runs a handler with nothing in between.  The component itself
    stays live while a call is pending: a click may reach another handler
    before the answer comes.  A session keeps the handlers suspended on a
    call beside the component; its operations are the click on a control
    and the arrival of an answer. *)

(** Where a handler stands when it gives the control back. *)
Inductive Progress (A : Type) : Type :=
| Finished (r : result A)
| Waiting (c : Call) (k : result JSValue -> Task A).
Arguments Finished {A} r.
Arguments Waiting {A} c k.

(** A handler runs up to its next [await] or to its end; the component
    renders there. *)
Fixpoint advance {A} (t : Task A) (m : Machine) : Progress A * Machine :=
  match t with
  | Done a => (Finished (ok a), flush m)
  | Fail e => (Finished (throw e), flush m)
  | Await c k => (Waiting c k, flush m)
  | SetState u k =>
      advance k
        (mkMachine (state m) (pending m ++ [u]) (renderError m) (served m) (events m))
  | Alert msg k =>
      advance k
        (mkMachine (state m) (pending m) (renderError m) (served m)
           (events m ++ [Alerted msg]))
  | Console label e k =>
      advance k
        (mkMachine (state m) (pending m) (renderError m) (served m)
           (events m ++ [Logged label e]))
  end.

(** The call [c] has settled with [r]. *)
Definition answered (c : Call) (r : result JSValue) (m : Machine) : Machine :=
  mkMachine (state m) (pending m) (renderError m) (S (served m))
    (events m ++ [Called c r]).

Record Session := mkSession {
  machine : Machine;
  waiting : list (Call * (result JSValue -> Task unit)) }.

Definition suspend (p : Progress unit * Machine)
    (others : list (Call * (result JSValue -> Task unit))) : Session :=
  match p with
  | (Finished _, m) => mkSession m others
  | (Waiting c k, m) => mkSession m (others ++ [(c, k)])
  end.

(** A click reaches [handler], the closure of the last render. *)
Definition click (handler : AppState -> Task unit) (x : Session) : Session :=
  suspend (advance (handler (state (machine x))) (machine x)) (waiting x).

(** The oldest pending call settles with [r] and its handler goes on. *)
Definition settle (r : result JSValue) (x : Session) : Session :=
  match waiting x with
  | [] => x
  | (c, k) :: others =>
      suspend (advance (k r) (answered c r (machine x))) others
  end.

(** The calls observed, oldest first. *)
Fixpoint calls (es : list Event) : list Call :=
  match es with
  | [] => []
  | Called c _ :: r => c :: calls r
  | _ :: r => calls r
  end.

(** The renders observed, oldest first. *)
Fixpoint renders (es : list Event) : list AppState :=
  match es with
  | [] => []
  | Rendered s :: r => s :: renders r
  | _ :: r => renders r
  end.

Fixpoint mapResult {A B} (f : A -> result B) (l : list A) : result (list B) :=
  match l with
  | [] => ok []
  | x :: r => let? y := f x in let? ys := mapResult f r in ok (y :: ys)
  end.

(** [prev => prev ? ({ ...prev, match_score: reScore.match_score }) : null] *)
Definition withMatchScore (reScore : JSValue) (prev : JSValue) : result JSValue :=
  if ToBoolean prev then
    let? score := getProp reScore (js "match_score") in
    ok (JObject (setProperty (js "match_score") score (ownProperties prev)))
  else ok JNull.

(** [{ ...draft, summary: res.revisedSummary, experience: res.revisedExperience }] *)
Definition revisedDraft (d : ResumeDraft) (res : JSValue) : result ResumeDraft :=
  let? s := getProp res (js "revisedSummary") in
  let? e := getProp res (js "revisedExperience") in
  ok (mkDraft (personal_info d) (education d) e (skills d) (certifications d) s).

(** The object literal given to [setDraft] after an extraction. *)
Definition draftOf (res : JSValue) : result ResumeDraft :=
  let? p := getProp res (js "personal_info") in
  let? ed := getProp res (js "education") in
  let? ex := getProp res (js "experience") in
  let? sk := getProp res (js "skills") in
  let? ce := getProp res (js "certifications") in
  let? su := getProp res (js "impact_analysis") in
  ok (mkDraft p ed ex sk ce su).

(** [xs.map(f).join('\n')] and [x.join('\n')]: a [TypeError] unless the
    receiver is an array. *)
Definition mapJoinLines (f : JSValue -> result jsstring) (xs : JSValue)
    : result jsstring :=
  match xs with
  | JArray l => let? ss := mapResult f l in ok (join [10] ss)
  | _ => throw TypeError
  end.

Definition joinLines (x : JSValue) : result jsstring :=
  match x with
  | JArray l => Array_join l [10]
  | _ => throw TypeError
  end.

(** [err.message || 'Check connection/API key'], as the template literal of
    the second revision's alert evaluates it: reading [message] throws when
    what was caught is [undefined] or [null]; the operand chosen is then
    converted to a string.  An [Error], and the errors of the runtime, have
    a string for message. *)
Definition auditMessage (err : Exn) : result unit :=
  match err with
  | Rejected reason =>
      let? m := getProp reason (js "message") in
      if ToBoolean m then let? _ := ToString m in ok tt else ok tt
  | Error _ | TypeError | SyntaxError => ok tt
  end.

Local Open Scope task_scope.

(* ------------------------------------------------------------------ *)
(** ** App.tsx, first revision *)

Module App1.

Definition resetAll : Task unit :=
  set (setResumeSource None) ;;
  set (setJobDescription []) ;;
  set (setAnalysis JNull) ;;
  set (setDraft None) ;;
  set (setPrevScore JUndefined).

(** The button beside the file name: [onClick={() => setResumeSource(null)}]. *)
Definition clearSource : Task unit := set (setResumeSource None).

Definition handleAnalyze (s : AppState) : Task unit :=
  match resumeSource s with
  | None => Done tt
  | Some source =>
      set (setIsAnalyzing true) ;;
      finally
        (tryCatch
           (res <- await (AnalyzeResume source (Some (jobDescription s))) ;;
            set (setAnalysis res) ;;
            score <- liftTask (getProp res (js "match_score")) ;;
            set (setPrevScore score) ;;
            d <- liftTask (draftOf res) ;;
            set (setDraft (Some d)))
           (fun err =>
              alert (Literal (js "Extraction failed. Please ensure the document is not password protected."))))
        (set (setIsAnalyzing false))
  end.

(** [`${e.role}\n${e.bullets.join('\n')}`] *)
Definition entryText (e : JSValue) : result jsstring :=
  let? r := getProp e (js "role") in
  let? rs := ToString r in
  let? b := getProp e (js "bullets") in
  let? bs := joinLines b in
  ok (rs ++ [10] ++ bs).

(** [`${newDraft.summary}\n\n${newDraft.experience.map(...).join('\n')}`] *)
Definition fullContent (newDraft : ResumeDraft) : result jsstring :=
  let? sm := ToString (summary newDraft) in
  let? ex := mapJoinLines entryText (experience newDraft) in
  ok (sm ++ [10; 10] ++ ex).

Definition handleRectify (s : AppState) : Task unit :=
  match ToBoolean (analysis s), draft s with
  | true, Some d =>
      set (setIsRectifying true) ;;
      finally
        (tryCatch
           (res <- await (RectifyResume (analysis s) (Some (jobDescription s))) ;;
            newDraft <- liftTask (revisedDraft d res) ;;
            set (setDraft (Some newDraft)) ;;
            content <- liftTask (fullContent newDraft) ;;
            reScore <- await (AnalyzeResume (mkSource (Some content) None)
                                (Some (jobDescription s))) ;;
            set (setAnalysisWith (withMatchScore reScore)))
           (fun err =>
              alert (Literal (js "The surgery was interrupted. Please try again."))))
        (set (setIsRectifying false))
  | _, _ => Done tt
  end.

End App1.

(* ------------------------------------------------------------------ *)
(** ** App.tsx, second revision *)

Module App2.

Definition resetAll : Task unit :=
  set (setResumeSource None) ;;
  set (setJobDescription []) ;;
  set (setAnalysis JNull) ;;
  set (setDraft None) ;;
  set (setPrevScore JUndefined).

Definition handleAnalyze (s : AppState) : Task unit :=
  match resumeSource s with
  | None => Done tt
  | Some source =>
      set (setIsAnalyzing true) ;;
      finally
        (tryCatch
           (res <- await (AnalyzeResume source (Some (jobDescription s))) ;;
            set (setAnalysis res) ;;
            score <- liftTask (getProp res (js "match_score")) ;;
            set (setPrevScore score) ;;
            d <- liftTask (draftOf res) ;;
            set (setDraft (Some d)))
           (fun err =>
              console_error (js "ANALYSIS_ERROR:") err ;;
              liftTask (auditMessage err) ;;
              alert (AuditFailed err)))
        (set (setIsAnalyzing false))
  end.

(** [`${e.role} at ${e.company}\n${e.bullets.join('\n')}`] *)
Definition entryText (e : JSValue) : result jsstring :=
  let? r := getProp e (js "role") in
  let? rs := ToString r in
  let? c := getProp e (js "company") in
  let? cs := ToString c in
  let? b := getProp e (js "bullets") in
  let? bs := joinLines b in
  ok (rs ++ js " at " ++ cs ++ [10] ++ bs).

(** [`${newDraft.summary}\n\n${newDraft.experience.map(...).join('\n')}`] *)
Definition fullText (newDraft : ResumeDraft) : result jsstring :=
  let? sm := ToString (summary newDraft) in
  let? ex := mapJoinLines entryText (experience newDraft) in
  ok (sm ++ [10; 10] ++ ex).

Definition handleRectify (s : AppState) : Task unit :=
  match ToBoolean (analysis s), draft s with
  | true, Some d =>
      set (setIsRectifying true) ;;
      finally
        (tryCatch
           (res <- await (RectifyResume (analysis s) (Some (jobDescription s))) ;;
            newDraft <- liftTask (revisedDraft d res) ;;
            set (setDraft (Some newDraft)) ;;
            content <- liftTask (fullText newDraft) ;;
            reScore <- await (AnalyzeResume (mkSource (Some content) None)
                                (Some (jobDescription s))) ;;
            set (setAnalysisWith (withMatchScore reScore)))
           (fun err =>
              console_error (js "RECTIFY_ERROR:") err ;;
              alert (Literal (js "Optimization gateway timed out. Please try again."))))
        (set (setIsRectifying false))
  | _, _ => Done tt
  end.

End App2.

Local Close Scope task_scope.

(* ------------------------------------------------------------------ *)
(** ** App.tsx, both revisions: the upload and the name of the export

    [handleFileUpload] and [handleExport] are the same in the two revisions.
    Of the first, the model has what its [onload] callback stores; of the
    second, the name it gives to [pdf.save].  The file reader, the canvas
    and the PDF library are outside the model. *)

(** [s.split(',')]: the fields between commas, at least one. *)
Fixpoint splitComma (s : jsstring) : list jsstring :=
  match s with
  | [] => [[]]
  | c :: r =>
      if c =? 44 then [] :: splitComma r
      else match splitComma r with
           | h :: t => (c :: h) :: t
           | [] => [[c]]
           end
  end.

(** A chosen file: its [type], its [name], and the data URL that
    [readAsDataURL] makes of its content ([reader.result]). *)
Record ChosenFile := mkChosen {
  file_type : jsstring; file_name : jsstring; reader_result : jsstring }.

(** The object given to [setResumeSource] by [reader.onload]:
    [{ file: { data: base64, mimeType: file.type, name: file.name } }] with
    [base64 = reader.result.split(',')[1]].  [None] when the result has no
    comma: [base64] is then [undefined], which [FilePayload] excludes. *)
Definition uploadedSource (f : ChosenFile) : option ResumeSource :=
  match nth_error (splitComma (reader_result f)) 1 with
  | Some base64 =>
      Some (mkSource None (Some (mkFile base64 (file_type f) (file_name f))))
  | None => None
  end.

(** [s.replace(/\s+/g, '_')]: each maximal run of white space becomes one
    underscore.  [inRun] says that the previous character was white space. *)
Fixpoint replaceRuns (inRun : bool) (s : jsstring) : jsstring :=
  match s with
  | [] => []
  | c :: r =>
      if isWhiteSpace c
      then if inRun then replaceRuns true r else 95 :: replaceRuns true r
      else c :: replaceRuns false r
  end.

(** [`${draft.personal_info.name.replace(/\s+/g, '_')}_Final_CV.pdf`]:
    a [TypeError] unless the name is a string. *)
Definition exportFileName (draft : ResumeDraft) : result jsstring :=
  let? n := getProp (personal_info draft) (js "name") in
  match n with
  | JString s => ok (replaceRuns false s ++ js "_Final_CV.pdf")
  | _ => throw TypeError
  end.

(* ------------------------------------------------------------------ *)
(** ** App.tsx: the view

    What [App] returns is evaluated at every render, on the state of that
    render.  Of the view the model keeps whether the evaluation goes
    through: a property read on [undefined] or [null], a call of [map],
    [slice] or [toUpperCase] on a value that has no such method, and an
    object handed to React as a child all throw, and with no error boundary
    around [App] a render that throws unmounts the component.  Markup, class
    names and texts play no part in that and are left out. *)

(** A value between the tags of an element.  React renders a string or a
    number, renders nothing for [undefined], [null] and booleans, renders
    an array child by child, and throws on any other object ("Objects are
    not valid as a React child"). *)
Fixpoint validChild (v : JSValue) : bool :=
  match v with
  | JObject _ => false
  | JArray l => forallb validChild l
  | _ => true
  end.

(** [v.k] can be read. *)
Definition readable (v : JSValue) : bool :=
  match v with
  | JUndefined | JNull => false
  | _ => true
  end.

(** [xs.map(x => ...)] between tags: only an array has a [map] to call (a
    string has none, and a property named [map] of an object read from JSON
    is no function); [item] says whether the callback, and the rendering of
    what it returns, go through on an element. *)
Definition mapped (item : JSValue -> bool) (xs : JSValue) : bool :=
  match xs with
  | JArray l => forallb item l
  | _ => false
  end.

(** [analysis?.k] *)
Definition optionalProp (v : JSValue) (k : jsstring) : JSValue :=
  if readable v then getProp_or_undefined v k else JUndefined.

(** [<Header score=... prevScore=... mode=... />], the same in the two
    revisions up to class names, texts and the thresholds of the colours.
    [mode] is tested and compared, never rendered.  With [score] not
    [undefined], [{score}%] is rendered, and [{prevScore}%] is unless
    [prevScore] is [undefined] or [prevScore === score]; in the first case
    [prevScore] is a valid child, in the second it is one exactly when
    [score] is, so the header goes through exactly when both are valid
    children, and object identity plays no part.  The comparisons
    [score > 85] and the like throw only on a value that has an object
    somewhere inside, which is no valid child either. *)
Definition Header (score prevScore mode : JSValue) : bool :=
  match score with
  | JUndefined => true
  | _ => validChild score && validChild prevScore
  end.

(** The callback of [draft.education.map]: [{edu.institution}],
    [{edu.degree}], [{edu.date}]. *)
Definition educationItem (edu : JSValue) : bool :=
  readable edu
  && validChild (getProp_or_undefined edu (js "institution"))
  && validChild (getProp_or_undefined edu (js "degree"))
  && validChild (getProp_or_undefined edu (js "date")).

(** The callback of [draft.skills.map]: [{cat.category}] and
    [cat.items.map((it, ii) => <SkillPill key={ii} label={it} />)], where
    [SkillPill] renders [{label}]. *)
Definition skillsItem (cat : JSValue) : bool :=
  readable cat
  && validChild (getProp_or_undefined cat (js "category"))
  && mapped validChild (getProp_or_undefined cat (js "items")).

(** [{draft.certifications.length > 0 && (... draft.certifications.map(cert
    => <p>... {cert}</p>) ...)}].  Reading [length] of [undefined] or [null]
    throws; a number or a boolean has no [length], and [undefined > 0] is
    false; a string that is not empty has a positive [length] and no [map];
    an array is rendered certificate by certificate.  An object with a
    property of its own named [length] is compared through a conversion to
    a number, which the model of numbers does not cover: [None]. *)
Definition certificationsBlock (c : JSValue) : option bool :=
  match c with
  | JUndefined | JNull => Some false
  | JBool _ | JNumber _ => Some true
  | JString s => Some (match s with [] => true | _ :: _ => false end)
  | JArray l => Some (forallb validChild l)
  | JObject ps => if hasProperty (js "length") ps then None else Some true
  end.

(** A block that the model cannot always decide, after blocks that it
    can: a throw anywhere is a throw of the whole. *)
Definition andThen (b : bool) (o : option bool) : option bool :=
  match o with
  | Some c => Some (b && c)
  | None => if b then None else Some false
  end.

Module View1.

(** [{analysis && (... analysis.formatting_issues.slice(0, 3).map((issue, i)
    => ... {issue} ...) ... analysis.formatting_issues.length === 0 && ...)}]:
    a falsy [analysis] is itself the child, and a valid one; otherwise
    [formatting_issues] has to be an array ([slice] of a string gives a
    string, which has no [map]). *)
Definition insights (analysis : JSValue) : bool :=
  if ToBoolean analysis
  then mapped validChild
         (match getProp_or_undefined analysis (js "formatting_issues") with
          | JArray l => JArray (firstn 3 l)
          | x => x
          end)
  else true.

(** The callback of [draft.experience.map]: [{exp.role}], [{exp.date}],
    [{exp.company}] and [exp.bullets.map((bullet, bi) => ... {bullet} ...)]. *)
Definition experienceItem (exp : JSValue) : bool :=
  readable exp
  && validChild (getProp_or_undefined exp (js "role"))
  && validChild (getProp_or_undefined exp (js "date"))
  && validChild (getProp_or_undefined exp (js "company"))
  && mapped validChild (getProp_or_undefined exp (js "bullets")).

(** What is read of [draft.personal_info]: [name],
    [role || "Professional Candidate"], [email], [phone], and
    [location && (... {location} ...)], [linkedin && (... {linkedin} ...)],
    where a falsy operand is itself the child, and a valid one. *)
Definition personal (info : JSValue) : bool :=
  readable info
  && validChild (getProp_or_undefined info (js "name"))
  && validChild (getProp_or_undefined info (js "role"))
  && validChild (getProp_or_undefined info (js "email"))
  && validChild (getProp_or_undefined info (js "phone"))
  && validChild (getProp_or_undefined info (js "location"))
  && validChild (getProp_or_undefined info (js "linkedin")).

(** The right panel: [{!draft ? (...) : (...)}]. *)
Definition page (draft : option ResumeDraft) : option bool :=
  match draft with
  | None => Some true
  | Some d =>
      andThen
        (personal (personal_info d)
         && validChild (summary d)
         && mapped experienceItem (experience d)
         && mapped educationItem (education d)
         && mapped skillsItem (skills d))
        (certificationsBlock (certifications d))
  end.

(** Whether the evaluation of what [App] returns goes through on [s]. *)
Definition view (s : AppState) : option bool :=
  andThen
    (Header (optionalProp (analysis s) (js "match_score")) (prevScore s)
       (optionalProp (analysis s) (js "mode"))
     && insights (analysis s))
    (page (draft s)).

End View1.

Module View2.

(** [{analysis && (... analysis.formatting_issues.map((issue, i) => ...
    {issue} ...) ... analysis.formatting_issues.length === 0 && ...)}] *)
Definition insights (analysis : JSValue) : bool :=
  if ToBoolean analysis
  then mapped validChild (getProp_or_undefined analysis (js "formatting_issues"))
  else true.

(** The callback of [draft.experience.map]: [{exp.role}], [{exp.date}],
    [{exp.company.toUpperCase()}], which only a string answers, and
    [exp.bullets.map((bullet, bi) => ... {bullet} ...)]. *)
Definition experienceItem (exp : JSValue) : bool :=
  readable exp
  && validChild (getProp_or_undefined exp (js "role"))
  && validChild (getProp_or_undefined exp (js "date"))
  && match getProp_or_undefined exp (js "company") with
     | JString _ => true
     | _ => false
     end
  && mapped validChild (getProp_or_undefined exp (js "bullets")).

(** What is read of [draft.personal_info]: [name],
    [role || "Professional Candidate"], [email], [phone] and
    [linkedin && (... {linkedin} ...)]. *)
Definition personal (info : JSValue) : bool :=
  readable info
  && validChild (getProp_or_undefined info (js "name"))
  && validChild (getProp_or_undefined info (js "role"))
  && validChild (getProp_or_undefined info (js "email"))
  && validChild (getProp_or_undefined info (js "phone"))
  && validChild (getProp_or_undefined info (js "linkedin")).

(** The right panel: [{!draft ? (...) : (...)}]. *)
Definition page (draft : option ResumeDraft) : option bool :=
  match draft with
  | None => Some true
  | Some d =>
      andThen
        (personal (personal_info d)
         && validChild (summary d)
         && mapped experienceItem (experience d)
         && mapped educationItem (education d)
         && mapped skillsItem (skills d))
        (certificationsBlock (certifications d))
  end.

(** Whether the evaluation of what [App] returns goes through on [s]. *)
Definition view (s : AppState) : option bool :=
  andThen
    (Header (optionalProp (analysis s) (js "match_score")) (prevScore s)
       (optionalProp (analysis s) (js "mode"))
     && insights (analysis s))
    (page (draft s)).

End View2.

(* ------------------------------------------------------------------ *)
(** ** Notions used in the statements *)

(** What the spec calls conforming to the declared structure: the value
    has the declared type, an object has its required properties, and each
    declared property that is present conforms.  The source has no such
    check. *)
Fixpoint conforms (sch : Schema) (v : JSValue) {struct sch} : bool :=
  match sch, v with
  | STRING, JString _ => true
  | STRING_enum vs, JString s => existsb (str_eqb s) vs
  | NUMBER, JNumber _ => true
  | ARRAY it, JArray l => forallb (conforms it) l
  | OBJECT props req, JObject ps =>
      forallb (fun k => hasProperty k ps) req &&
      (fix each (props : list (jsstring * Schema)) : bool :=
         match props with
         | [] => true
         | (k, sc) :: r =>
             match lookup k ps with
             | Some x => conforms sc x
             | None => true
             end && each r
         end) props
  | _, _ => false
  end.

(** The classification the spec derives from the job description. *)
Definition classification (jobDescription : option jsstring) : jsstring :=
  if isGeneralizedFor jobDescription then js "generalized" else js "specific".

(** What a call of the first service revision yields once its request has
    been answered by [r]; failures inside [try] are logged under [label]. *)
Definition settled0 (label : jsstring) (ai : GoogleGenAI)
    (params : GenerateContentParameters) (r : result GenerateContentResponse)
    : SvcRun JSValue :=
  let out :=
    match r with
    | inl e => throw e
    | inr resp =>
        match response_text resp with
        | Some (c :: t) => JSON_parse (trim (c :: t))
        | _ => throw (Error (js "Empty response from AI"))
        end
    end in
  mkSvcRun out [(ai, params)]
    match out with
    | inl e => [(label, Some e)]
    | inr _ => []
    end.

(** The same for the two other revisions. *)
Definition settled1 (ai : GoogleGenAI) (params : GenerateContentParameters)
    (r : result GenerateContentResponse) : SvcRun JSValue :=
  mkSvcRun
    match r with
    | inl e => throw e
    | inr resp =>
        match response_text resp with
        | None => throw TypeError
        | Some t => JSON_parse (if truthy (Some (trim t)) then trim t else js "{}")
        end
    end
    [(ai, params)] [].

(** The parts of the requests issued. *)
Definition partsOf (r : GoogleGenAI * GenerateContentParameters) : list Part :=
  match contents (snd r) with
  | ContentParts ps => ps
  | ContentText _ => []
  end.

(** The two revisions of the application. *)
Inductive AppRevision : Type := FirstApp | SecondApp.

Definition handleAnalyzeOf (app : AppRevision) : AppState -> Task unit :=
  match app with
  | FirstApp => App1.handleAnalyze
  | SecondApp => App2.handleAnalyze
  end.

Definition handleRectifyOf (app : AppRevision) : AppState -> Task unit :=
  match app with
  | FirstApp => App1.handleRectify
  | SecondApp => App2.handleRectify
  end.

Definition resetAllOf (app : AppRevision) : Task unit :=
  match app with
  | FirstApp => App1.resetAll
  | SecondApp => App2.resetAll
  end.

(** The button beside the name of the chosen file: in the first revision
    [onClick={() => setResumeSource(null)}], in the second
    [onClick={resetAll}].  It is shown whenever there is a source and never
    disabled.  The first revision calls its [resetAll] nowhere. *)
Definition clearButtonOf (app : AppRevision) : AppState -> Task unit :=
  match app with
  | FirstApp => fun _ => App1.clearSource
  | SecondApp => fun _ => App2.resetAll
  end.

(** Whether the view of a revision goes through on a state. *)
Definition viewOf (app : AppRevision) : AppState -> option bool :=
  match app with
  | FirstApp => View1.view
  | SecondApp => View2.view
  end.

(** A session with no call pending. *)
Definition idle (m : Machine) : Session := mkSession m [].

(** The alerts shown, oldest first. *)
Fixpoint alerts (es : list Event) : list Message :=
  match es with
  | [] => []
  | Alerted msg :: r => msg :: alerts r
  | _ :: r => alerts r
  end.

(** The text given to the re-scoring call. *)
Definition contentOf (app : AppRevision) : ResumeDraft -> result jsstring :=
  match app with
  | FirstApp => App1.fullContent
  | SecondApp => App2.fullText
  end.

(** The plain-text rendering of a revision, in the words of the spec: the
    revised summary, an empty line, then for each revised entry a heading
    with its role followed by its bullets, one per line.  The second
    revision of the application completes the heading with the company. *)
Definition heading (app : AppRevision) (e : ExperienceEntry) : jsstring :=
  match app with
  | FirstApp => role e
  | SecondApp => role e ++ js " at " ++ company e
  end.

Definition rendering (app : AppRevision) (r : RectifyResponse) : jsstring :=
  revisedSummary r ++ [10; 10] ++
  join [10] (map (fun e => heading app e ++ [10] ++ join [10] (bullets e))
               (revisedExperience r)).

(** The three revisions of the service. *)
Inductive ServiceRevision : Type := part_000 | part_001 | part_002.

Definition serviceOf (rev : ServiceRevision) : Service :=
  match rev with
  | part_000 => geminiService0
  | part_001 => geminiService1
  | part_002 => geminiService2
  end.

(** The request an extraction call issues. *)
Definition analysisParamsOf (rev : ServiceRevision) (source : ResumeSource)
    (jd : option jsstring) : GenerateContentParameters :=
  match rev with
  | part_000 => GeminiService0.analysisParams source
  | part_001 => GeminiService1.analysisParams source (isGeneralizedFor jd)
  | part_002 => GeminiService2.analysisParams source
  end.

(** The instruction it starts with. *)
Definition systemPromptOf (rev : ServiceRevision) (jd : option jsstring) : jsstring :=
  match rev with
  | part_000 => GeminiService0.systemPrompt
  | part_001 => GeminiService1.systemPrompt (isGeneralizedFor jd)
  | part_002 => GeminiService2.systemPrompt
  end.

(** The instruction and the request of a revision call. *)
Definition promptForOf (rev : ServiceRevision) : JSValue -> result jsstring :=
  match rev with
  | part_000 => GeminiService0.promptFor
  | part_001 => GeminiService1.promptFor
  | part_002 => GeminiService2.promptFor
  end.

Definition rectifyParamsOf (rev : ServiceRevision) : jsstring -> GenerateContentParameters :=
  match rev with
  | part_000 => GeminiService0.rectifyParams
  | part_001 => GeminiService1.rectifyParams
  | part_002 => GeminiService2.rectifyParams
  end.

(** The template of the revision instruction. *)
Definition promptOf (rev : ServiceRevision)
    : jsstring -> jsstring -> jsstring -> jsstring :=
  match rev with
  | part_000 => GeminiService0.prompt
  | part_001 => GeminiService1.prompt
  | part_002 => GeminiService2.prompt
  end.

(** The heading put before a pasted text. *)
Definition labelOf (rev : ServiceRevision) : jsstring :=
  match rev with
  | part_001 => js "CV CONTENT:"
  | _ => js "RAW CONTENT:"
  end.

(** The label under which the first revision logs a failure; the two
    others log nothing. *)
Definition logged (rev : ServiceRevision) (label : jsstring) (e : Exn)
    : list (jsstring * option Exn) :=
  match rev with
  | part_000 => [(label, Some e)]
  | _ => []
  end.

(** Strings made of white space only. *)
Definition blank (s : jsstring) : Prop := Forall (fun c => isWhiteSpace c = true) s.

(** The text given to [JSON.parse] when the response text is [t]. *)
Definition payloadOf (rev : ServiceRevision) (t : jsstring) : jsstring :=
  match rev with
  | part_000 => trim t
  | _ => if truthy (Some (trim t)) then trim t else js "{}"
  end.

(** Updates other than those of the baseline score, and handlers that
    request no other. *)
Definition leavesPrevScore (u : Update) : Prop :=
  match u with
  | setPrevScore _ => False
  | _ => True
  end.

Inductive quiet {A : Type} : Task A -> Prop :=
| quiet_Done a : quiet (Done a)
| quiet_Fail e : quiet (Fail e)
| quiet_Await c k : (forall r, quiet (k r)) -> quiet (Await c k)
| quiet_SetState u k : leavesPrevScore u -> quiet k -> quiet (SetState u k)
| quiet_Alert m k : quiet k -> quiet (Alert m k)
| quiet_Console label e k : quiet k -> quiet (Console label e k).

(** ** Delegates, environments and states of the examples *)

(** A delegate that accepts every key and answers every request with the
    text [t]. *)
Definition answering (t : option jsstring) : Delegate :=
  mkDelegate (fun _ _ => None) (fun _ _ _ => ok (mkResponse t)).

(** A delegate that accepts every key and rejects every request. *)
Definition rejecting (reason : JSValue) : Delegate :=
  mkDelegate (fun _ _ => None) (fun _ _ _ => throw (Rejected reason)).

Definition someKey : Env := mkEnv (Some (js "key")).
Definition noKey : Env := mkEnv None.

Definition pastedText : ResumeSource :=
  mkSource
    (Some (js "Jane Doe, jane@x.com, 555-1234. Software Engineer at Acme 2020-2025. Built X."))
    None.

Definition uploadedFile : FilePayload :=
  mkFile (js "JVBERi0xLjQK") (js "application/pdf") (js "cv.pdf").

(** A delegate that accepts every key and gives its answers in turn, one
    per call of the session. *)
Definition scripted (answers : list (result GenerateContentResponse)) : Delegate :=
  mkDelegate (fun _ _ => None)
    (fun i _ _ => nth i answers (throw (Rejected JNull))).

Definition says (t : string) : result GenerateContentResponse :=
  ok (mkResponse (Some (dq t))).
Arguments says t%_string.

Definition extractionText : string :=
  "{'match_score': 62,
    'personal_info': {'name': 'Jane Doe', 'email': 'jane@x.com', 'phone': '555-1234'},
    'education': [],
    'experience': [{'company': 'Acme', 'role': 'Software Engineer',
                    'date': '2020-Present', 'bullets': ['Built X.']}],
    'skills': [{'category': 'Languages', 'items': ['Go']}],
    'certifications': [],
    'missing_keywords': ['Kubernetes'],
    'hard_skill_gaps': ['Python'],
    'soft_skill_gaps': [],
    'formatting_issues': [],
    'impact_analysis': 'Engineer at Acme.',
    'impact_score': 50,
    'original_text': 'Jane Doe, jane@x.com, 555-1234. Software Engineer at Acme 2020-2025. Built X.',
    'annotations': [],
    'mode': 'specific'}".

Definition revisionText : string :=
  "{'revisedSummary': 'Engineer who built X.',
    'revisedExperience': [{'company': 'Acme', 'role': 'Software Engineer',
                           'date': '2020-Present',
                           'bullets': ['Built X on Kubernetes.', 'Cut costs by 10% with Python.']}]}".

Definition jobText : jsstring :=
  js "Looking for a Senior Python Engineer with Kubernetes experience".

Definition sourced : AppState :=
  mkState (Some pastedText) jobText false JNull JUndefined false None.

(** The state after a first extraction. *)
Definition analyzed : AppState :=
  Eval vm_compute in
    state (dispatch (serveWith geminiService0 someKey (scripted [says extractionText]))
             App1.handleAnalyze (mount sourced)).

(** The draft of that state. *)
Definition extracted : ResumeDraft :=
  Eval vm_compute in
    match draft analyzed with
    | Some d => d
    | None => mkDraft JUndefined JUndefined JUndefined JUndefined JUndefined JUndefined
    end.

(** A session in which the revision succeeds and the re-scoring is
    rejected. *)
Definition rescoringRejected : Server :=
  serveWith geminiService0 someKey
    (scripted [says revisionText; throw (Rejected (JString (js "503")))]).

(** A session in which the whole cycle succeeds, with a new score of 81. *)
Definition rescored : Server :=
  serveWith geminiService0 someKey
    (scripted [says revisionText; says "{'match_score': 81, 'mode': 'generalized'}"]).

(** The state after that cycle. *)
Definition revised : AppState :=
  Eval vm_compute in state (dispatch rescored App1.handleRectify (mount analyzed)).

Definition revisionExample : RectifyResponse :=
  mkRectify (js "Engineer who built X.")
    [mkExperience (js "Acme") (js "Software Engineer") (js "2020-Present")
       [js "Built X on Kubernetes."; js "Cut costs by 10% with Python."]].

Arguments js : simpl never.
Arguments setProperty : simpl never.
Arguments getProp : simpl never.
Arguments arrayIndex : simpl never.
Arguments dq : simpl never.
Arguments trim : simpl never.
Arguments JSON_parse : simpl never.
Arguments ANALYSIS_SCHEMA : simpl never.
Arguments RECTIFY_SCHEMA : simpl never.
Arguments GeminiService0.systemPrompt : simpl never.
Arguments GeminiService1.systemPrompt : simpl never.
Arguments GeminiService2.systemPrompt : simpl never.
Arguments GeminiService0.analysisParams : simpl never.
Arguments GeminiService1.analysisParams : simpl never.
Arguments GeminiService2.analysisParams : simpl never.
Arguments GeminiService0.rectifyParams : simpl never.
Arguments GeminiService1.rectifyParams : simpl never.
Arguments GeminiService2.rectifyParams : simpl never.
Arguments GeminiService0.promptFor : simpl never.
Arguments GeminiService1.promptFor : simpl never.
Arguments GeminiService2.promptFor : simpl never.

(* ------------------------------------------------------------------ *)
(** * Properties *)

(** ** Strings and objects *)

Lemma str_eqb_refl (a : jsstring) : str_eqb a a = true.
Proof.
  induction a as [|x a IH]; simpl; [reflexivity|].
  now rewrite N.eqb_refl, IH.
Qed.

Lemma str_eqb_eq (a b : jsstring) : str_eqb a b = true <-> a = b.
Proof.
  split.
  - revert b; induction a as [|x a IH]; intros [|y b]; simpl; try discriminate; auto.
    intros H. apply andb_true_iff in H. destruct H as [H1 H2].
    apply N.eqb_eq in H1. subst. f_equal. now apply IH.
  - intros ->. apply str_eqb_refl.
Qed.

Lemma str_eqb_neq (a b : jsstring) : a <> b -> str_eqb a b = false.
Proof.
  intros H. destruct (str_eqb a b) eqn:E; [|reflexivity].
  apply str_eqb_eq in E. contradiction.
Qed.

Lemma lookup_replaceProperty k v ps k' :
  hasProperty k ps = true ->
  lookup k' (replaceProperty k v ps) = if str_eqb k k' then Some v else lookup k' ps.
Proof.
  induction ps as [|[k0 v0] ps IH]; simpl; [discriminate|].
  intros H. destruct (str_eqb k0 k) eqn:E.
  - apply str_eqb_eq in E. subst k0. simpl.
    destruct (str_eqb k k'); reflexivity.
  - simpl in H. simpl. destruct (str_eqb k0 k') eqn:E'.
    + apply str_eqb_eq in E'. subst k0.
      destruct (str_eqb k k') eqn:E2; [|reflexivity].
      apply str_eqb_eq in E2. subst k'. rewrite str_eqb_refl in E. discriminate.
    + now apply IH.
Qed.

Lemma lookup_insertIndexed i k v ps k' :
  hasProperty k ps = false ->
  lookup k' (insertIndexed i k v ps) = if str_eqb k k' then Some v else lookup k' ps.
Proof.
  induction ps as [|[k0 v0] ps IH]; simpl; intros H.
  - reflexivity.
  - apply orb_false_iff in H. destruct H as [H0 H].
    assert (D : forall x : option JSValue,
               str_eqb k k' = true -> str_eqb k0 k' = true -> False).
    { intros _ E1 E2. apply str_eqb_eq in E1, E2. subst.
      rewrite str_eqb_refl in H0. discriminate. }
    destruct (arrayIndex k0) as [j|]; [destruct (j <? i)|]; simpl;
      try reflexivity.
    rewrite IH by assumption.
    destruct (str_eqb k k') eqn:E1, (str_eqb k0 k') eqn:E2; try reflexivity.
    exfalso. now apply (D None).
Qed.

Lemma lookup_app k ps qs :
  lookup k (ps ++ qs) = match lookup k ps with Some v => Some v | None => lookup k qs end.
Proof.
  induction ps as [|[k0 v0] ps IH]; simpl; [reflexivity|].
  destruct (str_eqb k0 k); auto.
Qed.

Lemma lookup_hasProperty_false k ps : hasProperty k ps = false -> lookup k ps = None.
Proof.
  induction ps as [|[k0 v0] ps IH]; simpl; [reflexivity|].
  intros H. apply orb_false_iff in H. destruct H as [H0 H].
  rewrite H0. now apply IH.
Qed.

(** Setting a property changes that property and no other. *)
Lemma lookup_setProperty k v ps k' :
  lookup k' (setProperty k v ps) = if str_eqb k k' then Some v else lookup k' ps.
Proof.
  unfold setProperty. destruct (hasProperty k ps) eqn:H.
  - now apply lookup_replaceProperty.
  - destruct (arrayIndex k) as [i|].
    + now apply lookup_insertIndexed.
    + rewrite lookup_app. simpl.
      destruct (str_eqb k k') eqn:E.
      * apply str_eqb_eq in E. subst k'.
        now rewrite (lookup_hasProperty_false _ _ H).
      * destruct (lookup k' ps); reflexivity.
Qed.

(** [JSON.parse] throws nothing but [SyntaxError]. *)
Lemma JSON_parse_throws text e : JSON_parse text = throw e -> e = SyntaxError.
Proof.
  unfold JSON_parse, throw, ok.
  destruct (parseValue _ _) as [v rest| |]; try congruence.
  destruct (skipWhiteSpace rest); congruence.
Qed.

(** ** The fuel of the parser *)

Lemma skipWhiteSpace_length (s : jsstring) :
  (length (skipWhiteSpace s) <= length s)%nat.
Proof.
  induction s as [|c s IH]; cbn; [lia|].
  destruct (isJSONWhiteSpace c); cbn; lia.
Qed.

Lemma parseChars_consumes :
  forall (n : nat) (s acc : jsstring),
    (length s <= n)%nat ->
    parseChars s acc <> OutOfFuel /\
    forall str rest, parseChars s acc = Parsed str rest ->
                     (length rest < length s)%nat.
Proof.
  induction n as [|n IH]; intros s acc L.
  - destruct s; [|cbn in L; lia]. cbn. split; [discriminate|]. discriminate.
  - destruct s as [|c r]; [cbn; split; discriminate|].
    cbn in L. cbn [parseChars].
    destruct (c =? 34).
    { split; [discriminate|]. intros str rest H. injection H as _ <-. cbn. lia. }
    destruct (c <? 32); [split; discriminate|].
    destruct (c =? 92).
    + destruct r as [|e r1]; [split; discriminate|].
      cbn in L.
      destruct (escapeChar e) as [u|].
      { destruct (IH r1 (u :: acc)) as [A B]; [lia|]. split; [exact A|].
        intros str rest H. specialize (B _ _ H). cbn. lia. }
      destruct (e =? 117); [|split; discriminate].
      destruct r1 as [|h1 [|h2 [|h3 [|h4 r2]]]]; try (split; discriminate).
      cbn in L.
      destruct (hexValue h1), (hexValue h2), (hexValue h3), (hexValue h4);
        try (split; discriminate).
      match goal with
      | |- parseChars r2 ?a <> _ /\ _ => destruct (IH r2 a) as [A B]; [lia|]
      end.
      split; [exact A|]. intros str rest H. specialize (B _ _ H). cbn. lia.
    + destruct (IH r (c :: acc)) as [A B]; [lia|]. split; [exact A|].
      intros str rest H. specialize (B _ _ H). cbn. lia.
Qed.

Lemma spanDigits_length (s : jsstring) :
  (length (fst (spanDigits s)) + length (snd (spanDigits s)) = length s)%nat.
Proof.
  induction s as [|c s IH]; cbn; [reflexivity|].
  destruct (isDigit c); [|cbn; lia].
  destruct (spanDigits s) as [ds rest]. cbn in *. lia.
Qed.

Lemma parseFraction_consumes (s : jsstring) :
  parseFraction s <> OutOfFuel /\
  forall ds rest, parseFraction s = Parsed ds rest -> (length rest <= length s)%nat.
Proof.
  unfold parseFraction. destruct s as [|c r].
  - split; [discriminate|]. intros ds rest H. injection H as _ <-. lia.
  - destruct (c =? 46).
    + pose proof (spanDigits_length r) as L.
      destruct (spanDigits r) as [[|d ds] rest]; [split; discriminate|].
      split; [discriminate|]. intros ds' rest' H. injection H as _ <-.
      cbn in *. lia.
    + split; [discriminate|]. intros ds rest H. injection H as _ <-. lia.
Qed.

Ltac span_case x :=
  let L := fresh "L" in
  pose proof (spanDigits_length x) as L;
  destruct (spanDigits x) as [[|? ?] ?];
  [split; discriminate
  |split; [discriminate|];
   let H := fresh "H" in
   intros ? ? H; injection H as _ <-; cbn in *; lia].

Lemma parseExponent_consumes (s : jsstring) :
  parseExponent s <> OutOfFuel /\
  forall e rest, parseExponent s = Parsed e rest -> (length rest <= length s)%nat.
Proof.
  unfold parseExponent. destruct s as [|c r].
  - split; [discriminate|]. intros e rest H. injection H as _ <-. lia.
  - destruct ((c =? 101) || (c =? 69)).
    + destruct r as [|sg r']; [cbn; split; discriminate|].
      destruct (sg =? 45); [span_case r'|].
      destruct (sg =? 43); [span_case r'|].
      span_case (sg :: r').
    + split; [discriminate|]. intros e rest H. injection H as _ <-. lia.
Qed.

Ltac number_case x :=
  let L := fresh "L" in
  pose proof (spanDigits_length x) as L;
  destruct (spanDigits x) as [[|? ?] ?s2]; [split; discriminate|];
  match goal with
  | |- context [if ?b then _ else _] => destruct b; [split; discriminate|]
  end;
  let F1 := fresh "F" in
  let F2 := fresh "F" in
  destruct (parseFraction_consumes s2) as [F1 F2];
  destruct (parseFraction s2) as [?frac ?s3| |];
  [|split; discriminate|contradiction];
  specialize (F2 _ _ eq_refl);
  let E1 := fresh "E" in
  let E2 := fresh "E" in
  destruct (parseExponent_consumes s3) as [E1 E2];
  destruct (parseExponent s3) as [?e ?s4| |];
  [|split; discriminate|contradiction];
  specialize (E2 _ _ eq_refl);
  split; [discriminate|];
  let H := fresh "H" in
  intros ? ? H; injection H as _ <-; cbn in *; lia.

Lemma parseNumber_consumes (s : jsstring) :
  parseNumber s <> OutOfFuel /\
  forall n rest, parseNumber s = Parsed n rest -> (length rest < length s)%nat.
Proof.
  unfold parseNumber.
  destruct s as [|c r]; [cbn; split; discriminate|].
  destruct (c =? 45); [number_case r|number_case (c :: r)].
Qed.

Lemma expect_length (kw s rest : jsstring) :
  expect kw s = Some rest -> (length rest <= length s)%nat.
Proof.
  revert s. induction kw as [|k kw IH]; intros s H; cbn in H.
  - injection H as <-. lia.
  - destruct s as [|c r]; [discriminate|].
    destruct (k =? c); [|discriminate]. apply IH in H. cbn. lia.
Qed.

(** One case split on what a parser inspects next. *)
Ltac break H :=
  match type of H with
  | context [if ?b then _ else _] => destruct b eqn:?
  | context [match ?x with Parsed _ _ => _ | Unexpected => _ | OutOfFuel => _ end] =>
      destruct x eqn:?
  | context [match ?x with [] => _ | _ :: _ => _ end] => destruct x eqn:?
  | context [match ?x with Some _ => _ | None => _ end] => destruct x eqn:?
  end.

(** What the parts already parsed say about lengths. *)
Ltac lengths :=
  repeat match goal with
    | E : skipWhiteSpace ?x = _ |- _ =>
        let L := fresh "L" in
        pose proof (skipWhiteSpace_length x) as L; rewrite E in L; clear E
    | E : parseChars ?x ?a = Parsed _ _ |- _ =>
        apply (proj2 (parseChars_consumes _ x a (le_n _))) in E
    | E : parseNumber ?x = Parsed _ _ |- _ =>
        apply (proj2 (parseNumber_consumes x)) in E
    | E : expect _ _ = Some _ |- _ => apply expect_length in E
    end;
  repeat match goal with
    | |- context [skipWhiteSpace ?x] =>
        let L := fresh "L" in
        pose proof (skipWhiteSpace_length x) as L;
        generalize dependent (skipWhiteSpace x); intros
    | H : context [skipWhiteSpace ?x] |- _ =>
        let L := fresh "L" in
        pose proof (skipWhiteSpace_length x) as L;
        generalize dependent (skipWhiteSpace x); intros
    end;
  cbn [length] in *.

(** Every parser consumes some of its input. *)
Lemma parse_consumes (fuel : nat) :
  (forall s v rest, parseValue fuel s = Parsed v rest ->
                    (length rest < length s)%nat) /\
  (forall s acc v rest, parseElements fuel s acc = Parsed v rest ->
                        (length rest < length s)%nat) /\
  (forall s acc v rest, parseMembers fuel s acc = Parsed v rest ->
                        (length rest < length s)%nat).
Proof.
  induction fuel as [|fuel [IHv [IHe IHm]]].
  - repeat split; discriminate.
  - repeat split.
    + intros s v rest H. destruct s as [|c r]; [discriminate|].
      cbn [parseValue] in H. unfold parseKeyword in H.
      repeat break H; try discriminate;
        try (injection H as _ <-);
        try apply IHe in H; try apply IHm in H;
        lengths; lia.
    + intros s acc v rest H. cbn [parseElements] in H.
      repeat break H; try discriminate;
        try (injection H as _ <-);
        try apply IHe in H;
        repeat match goal with
          | E : parseValue fuel _ = Parsed _ _ |- _ => apply IHv in E
          end;
        lengths; lia.
    + intros s acc v rest H. cbn [parseMembers] in H.
      repeat break H; try discriminate;
        try (injection H as _ <-);
        try apply IHm in H;
        repeat match goal with
          | E : parseValue fuel _ = Parsed _ _ |- _ => apply IHv in E
          end;
        lengths; lia.
Qed.

(** With twice the length of the input and one more, the parser does not
    run out of fuel. *)
Lemma parse_fuel (fuel : nat) :
  (forall s, (2 * length s + 1 <= fuel)%nat -> parseValue fuel s <> OutOfFuel) /\
  (forall s acc, (2 * length s + 2 <= fuel)%nat ->
                 parseElements fuel s acc <> OutOfFuel) /\
  (forall s acc, (2 * length s + 2 <= fuel)%nat ->
                 parseMembers fuel s acc <> OutOfFuel).
Proof.
  induction fuel as [|fuel [IHv [IHe IHm]]].
  - repeat split; intros; lia.
  - repeat split.
    + intros s B H. destruct s as [|c r]; [discriminate|].
      cbn [parseValue] in H. unfold parseKeyword in H. cbn [length] in B.
      repeat break H; try discriminate.
      * revert H. apply IHm. lengths. lia.
      * revert H. apply IHe. lengths. lia.
      * eapply (proj1 (parseChars_consumes _ _ _ (le_n _))); eassumption.
      * eapply (proj1 (parseNumber_consumes _)); eassumption.
    + intros s acc B H. cbn [parseElements] in H.
      repeat break H; try discriminate.
      * revert H. apply IHe.
        repeat match goal with
          | E : parseValue fuel _ = Parsed _ _ |- _ =>
              apply (proj1 (parse_consumes fuel)) in E
          end.
        lengths. lia.
      * match goal with
        | E : parseValue fuel _ = OutOfFuel |- _ => revert E; apply IHv; lia
        end.
    + intros s acc B H. cbn [parseMembers] in H.
      repeat break H; try discriminate.
      * revert H. apply IHm.
        repeat match goal with
          | E : parseValue fuel _ = Parsed _ _ |- _ =>
              apply (proj1 (parse_consumes fuel)) in E
          end.
        lengths. lia.
      * match goal with
        | E : parseValue fuel _ = OutOfFuel |- _ => revert E; apply IHv
        end.
        lengths. lia.
      * eapply (proj1 (parseChars_consumes _ _ _ (le_n _))); eassumption.
Qed.

(** The fuel [JSON_parse] gives covers every text. *)
Lemma parseValue_fuel (text : jsstring) :
  parseValue (2 * length text + 2) (skipWhiteSpace text) <> OutOfFuel.
Proof.
  apply (proj1 (parse_fuel _)).
  pose proof (skipWhiteSpace_length text). lia.
Qed.

(** ** Runs of the service against a delegate *)

Section ServiceRuns.

Variables (d : Delegate) (i : nat) (env : Env).
Hypothesis constructed : construct d i (API_KEY env) = None.

Let ai : GoogleGenAI := mkClient (API_KEY env).

Lemma analyzeResume0_run source jd :
  truthy (API_KEY env) = true ->
  runSvc d i (GeminiService0.analyzeResume env source jd)
  = settled0 (js "AI Analysis Error:") ai (GeminiService0.analysisParams source)
      (respond d i ai (GeminiService0.analysisParams source)).
Proof.
  intros K. unfold GeminiService0.analyzeResume. rewrite K. cbn.
  rewrite constructed. cbn. unfold settled0. fold ai.
  destruct (respond d i ai (GeminiService0.analysisParams source)) as [e|resp];
    cbn; [reflexivity|].
  destruct (response_text resp) as [[|c t]|]; cbn; try reflexivity.
  destruct (JSON_parse (trim (c :: t))); reflexivity.
Qed.

Lemma rectifyResume0_run analysis jd p :
  truthy (API_KEY env) = true ->
  GeminiService0.promptFor analysis = ok p ->
  runSvc d i (GeminiService0.rectifyResume env analysis jd)
  = settled0 (js "AI Rectification Error:") ai (GeminiService0.rectifyParams p)
      (respond d i ai (GeminiService0.rectifyParams p)).
Proof.
  intros K P. unfold GeminiService0.rectifyResume. rewrite K. cbn.
  rewrite constructed. cbn. rewrite P. cbn. unfold settled0. fold ai.
  destruct (respond d i ai (GeminiService0.rectifyParams p)) as [e|resp];
    cbn; [reflexivity|].
  destruct (response_text resp) as [[|c t]|]; cbn; try reflexivity.
  destruct (JSON_parse (trim (c :: t))); reflexivity.
Qed.

Lemma analyzeResume1_run source jd :
  runSvc d i (GeminiService1.analyzeResume env source jd)
  = settled1 ai (GeminiService1.analysisParams source (isGeneralizedFor jd))
      (respond d i ai (GeminiService1.analysisParams source (isGeneralizedFor jd))).
Proof.
  unfold GeminiService1.analyzeResume. cbn. rewrite constructed. cbn.
  unfold settled1. fold ai.
  destruct (respond d i ai _) as [e|resp]; cbn; [reflexivity|].
  unfold GeminiService1.parseOrEmpty.
  destruct (response_text resp) as [t|]; cbn; [|reflexivity].
  destruct (JSON_parse _); reflexivity.
Qed.

Lemma rectifyResume1_run analysis jd p :
  GeminiService1.promptFor analysis = ok p ->
  runSvc d i (GeminiService1.rectifyResume env analysis jd)
  = settled1 ai (GeminiService1.rectifyParams p)
      (respond d i ai (GeminiService1.rectifyParams p)).
Proof.
  intros P. unfold GeminiService1.rectifyResume. cbn. rewrite constructed. cbn.
  rewrite P. cbn. unfold settled1. fold ai.
  destruct (respond d i ai _) as [e|resp]; cbn; [reflexivity|].
  unfold GeminiService1.parseOrEmpty.
  destruct (response_text resp) as [t|]; cbn; [|reflexivity].
  destruct (JSON_parse _); reflexivity.
Qed.

Lemma analyzeResume2_run source jd :
  runSvc d i (GeminiService2.analyzeResume env source jd)
  = settled1 ai (GeminiService2.analysisParams source)
      (respond d i ai (GeminiService2.analysisParams source)).
Proof.
  unfold GeminiService2.analyzeResume. cbn. rewrite constructed. cbn.
  unfold settled1. fold ai.
  destruct (respond d i ai _) as [e|resp]; cbn; [reflexivity|].
  unfold GeminiService2.parseOrEmpty.
  destruct (response_text resp) as [t|]; cbn; [|reflexivity].
  destruct (JSON_parse _); reflexivity.
Qed.

Lemma rectifyResume2_run analysis jd p :
  GeminiService2.promptFor analysis = ok p ->
  runSvc d i (GeminiService2.rectifyResume env analysis jd)
  = settled1 ai (GeminiService2.rectifyParams p)
      (respond d i ai (GeminiService2.rectifyParams p)).
Proof.
  intros P. unfold GeminiService2.rectifyResume. cbn. rewrite constructed. cbn.
  rewrite P. cbn. unfold settled1. fold ai.
  destruct (respond d i ai _) as [e|resp]; cbn; [reflexivity|].
  unfold GeminiService2.parseOrEmpty.
  destruct (response_text resp) as [t|]; cbn; [|reflexivity].
  destruct (JSON_parse _); reflexivity.
Qed.

End ServiceRuns.

Lemma parse_empty_object : JSON_parse (js "{}") = ok (JObject []).
Proof. vm_compute. reflexivity. Qed.

(** Every revision, once its client is constructed (and, in the first,
    the key found), issues one request and settles on its answer. *)
Lemma analyze_run rev d i env source jd :
  (rev = part_000 -> truthy (API_KEY env) = true) ->
  construct d i (API_KEY env) = None ->
  let ai := mkClient (API_KEY env) in
  let params := analysisParamsOf rev source jd in
  requests (runSvc d i (analyze (serviceOf rev) env source jd)) = [(ai, params)] /\
  outcome (runSvc d i (analyze (serviceOf rev) env source jd))
  = match respond d i ai params with
    | inl e => throw e
    | inr resp =>
        match rev, response_text resp with
        | part_000, Some (c :: t) => JSON_parse (trim (c :: t))
        | part_000, _ => throw (Error (js "Empty response from AI"))
        | _, Some t => JSON_parse (payloadOf rev t)
        | _, None => throw TypeError
        end
    end.
Proof.
  intros K C.
  destruct rev; unfold serviceOf, analysisParamsOf, payloadOf;
    cbn [analyze geminiService0 geminiService1 geminiService2].
  - rewrite analyzeResume0_run by auto. unfold settled0.
    cbn [requests outcome]. split; [reflexivity|].
    destruct (respond d i _ _) as [e|resp]; [reflexivity|].
    destruct (response_text resp) as [[|c t]|]; reflexivity.
  - rewrite analyzeResume1_run by auto. unfold settled1.
    cbn [requests outcome]. split; [reflexivity|].
    destruct (respond d i _ _) as [e|resp]; [reflexivity|].
    destruct (response_text resp) as [t|]; reflexivity.
  - rewrite analyzeResume2_run by auto. unfold settled1.
    cbn [requests outcome]. split; [reflexivity|].
    destruct (respond d i _ _) as [e|resp]; [reflexivity|].
    destruct (response_text resp) as [t|]; reflexivity.
Qed.

Lemma rectify_run rev d i env analysis jd p :
  (rev = part_000 -> truthy (API_KEY env) = true) ->
  construct d i (API_KEY env) = None ->
  promptForOf rev analysis = ok p ->
  let ai := mkClient (API_KEY env) in
  let params := rectifyParamsOf rev p in
  requests (runSvc d i (rectify (serviceOf rev) env analysis jd)) = [(ai, params)] /\
  outcome (runSvc d i (rectify (serviceOf rev) env analysis jd))
  = match respond d i ai params with
    | inl e => throw e
    | inr resp =>
        match rev, response_text resp with
        | part_000, Some (c :: t) => JSON_parse (trim (c :: t))
        | part_000, _ => throw (Error (js "Empty response from AI"))
        | _, Some t => JSON_parse (payloadOf rev t)
        | _, None => throw TypeError
        end
    end.
Proof.
  intros K C P.
  destruct rev; unfold serviceOf, rectifyParamsOf, promptForOf, payloadOf in *;
    cbn [rectify geminiService0 geminiService1 geminiService2].
  - rewrite (rectifyResume0_run _ _ _ C _ _ p) by auto. unfold settled0.
    cbn [requests outcome]. split; [reflexivity|].
    destruct (respond d i _ _) as [e|resp]; [reflexivity|].
    destruct (response_text resp) as [[|c t]|]; reflexivity.
  - rewrite (rectifyResume1_run _ _ _ C _ _ p) by auto. unfold settled1.
    cbn [requests outcome]. split; [reflexivity|].
    destruct (respond d i _ _) as [e|resp]; [reflexivity|].
    destruct (response_text resp) as [t|]; reflexivity.
  - rewrite (rectifyResume2_run _ _ _ C _ _ p) by auto. unfold settled1.
    cbn [requests outcome]. split; [reflexivity|].
    destruct (respond d i _ _) as [e|resp]; [reflexivity|].
    destruct (response_text resp) as [t|]; reflexivity.
Qed.

(** When the constructor throws, the call fails with what it threw and no
    request is issued (in the first revision, provided the key was found). *)
Lemma analyze_not_constructed rev d i env source jd e :
  (rev = part_000 -> truthy (API_KEY env) = true) ->
  construct d i (API_KEY env) = Some e ->
  runSvc d i (analyze (serviceOf rev) env source jd) = mkSvcRun (throw e) [] [].
Proof.
  intros K C.
  destruct rev; unfold serviceOf;
    cbn [analyze geminiService0 geminiService1 geminiService2].
  - unfold GeminiService0.analyzeResume. rewrite K by reflexivity. cbn.
    rewrite C. reflexivity.
  - unfold GeminiService1.analyzeResume. cbn. rewrite C. reflexivity.
  - unfold GeminiService2.analyzeResume. cbn. rewrite C. reflexivity.
Qed.

Lemma rectify_not_constructed rev d i env analysis jd e :
  (rev = part_000 -> truthy (API_KEY env) = true) ->
  construct d i (API_KEY env) = Some e ->
  runSvc d i (rectify (serviceOf rev) env analysis jd) = mkSvcRun (throw e) [] [].
Proof.
  intros K C.
  destruct rev; unfold serviceOf;
    cbn [rectify geminiService0 geminiService1 geminiService2].
  - unfold GeminiService0.rectifyResume. rewrite K by reflexivity. cbn.
    rewrite C. reflexivity.
  - unfold GeminiService1.rectifyResume. cbn. rewrite C. reflexivity.
  - unfold GeminiService2.rectifyResume. cbn. rewrite C. reflexivity.
Qed.

(** The first revision without a key: the error is thrown before anything
    is asked of the delegate. *)
Lemma analyzeResume0_no_key d i env source jd :
  truthy (API_KEY env) = false ->
  runSvc d i (GeminiService0.analyzeResume env source jd)
  = mkSvcRun (throw (Error (js "Missing API Key"))) []
      [(js "Gemini API Key is missing. Please set API_KEY in your environment variables.",
        None)].
Proof.
  intros K. unfold GeminiService0.analyzeResume. rewrite K. reflexivity.
Qed.

Lemma rectifyResume0_no_key d i env analysis jd :
  truthy (API_KEY env) = false ->
  runSvc d i (GeminiService0.rectifyResume env analysis jd)
  = mkSvcRun (throw (Error (js "Missing API Key"))) [] [].
Proof.
  intros K. unfold GeminiService0.rectifyResume. rewrite K. reflexivity.
Qed.

(** ** The extraction and revision services *)

(** C1, as stated, fails: with a blank job description the local
    classification is "generalized", and the first revision returns the
    mode "specific" that the delegate wrote. *)
Lemma mode_equals_classification_counterexample :
  outcome (runSvc (answering (Some (dq "{'match_score': 71, 'mode': 'specific'}"))) 0
             (GeminiService0.analyzeResume someKey pastedText (Some (js "  "))))
  = ok (JObject [(js "match_score", JNumber (mkNumber false 71 0));
                 (js "mode", JString (js "specific"))])
  /\ classification (Some (js "  ")) = js "generalized"
  /\ js "specific" <> js "generalized".
Proof.
  split; [vm_compute; reflexivity|].
  split; [vm_compute; reflexivity|].
  vm_compute. discriminate.
Qed.

(** C1, amended.  When [analyzeResume] returns, what it returns is the
    delegate's payload as [JSON.parse] read it, mode included: the local
    classification is not applied to the result.  In the revisions
    [part_000] and [part_002] the call does not depend on the job
    description at all. *)
Theorem analyzeResume_mode_is_the_delegates
    (rev : ServiceRevision) (d : Delegate) (i : nat) (env : Env)
    (source : ResumeSource) (jd : option jsstring) (v : JSValue) :
  outcome (runSvc d i (analyze (serviceOf rev) env source jd)) = ok v ->
  (exists resp t,
      respond d i (mkClient (API_KEY env)) (analysisParamsOf rev source jd) = ok resp /\
      response_text resp = Some t /\
      JSON_parse (payloadOf rev t) = ok v) /\
  (rev <> part_001 ->
   forall jd', analyze (serviceOf rev) env source jd'
               = analyze (serviceOf rev) env source jd).
Proof.
  intros H. split.
  - assert (K : rev = part_000 -> truthy (API_KEY env) = true).
    { intros ->. destruct (truthy (API_KEY env)) eqn:K; [reflexivity|].
      unfold serviceOf in H. cbn [analyze geminiService0] in H.
      rewrite analyzeResume0_no_key in H by assumption. discriminate. }
    destruct (construct d i (API_KEY env)) as [e|] eqn:C.
    + rewrite (analyze_not_constructed rev d i env source jd e K C) in H.
      discriminate.
    + destruct (analyze_run rev d i env source jd K C) as [_ O].
      rewrite O in H. clear O.
      destruct (respond d i _ _) as [e|resp]; [discriminate|].
      exists resp.
      destruct rev, (response_text resp) as [[|c t]|];
        try discriminate; eexists; repeat split; try eassumption.
  - intros N jd'. destruct rev; [reflexivity|contradiction|reflexivity].
Qed.

Lemma analyzeResume_mode_is_the_delegates_witness :
  (exists resp t,
      respond (answering (Some (dq "{'mode': 'specific'}"))) 0
        (mkClient (API_KEY someKey)) (analysisParamsOf part_000 pastedText None)
      = ok resp /\
      response_text resp = Some t /\
      JSON_parse (payloadOf part_000 t)
      = ok (JObject [(js "mode", JString (js "specific"))])) /\
  (part_000 <> part_001 ->
   forall jd', analyze (serviceOf part_000) someKey pastedText jd'
               = analyze (serviceOf part_000) someKey pastedText None).
Proof.
  apply (analyzeResume_mode_is_the_delegates part_000
           (answering (Some (dq "{'mode': 'specific'}"))) 0 someKey pastedText None).
  vm_compute. reflexivity.
Defined.

(** C4, as stated, fails: the payload [{}] is JSON, has none of the
    required fields, and is returned. *)
Lemma nonconforming_payload_counterexample :
  outcome (runSvc (answering (Some (dq "{}"))) 0
             (GeminiService0.analyzeResume someKey pastedText None))
  = ok (JObject [])
  /\ conforms ANALYSIS_SCHEMA (JObject []) = false.
Proof. split; vm_compute; reflexivity. Qed.

(** C4, amended.  Given a response text (not empty, in the first
    revision), the call settles as [JSON.parse] does on it: it fails, with
    the parser's [SyntaxError], exactly when the text is not JSON, and it
    returns every value that parses, whether or not the value has the
    declared structure. *)
Theorem analyzeResume_settles_as_the_parser
    (rev : ServiceRevision) (d : Delegate) (i : nat) (env : Env)
    (source : ResumeSource) (jd : option jsstring)
    (resp : GenerateContentResponse) (t : jsstring) :
  (rev = part_000 -> truthy (API_KEY env) = true /\ t <> []) ->
  construct d i (API_KEY env) = None ->
  respond d i (mkClient (API_KEY env)) (analysisParamsOf rev source jd) = ok resp ->
  response_text resp = Some t ->
  outcome (runSvc d i (analyze (serviceOf rev) env source jd))
  = JSON_parse (payloadOf rev t)
  /\ (forall e, JSON_parse (payloadOf rev t) = throw e -> e = SyntaxError).
Proof.
  intros K C R T. split; [|intros e; apply JSON_parse_throws].
  destruct (analyze_run rev d i env source jd) as [_ O]; [intros E; now apply K|assumption|].
  rewrite O. unfold ok in R. rewrite R, T.
  destruct rev; try reflexivity.
  destruct t as [|c t]; [|reflexivity].
  destruct K as [_ K]; [reflexivity|]. contradiction.
Qed.

Lemma analyzeResume_settles_as_the_parser_witness :
  outcome (runSvc (answering (Some (dq "{'mode': 7}"))) 0
             (analyze (serviceOf part_000) someKey pastedText None))
  = JSON_parse (payloadOf part_000 (dq "{'mode': 7}"))
  /\ (forall e, JSON_parse (payloadOf part_000 (dq "{'mode': 7}")) = throw e ->
                e = SyntaxError).
Proof.
  apply (analyzeResume_settles_as_the_parser part_000
           (answering (Some (dq "{'mode': 7}"))) 0 someKey pastedText None
           (mkResponse (Some (dq "{'mode': 7}")))).
  - intros _. split; [reflexivity|]. vm_compute. discriminate.
  - reflexivity.
  - reflexivity.
  - reflexivity.
Defined.

(** C5, as stated, fails: in the second revision an empty response text is
    replaced by ['{}'] and the empty object is returned to the caller. *)
Lemma empty_response_counterexample :
  outcome (runSvc (answering (Some [])) 0
             (GeminiService1.analyzeResume someKey pastedText None))
  = ok (JObject [])
  /\ outcome (runSvc (answering (Some []))  0
                (GeminiService1.rectifyResume someKey
                   (JObject [(js "missing_keywords", JArray []);
                             (js "hard_skill_gaps", JArray [])]) None))
     = ok (JObject []).
Proof. split; vm_compute; reflexivity. Qed.

(** C5, amended.  When the response has no text, or an empty one: the
    first revision fails with [Error("Empty response from AI")], in
    [analyzeResume] and in [rectifyResume]; the two other revisions fail
    with a [TypeError] when the text is [undefined] and return the empty
    object when it is the empty string. *)
Theorem empty_response
    (rev : ServiceRevision) (d : Delegate) (i : nat) (env : Env)
    (resp : GenerateContentResponse) :
  (rev = part_000 -> truthy (API_KEY env) = true) ->
  construct d i (API_KEY env) = None ->
  (forall ai params, respond d i ai params = ok resp) ->
  truthy (response_text resp) = false ->
  let settles (r : SvcRun JSValue) :=
    outcome r = match rev, response_text resp with
                | part_000, _ => throw (Error (js "Empty response from AI"))
                | _, None => throw TypeError
                | _, Some _ => ok (JObject [])
                end in
  (forall source jd, settles (runSvc d i (analyze (serviceOf rev) env source jd))) /\
  (forall analysis jd p,
      promptForOf rev analysis = ok p ->
      settles (runSvc d i (rectify (serviceOf rev) env analysis jd))).
Proof.
  intros K C R T settles. unfold settles.
  assert (E : forall ai params,
             match respond d i ai params with
             | inl e => throw e
             | inr resp0 =>
                 match rev, response_text resp0 with
                 | part_000, Some (c :: t) => JSON_parse (trim (c :: t))
                 | part_000, _ => throw (Error (js "Empty response from AI"))
                 | _, Some t => JSON_parse (payloadOf rev t)
                 | _, None => throw TypeError
                 end
             end
             = match rev, response_text resp with
               | part_000, _ => throw (Error (js "Empty response from AI"))
               | _, None => throw TypeError
               | _, Some _ => ok (JObject [])
               end).
  { intros ai params. rewrite R. unfold ok.
    destruct rev, (response_text resp) as [[|c t]|]; try discriminate;
      try reflexivity; apply parse_empty_object. }
  split.
  - intros source jd.
    destruct (analyze_run rev d i env source jd K C) as [_ O]. rewrite O. apply E.
  - intros analysis jd p P.
    destruct (rectify_run rev d i env analysis jd p K C P) as [_ O]. rewrite O. apply E.
Qed.

Lemma empty_response_witness :
  (forall source jd,
      outcome (runSvc (answering None) 0 (analyze (serviceOf part_000) someKey source jd))
      = throw (Error (js "Empty response from AI"))) /\
  (forall analysis jd p,
      promptForOf part_000 analysis = ok p ->
      outcome (runSvc (answering None) 0
                 (rectify (serviceOf part_000) someKey analysis jd))
      = throw (Error (js "Empty response from AI"))).
Proof.
  apply (empty_response part_000 (answering None) 0 someKey (mkResponse None)).
  - intros _. reflexivity.
  - reflexivity.
  - intros ai params. reflexivity.
  - reflexivity.
Defined.

(** C6, as stated, fails: the second revision has no check of its own.
    Without a key, and with a client library that lets the constructor
    pass, the request is issued, with the absent key, and the failure is
    the delegate's rejection. *)
Lemma missing_credential_counterexample :
  outcome (runSvc (rejecting (JString (js "API key not valid"))) 0
             (GeminiService1.analyzeResume noKey pastedText None))
  = throw (Rejected (JString (js "API key not valid")))
  /\ map fst (requests (runSvc (rejecting (JString (js "API key not valid"))) 0
                          (GeminiService1.analyzeResume noKey pastedText None)))
     = [mkClient None].
Proof. split; vm_compute; reflexivity. Qed.

(** C6, amended.  Without a key ([API_KEY] unset or empty): in the first
    revision each call of [analyzeResume] and of [rectifyResume] fails with
    [Error("Missing API Key")] and nothing is asked of the delegate,
    whatever the delegate would do; the two other revisions hand the key
    to the client constructor unchecked, fail without a request when the
    constructor throws, and issue the request when it does not. *)
Theorem missing_credential
    (rev : ServiceRevision) (d : Delegate) (i : nat) (env : Env) :
  truthy (API_KEY env) = false ->
  match rev with
  | part_000 =>
      (forall source jd,
          outcome (runSvc d i (analyze (serviceOf rev) env source jd))
          = throw (Error (js "Missing API Key")) /\
          requests (runSvc d i (analyze (serviceOf rev) env source jd)) = []) /\
      (forall analysis jd,
          outcome (runSvc d i (rectify (serviceOf rev) env analysis jd))
          = throw (Error (js "Missing API Key")) /\
          requests (runSvc d i (rectify (serviceOf rev) env analysis jd)) = [])
  | _ =>
      (forall e, construct d i (API_KEY env) = Some e ->
         (forall source jd,
             outcome (runSvc d i (analyze (serviceOf rev) env source jd)) = throw e /\
             requests (runSvc d i (analyze (serviceOf rev) env source jd)) = []) /\
         (forall analysis jd,
             outcome (runSvc d i (rectify (serviceOf rev) env analysis jd)) = throw e /\
             requests (runSvc d i (rectify (serviceOf rev) env analysis jd)) = [])) /\
      (construct d i (API_KEY env) = None ->
       forall source jd,
         requests (runSvc d i (analyze (serviceOf rev) env source jd))
         = [(mkClient (API_KEY env), analysisParamsOf rev source jd)])
  end.
Proof.
  intros K.
  assert (N : forall r, r <> part_000 -> r = part_000 -> truthy (API_KEY env) = true)
    by (intros r Hr E; contradiction).
  destruct rev.
  - unfold serviceOf. cbn [analyze rectify geminiService0]. split.
    + intros source jd. now rewrite analyzeResume0_no_key.
    + intros analysis jd. now rewrite rectifyResume0_no_key.
  - split.
    + intros e C. split.
      * intros source jd.
        now rewrite (analyze_not_constructed part_001 d i env source jd e) by
          (assumption || apply N; discriminate).
      * intros analysis jd.
        now rewrite (rectify_not_constructed part_001 d i env analysis jd e) by
          (assumption || apply N; discriminate).
    + intros C source jd.
      apply (analyze_run part_001 d i env source jd); [apply N; discriminate|assumption].
  - split.
    + intros e C. split.
      * intros source jd.
        now rewrite (analyze_not_constructed part_002 d i env source jd e) by
          (assumption || apply N; discriminate).
      * intros analysis jd.
        now rewrite (rectify_not_constructed part_002 d i env analysis jd e) by
          (assumption || apply N; discriminate).
    + intros C source jd.
      apply (analyze_run part_002 d i env source jd); [apply N; discriminate|assumption].
Qed.

Lemma missing_credential_witness :
  (forall source jd,
      outcome (runSvc (answering (Some (dq "{}"))) 0
                 (analyze (serviceOf part_000) noKey source jd))
      = throw (Error (js "Missing API Key")) /\
      requests (runSvc (answering (Some (dq "{}"))) 0
                  (analyze (serviceOf part_000) noKey source jd)) = []) /\
  (forall analysis jd,
      outcome (runSvc (answering (Some (dq "{}"))) 0
                 (rectify (serviceOf part_000) noKey analysis jd))
      = throw (Error (js "Missing API Key")) /\
      requests (runSvc (answering (Some (dq "{}"))) 0
                  (rectify (serviceOf part_000) noKey analysis jd)) = []).
Proof.
  apply (missing_credential part_000 (answering (Some (dq "{}"))) 0 noKey).
  reflexivity.
Defined.

(** C10.  Once the call is under way (the client constructed and, in the
    first revision, the key found), one request is issued.  When the source
    has a file, its parts are the instruction and the file as inline data:
    the text, if any, is not sent.  When the source has neither a file nor
    a non-empty text, its only part is the instruction; the call raises
    nothing of its own and goes to the delegate. *)
Theorem request_parts
    (rev : ServiceRevision) (d : Delegate) (i : nat) (env : Env)
    (source : ResumeSource) (jd : option jsstring) :
  (rev = part_000 -> truthy (API_KEY env) = true) ->
  construct d i (API_KEY env) = None ->
  let r := runSvc d i (analyze (serviceOf rev) env source jd) in
  (forall f, file source = Some f ->
     map partsOf (requests r)
     = [[TextPart (systemPromptOf rev jd); InlineData (data f) (mimeType f)]]) /\
  (file source = None -> truthy (text source) = false ->
     map partsOf (requests r) = [[TextPart (systemPromptOf rev jd)]]).
Proof.
  intros K C r. subst r.
  destruct (analyze_run rev d i env source jd K C) as [Q _]. rewrite Q. clear Q.
  split.
  - intros f F. destruct rev; unfold analysisParamsOf, systemPromptOf, partsOf;
      cbn; unfold GeminiService0.analysisParams, GeminiService1.analysisParams,
      GeminiService2.analysisParams, sourceParts; cbn; rewrite F; reflexivity.
  - intros F T. destruct rev; unfold analysisParamsOf, systemPromptOf, partsOf;
      cbn; unfold GeminiService0.analysisParams, GeminiService1.analysisParams,
      GeminiService2.analysisParams, sourceParts; cbn; rewrite F;
      destruct (text source) as [[|c t]|]; try discriminate; reflexivity.
Qed.

Lemma request_parts_witness :
  let r := runSvc (answering (Some (dq "{}"))) 0
             (analyze (serviceOf part_000) someKey
                (mkSource (Some (js "Jane Doe")) (Some uploadedFile)) None) in
  (forall f, file (mkSource (Some (js "Jane Doe")) (Some uploadedFile)) = Some f ->
     map partsOf (requests r)
     = [[TextPart (systemPromptOf part_000 None); InlineData (data f) (mimeType f)]]) /\
  (file (mkSource (Some (js "Jane Doe")) (Some uploadedFile)) = None ->
   truthy (text (mkSource (Some (js "Jane Doe")) (Some uploadedFile))) = false ->
     map partsOf (requests r) = [[TextPart (systemPromptOf part_000 None)]]).
Proof.
  apply (request_parts part_000 (answering (Some (dq "{}"))) 0 someKey
           (mkSource (Some (js "Jane Doe")) (Some uploadedFile)) None).
  - intros _. reflexivity.
  - reflexivity.
Defined.

(** ** Handlers *)

Lemma runTask_bind {A B} (serve : Server) (p : Task A) (f : A -> Task B) :
  forall m,
    runTask serve (bindTask p f) m
    = match runTask serve p m with
      | (inr a, m') => runTask serve (f a) m'
      | (inl e, m') => (inl e, m')
      end.
Proof.
  induction p as [a|e|c k IH|u k IH|msg k IH|label e k IH]; intros m; cbn;
    auto.
Qed.

Lemma runTask_tryCatch {A} (serve : Server) (p : Task A) (h : Exn -> Task A) :
  forall m,
    runTask serve (tryCatch p h) m
    = match runTask serve p m with
      | (inr a, m') => (inr a, m')
      | (inl e, m') => runTask serve (h e) m'
      end.
Proof.
  induction p as [a|e|c k IH|u k IH|msg k IH|label e k IH]; intros m; cbn;
    auto.
Qed.

Lemma runTask_finally {A} (serve : Server) (p : Task A) (f : Task unit) :
  forall m,
    runTask serve (finally p f) m
    = match runTask serve p m with
      | (r, m') =>
          match runTask serve f m' with
          | (inr _, m'') => (r, m'')
          | (inl e, m'') => (inl e, m'')
          end
      end.
Proof.
  induction p as [a|e|c k IH|u k IH|msg k IH|label e k IH]; intros m; cbn;
    auto.
  - rewrite runTask_bind. destruct (runTask serve f m) as [[e|[]] m']; reflexivity.
  - rewrite runTask_bind. destruct (runTask serve f m) as [[e'|[]] m']; reflexivity.
Qed.

Lemma calls_app (a b : list Event) : calls (a ++ b) = calls a ++ calls b.
Proof.
  induction a as [|[s|c r|m|l e] a IH]; cbn; rewrite ?IH; reflexivity.
Qed.

Lemma renders_app (a b : list Event) : renders (a ++ b) = renders a ++ renders b.
Proof.
  induction a as [|[s|c r|m|l e] a IH]; cbn; rewrite ?IH; reflexivity.
Qed.

(** A render adds no call. *)
Lemma calls_flush (m : Machine) : calls (events (flush m)) = calls (events m).
Proof.
  unfold flush. destruct (renderError m); [reflexivity|].
  destruct (pending m) as [|u us]; [reflexivity|].
  destruct (applyAll (u :: us) (state m)); cbn; [reflexivity|].
  rewrite calls_app. cbn. apply app_nil_r.
Qed.

(** C2.  When the revision call returns [res] and the re-scoring call then
    fails, the draft holds the revised summary and experience of [res]
    (its other fields as before) and the stored analysis, match score
    included, is what it was. *)
Theorem revision_kept_when_rescoring_fails
    (app : AppRevision) (serve : Server) (s : AppState) (d newDraft : ResumeDraft)
    (res : JSValue) (content : jsstring) (e : Exn) :
  ToBoolean (analysis s) = true ->
  draft s = Some d ->
  serve 0%nat (RectifyResume (analysis s) (Some (jobDescription s))) = ok res ->
  revisedDraft d res = ok newDraft ->
  contentOf app newDraft = ok content ->
  serve 1%nat (AnalyzeResume (mkSource (Some content) None) (Some (jobDescription s)))
  = throw e ->
  let m := dispatch serve (handleRectifyOf app) (mount s) in
  draft (state m) = Some newDraft
  /\ getProp res (js "revisedSummary") = ok (summary newDraft)
  /\ getProp res (js "revisedExperience") = ok (experience newDraft)
  /\ analysis (state m) = analysis s
  /\ getProp (analysis (state m)) (js "match_score")
     = getProp (analysis s) (js "match_score").
Proof.
  intros T D R N C F m.
  assert (G : getProp res (js "revisedSummary") = ok (summary newDraft)
              /\ getProp res (js "revisedExperience") = ok (experience newDraft)).
  { unfold revisedDraft in N.
    destruct (getProp res (js "revisedSummary")) as [x|sm]; [discriminate|].
    destruct (getProp res (js "revisedExperience")) as [x|ex]; [discriminate|].
    cbn in N. injection N as <-. split; reflexivity. }
  assert (S : draft (state m) = Some newDraft /\ analysis (state m) = analysis s).
  { subst m. unfold dispatch.
    destruct app; unfold handleRectifyOf, contentOf in *;
      [unfold App1.handleRectify|unfold App2.handleRectify];
      cbn; rewrite T, D; cbn; unfold ok, throw in *;
      rewrite R; cbn; rewrite N; cbn; rewrite C; cbn; rewrite F; cbn;
      split; reflexivity. }
  destruct G as [G1 G2], S as [S1 S2].
  repeat split; try assumption. now rewrite S2.
Qed.

Lemma revision_kept_when_rescoring_fails_witness :
  let m := dispatch rescoringRejected (handleRectifyOf SecondApp) (mount analyzed) in
  let res := RectifyResponse_value revisionExample in
  let newDraft :=
    mkDraft (getProp_or_undefined (analysis analyzed) (js "personal_info"))
      (getProp_or_undefined (analysis analyzed) (js "education"))
      (getProp_or_undefined res (js "revisedExperience"))
      (getProp_or_undefined (analysis analyzed) (js "skills"))
      (getProp_or_undefined (analysis analyzed) (js "certifications"))
      (getProp_or_undefined res (js "revisedSummary")) in
  draft (state m) = Some newDraft
  /\ getProp res (js "revisedSummary") = ok (summary newDraft)
  /\ getProp res (js "revisedExperience") = ok (experience newDraft)
  /\ analysis (state m) = analysis analyzed
  /\ getProp (analysis (state m)) (js "match_score")
     = getProp (analysis analyzed) (js "match_score").
Proof.
  apply (revision_kept_when_rescoring_fails SecondApp rescoringRejected analyzed
           (mkDraft (getProp_or_undefined (analysis analyzed) (js "personal_info"))
              (getProp_or_undefined (analysis analyzed) (js "education"))
              (getProp_or_undefined (analysis analyzed) (js "experience"))
              (getProp_or_undefined (analysis analyzed) (js "skills"))
              (getProp_or_undefined (analysis analyzed) (js "certifications"))
              (getProp_or_undefined (analysis analyzed) (js "impact_analysis")))
           _ (RectifyResponse_value revisionExample)
           (rendering SecondApp revisionExample)
           (Rejected (JString (js "503")))).
  - vm_compute. reflexivity.
  - vm_compute. reflexivity.
  - vm_compute. reflexivity.
  - vm_compute. reflexivity.
  - vm_compute. reflexivity.
  - vm_compute. reflexivity.
Defined.

(** C3.  After a cycle in which both calls return, every property of the
    stored analysis other than [match_score] is what it was before, and
    [match_score] is the one of the re-scoring result. *)
Theorem revision_cycle_frame
    (app : AppRevision) (serve : Server) (s : AppState)
    (props : list (jsstring * JSValue)) (d newDraft : ResumeDraft)
    (res reScore : JSValue) (content : jsstring) :
  analysis s = JObject props ->
  draft s = Some d ->
  serve 0%nat (RectifyResume (analysis s) (Some (jobDescription s))) = ok res ->
  revisedDraft d res = ok newDraft ->
  contentOf app newDraft = ok content ->
  serve 1%nat (AnalyzeResume (mkSource (Some content) None) (Some (jobDescription s)))
  = ok reScore ->
  let m := dispatch serve (handleRectifyOf app) (mount s) in
  (forall k, k <> js "match_score" ->
     getProp (analysis (state m)) k = getProp (analysis s) k)
  /\ (forall score, getProp reScore (js "match_score") = ok score ->
        getProp (analysis (state m)) (js "match_score") = ok score
        /\ renderError m = None).
Proof.
  intros A D R N C F m.
  assert (S : match getProp reScore (js "match_score") with
              | inr score =>
                  analysis (state m) = JObject (setProperty (js "match_score") score props)
                  /\ renderError m = None
              | inl _ => analysis (state m) = analysis s
              end).
  { subst m. unfold dispatch.
    destruct app; unfold handleRectifyOf, contentOf in *;
      [unfold App1.handleRectify|unfold App2.handleRectify];
      cbn; rewrite D, A; cbn; unfold ok, throw in *; rewrite A in R;
      rewrite R; cbn; rewrite N; cbn; rewrite C; cbn; rewrite F; cbn;
      unfold flush; cbn; unfold withMatchScore; rewrite ?A; cbn;
      destruct (getProp reScore (js "match_score")); cbn; rewrite ?A; auto. }
  split.
  - intros k K. destruct (getProp reScore (js "match_score")) as [e|score].
    + now rewrite S.
    + destruct S as [S _]. rewrite S, A. unfold getProp.
      rewrite lookup_setProperty. rewrite str_eqb_neq by congruence. reflexivity.
  - intros score G. rewrite G in S. destruct S as [S E]. split; [|assumption].
    rewrite S. unfold getProp. rewrite lookup_setProperty, str_eqb_refl. reflexivity.
Qed.

Lemma revision_cycle_frame_witness :
  let m := dispatch rescored (handleRectifyOf FirstApp) (mount analyzed) in
  (forall k, k <> js "match_score" ->
     getProp (analysis (state m)) k = getProp (analysis analyzed) k)
  /\ (forall score,
        getProp (JObject [(js "match_score", JNumber (mkNumber false 81 0));
                          (js "mode", JString (js "generalized"))])
          (js "match_score") = ok score ->
        getProp (analysis (state m)) (js "match_score") = ok score
        /\ renderError m = None).
Proof.
  refine (revision_cycle_frame FirstApp rescored analyzed _
            (mkDraft (getProp_or_undefined (analysis analyzed) (js "personal_info"))
               (getProp_or_undefined (analysis analyzed) (js "education"))
               (getProp_or_undefined (analysis analyzed) (js "experience"))
               (getProp_or_undefined (analysis analyzed) (js "skills"))
               (getProp_or_undefined (analysis analyzed) (js "certifications"))
               (getProp_or_undefined (analysis analyzed) (js "impact_analysis")))
            _ (RectifyResponse_value revisionExample) _
            (rendering FirstApp revisionExample) _ _ _ _ _ _).
  - vm_compute. reflexivity.
  - vm_compute. reflexivity.
  - vm_compute. reflexivity.
  - vm_compute. reflexivity.
  - vm_compute. reflexivity.
  - vm_compute. reflexivity.
Defined.

(** ** The text sent for re-scoring *)

Lemma joinParts_strings (l : list jsstring) :
  joinParts ToString (map JString l) = ok l.
Proof.
  induction l as [|x l IH]; cbn; [reflexivity|]. rewrite IH. reflexivity.
Qed.

Lemma joinLines_strings (l : list jsstring) :
  joinLines (JArray (map JString l)) = ok (join [10] l).
Proof.
  unfold joinLines, Array_join. rewrite joinParts_strings. reflexivity.
Qed.

Lemma role_of_value (e : ExperienceEntry) :
  getProp (ExperienceEntry_value e) (js "role") = ok (JString (role e)).
Proof. reflexivity. Qed.

Lemma company_of_value (e : ExperienceEntry) :
  getProp (ExperienceEntry_value e) (js "company") = ok (JString (company e)).
Proof. reflexivity. Qed.

Lemma bullets_of_value (e : ExperienceEntry) :
  getProp (ExperienceEntry_value e) (js "bullets")
  = ok (JArray (map JString (bullets e))).
Proof. reflexivity. Qed.

Lemma entryText1_typed (e : ExperienceEntry) :
  App1.entryText (ExperienceEntry_value e)
  = ok (heading FirstApp e ++ [10] ++ join [10] (bullets e)).
Proof.
  unfold App1.entryText.
  rewrite role_of_value, bullets_of_value. cbn [rbind ok ToString].
  rewrite joinLines_strings. reflexivity.
Qed.

Lemma entryText2_typed (e : ExperienceEntry) :
  App2.entryText (ExperienceEntry_value e)
  = ok (heading SecondApp e ++ [10] ++ join [10] (bullets e)).
Proof.
  unfold App2.entryText.
  rewrite role_of_value, company_of_value, bullets_of_value.
  cbn [rbind ok ToString].
  rewrite joinLines_strings. cbn [rbind ok heading].
  now rewrite <- !app_assoc.
Qed.

Lemma mapResult_map {A B C} (f : B -> result C) (h : A -> B) (g : A -> C)
    (l : list A) :
  (forall x, f (h x) = ok (g x)) -> mapResult f (map h l) = ok (map g l).
Proof.
  intros H. induction l as [|x l IH]; cbn; [reflexivity|].
  rewrite H, IH. reflexivity.
Qed.

(** On a revision that has the declared structure, the text built by the
    handler is the rendering. *)
Lemma content_typed (app : AppRevision) (d : ResumeDraft) (r : RectifyResponse) :
  exists newDraft,
    revisedDraft d (RectifyResponse_value r) = ok newDraft /\
    contentOf app newDraft = ok (rendering app r).
Proof.
  exists (mkDraft (personal_info d) (education d)
            (JArray (map ExperienceEntry_value (revisedExperience r)))
            (skills d) (certifications d) (JString (revisedSummary r))).
  split; [reflexivity|].
  destruct app; unfold contentOf, App1.fullContent, App2.fullText, mapJoinLines;
    cbn [summary experience ToString rbind ok].
  - rewrite (mapResult_map _ _
               (fun e => heading FirstApp e ++ [10] ++ join [10] (bullets e)))
      by apply entryText1_typed.
    reflexivity.
  - rewrite (mapResult_map _ _
               (fun e => heading SecondApp e ++ [10] ++ join [10] (bullets e)))
      by apply entryText2_typed.
    reflexivity.
Qed.

(** C8.  In a revision cycle whose first call returns a revision [r], the
    handler makes exactly two calls: the revision, then an extraction whose
    source has no file and whose text is the rendering of [r]: the revised
    summary, an empty line, and for each revised entry, in order, its
    heading (the role; in the second revision of the application the role,
    " at " and the company) followed by its bullets, one per line. *)
Theorem rescoring_call_is_text_only
    (app : AppRevision) (serve : Server) (s : AppState) (d : ResumeDraft)
    (r : RectifyResponse) :
  ToBoolean (analysis s) = true ->
  draft s = Some d ->
  serve 0%nat (RectifyResume (analysis s) (Some (jobDescription s)))
  = ok (RectifyResponse_value r) ->
  calls (events (dispatch serve (handleRectifyOf app) (mount s)))
  = [RectifyResume (analysis s) (Some (jobDescription s));
     AnalyzeResume (mkSource (Some (rendering app r)) None) (Some (jobDescription s))].
Proof.
  intros T D R.
  destruct (content_typed app d r) as [newDraft [N C]].
  unfold dispatch. rewrite calls_flush.
  destruct app; unfold handleRectifyOf, contentOf in *;
    [unfold App1.handleRectify|unfold App2.handleRectify];
    cbn; rewrite T, D; cbn; unfold ok, throw in *;
    rewrite R; cbn; rewrite N; cbn; rewrite C; cbn;
    destruct (serve 1%nat _); reflexivity.
Qed.

Lemma rescoring_call_is_text_only_witness :
  calls (events (dispatch rescored (handleRectifyOf SecondApp) (mount analyzed)))
  = [RectifyResume (analysis analyzed) (Some (jobDescription analyzed));
     AnalyzeResume (mkSource (Some (rendering SecondApp revisionExample)) None)
       (Some (jobDescription analyzed))].
Proof.
  apply (rescoring_call_is_text_only SecondApp rescored analyzed
           (mkDraft (getProp_or_undefined (analysis analyzed) (js "personal_info"))
              (getProp_or_undefined (analysis analyzed) (js "education"))
              (getProp_or_undefined (analysis analyzed) (js "experience"))
              (getProp_or_undefined (analysis analyzed) (js "skills"))
              (getProp_or_undefined (analysis analyzed) (js "certifications"))
              (getProp_or_undefined (analysis analyzed) (js "impact_analysis")))
           revisionExample).
  - vm_compute. reflexivity.
  - vm_compute. reflexivity.
  - vm_compute. reflexivity.
Defined.

(** ** The baseline score *)

Lemma quiet_liftTask {A} (r : result A) : quiet (liftTask r).
Proof. destruct r; constructor. Qed.

Lemma quiet_bind {A B} (p : Task A) (f : A -> Task B) :
  quiet p -> (forall a, quiet (f a)) -> quiet (bindTask p f).
Proof.
  intros Q F. induction Q; cbn; try constructor; auto.
Qed.

Lemma quiet_tryCatch {A} (p : Task A) (h : Exn -> Task A) :
  quiet p -> (forall e, quiet (h e)) -> quiet (tryCatch p h).
Proof.
  intros Q H. induction Q; cbn; try constructor; auto.
Qed.

Lemma quiet_finally {A} (p : Task A) (f : Task unit) :
  quiet p -> quiet f -> quiet (finally p f).
Proof.
  intros Q F. induction Q; cbn; try constructor; auto;
    apply quiet_bind; auto; intros; constructor.
Qed.

Lemma quiet_set (u : Update) : leavesPrevScore u -> quiet (set u).
Proof. intros H. repeat constructor. exact H. Qed.

Lemma quiet_await (c : Call) : quiet (await c).
Proof. constructor. intros r. apply quiet_liftTask. Qed.

Lemma quiet_alert (m : Message) : quiet (alert m).
Proof. repeat constructor. Qed.

Lemma quiet_console_error label e : quiet (console_error label e).
Proof. repeat constructor. Qed.

Create HintDb quiet.
#[local] Hint Resolve quiet_liftTask quiet_set quiet_await quiet_alert
  quiet_console_error : quiet.
#[local] Hint Extern 2 (quiet (bindTask _ _)) => apply quiet_bind; [|intros] : quiet.
#[local] Hint Extern 2 (quiet (tryCatch _ _)) => apply quiet_tryCatch; [|intros] : quiet.
#[local] Hint Extern 2 (quiet (finally _ _)) => apply quiet_finally : quiet.
#[local] Hint Extern 1 (leavesPrevScore _) => exact I : quiet.
#[local] Hint Constructors quiet : quiet.

(** The revision handler requests no update of the baseline score. *)
Lemma handleRectify_quiet (app : AppRevision) (s : AppState) :
  quiet (handleRectifyOf app s).
Proof.
  destruct app; unfold handleRectifyOf, App1.handleRectify, App2.handleRectify;
    destruct (ToBoolean (analysis s)), (draft s); auto 12 with quiet.
Qed.

Lemma applyAll_prevScore (us : list Update) :
  Forall leavesPrevScore us ->
  forall s s', applyAll us s = ok s' -> prevScore s' = prevScore s.
Proof.
  induction 1 as [|u us U _ IH]; intros s s' H; cbn in H.
  - now injection H as <-.
  - destruct (applyUpdate u s) as [e|s1] eqn:E; [discriminate|].
    cbn in H. rewrite (IH _ _ H).
    destruct u; cbn in E; try (now injection E as <-); try contradiction.
    destruct (f (analysis s)); [discriminate|]. now injection E as <-.
Qed.

Lemma flush_prevScore (m : Machine) :
  Forall leavesPrevScore (pending m) ->
  prevScore (state (flush m)) = prevScore (state m).
Proof.
  intros F. unfold flush. destruct (renderError m); [reflexivity|].
  destruct (pending m) as [|u us] eqn:P; [reflexivity|].
  destruct (applyAll (u :: us) (state m)) as [e|s'] eqn:E; [reflexivity|].
  cbn. eapply applyAll_prevScore; eassumption.
Qed.

Lemma pending_flush (m : Machine) : pending (flush m) = [].
Proof.
  unfold flush. destruct (renderError m); [reflexivity|].
  destruct (pending m) as [|u us] eqn:P; [assumption|].
  destruct (applyAll (u :: us) (state m)); reflexivity.
Qed.

(** Running a quiet handler leaves the baseline score of the last render,
    and queues no update of it. *)
Lemma runTask_quiet {A} (serve : Server) (t : Task A) :
  quiet t ->
  forall m, Forall leavesPrevScore (pending m) ->
    prevScore (state (snd (runTask serve t m))) = prevScore (state m)
    /\ Forall leavesPrevScore (pending (snd (runTask serve t m))).
Proof.
  induction 1 as [a|e|c k _ IH|u k U _ IH|msg k _ IH|label e k _ IH];
    intros m F; cbn [runTask snd]; auto.
  - destruct (IH (serve (served (flush m)) c)
                (mkMachine (state (flush m)) (pending (flush m))
                   (renderError (flush m)) (S (served (flush m)))
                   (events (flush m) ++ [Called c (serve (served (flush m)) c)])))
      as [P Q].
    + cbn. rewrite pending_flush. constructor.
    + split; [|exact Q]. rewrite P. cbn. now apply flush_prevScore.
  - destruct (IH (mkMachine (state m) (pending m ++ [u]) (renderError m)
                    (served m) (events m))) as [P Q].
    + cbn. apply Forall_app. split; [assumption|]. now constructor.
    + split; assumption.
  - apply (IH (mkMachine (state m) (pending m) (renderError m) (served m)
                 (events m ++ [Alerted msg]))). assumption.
  - apply (IH (mkMachine (state m) (pending m) (renderError m) (served m)
                 (events m ++ [Logged label e]))). assumption.
Qed.

Lemma dispatch_quiet (serve : Server) (handler : AppState -> Task unit) (m : Machine) :
  (forall s, quiet (handler s)) ->
  pending m = [] ->
  prevScore (state (dispatch serve handler m)) = prevScore (state m).
Proof.
  intros Q P. unfold dispatch.
  destruct (runTask_quiet serve (handler (state m)) (Q _) m) as [E F].
  - rewrite P. constructor.
  - rewrite flush_prevScore by assumption. exact E.
Qed.

(** A value with one readable property has all its properties readable. *)
Lemma getProp_total (v : JSValue) (k : jsstring) (x : JSValue) :
  getProp v k = ok x -> forall k', exists y, getProp v k' = ok y.
Proof.
  intros H k'. destruct v; try discriminate; unfold getProp;
    try (eexists; reflexivity).
  - destruct (str_eqb k' (js "length")); [eexists; reflexivity|].
    destruct (arrayIndex k'); eexists; reflexivity.
  - destruct (str_eqb k' (js "length")); [eexists; reflexivity|].
    destruct (arrayIndex k'); eexists; reflexivity.
Qed.

Lemma draftOf_total (res : JSValue) (k : jsstring) (x : JSValue) :
  getProp res k = ok x -> exists d, draftOf res = ok d.
Proof.
  intros H. unfold draftOf.
  destruct (getProp_total res k x H (js "personal_info")) as [a ->].
  destruct (getProp_total res k x H (js "education")) as [b ->].
  destruct (getProp_total res k x H (js "experience")) as [c ->].
  destruct (getProp_total res k x H (js "skills")) as [d ->].
  destruct (getProp_total res k x H (js "certifications")) as [e ->].
  destruct (getProp_total res k x H (js "impact_analysis")) as [f ->].
  eexists. reflexivity.
Qed.

(** C7, as stated, fails in its last clause: a successful re-extraction
    does not retain the previous match score as the baseline.  Before it the
    stored score is 81 and the baseline 62; after it the baseline is 73, the
    score of the new result. *)
Lemma previous_score_retained_counterexample :
  let m := dispatch (serveWith geminiService0 someKey
                       (scripted [says "{'match_score': 73, 'mode': 'specific'}"]))
             (handleAnalyzeOf SecondApp) (mount revised) in
  getProp (analysis revised) (js "match_score") = ok (JNumber (mkNumber false 81 0))
  /\ prevScore revised = JNumber (mkNumber false 62 0)
  /\ prevScore (state m) = JNumber (mkNumber false 73 0)
  /\ getProp (analysis (state m)) (js "match_score") = ok (JNumber (mkNumber false 73 0)).
Proof. repeat split; vm_compute; reflexivity. Qed.

(** C7, amended.  A successful extraction stores its result and makes the
    match score of that result the baseline, whatever the baseline was; a
    revision cycle that follows, however its calls settle, leaves the
    baseline at that value. *)
Theorem baseline_is_the_extraction_score
    (app : AppRevision) (serve : Server) (s : AppState) (source : ResumeSource)
    (res score : JSValue) :
  resumeSource s = Some source ->
  serve 0%nat (AnalyzeResume source (Some (jobDescription s))) = ok res ->
  getProp res (js "match_score") = ok score ->
  let m1 := dispatch serve (handleAnalyzeOf app) (mount s) in
  let m2 := dispatch serve (handleRectifyOf app) m1 in
  analysis (state m1) = res
  /\ prevScore (state m1) = score
  /\ prevScore (state m2) = score.
Proof.
  intros S R G m1 m2.
  destruct (draftOf_total res _ _ G) as [d D].
  assert (E : analysis (state m1) = res /\ prevScore (state m1) = score).
  { subst m1. unfold dispatch.
    destruct app; unfold handleAnalyzeOf;
      [unfold App1.handleAnalyze|unfold App2.handleAnalyze];
      cbn; rewrite S; cbn; unfold ok in *; rewrite R; cbn; rewrite G; cbn;
      rewrite D; cbn; split; reflexivity. }
  destruct E as [E1 E2]. repeat split; try assumption.
  subst m2. rewrite dispatch_quiet.
  - exact E2.
  - apply handleRectify_quiet.
  - apply pending_flush.
Qed.

Lemma baseline_is_the_extraction_score_witness :
  let serve := serveWith geminiService0 someKey
                 (scripted [says extractionText; says revisionText;
                            says "{'match_score': 81, 'mode': 'generalized'}"]) in
  let m1 := dispatch serve (handleAnalyzeOf FirstApp) (mount sourced) in
  let m2 := dispatch serve (handleRectifyOf FirstApp) m1 in
  analysis (state m1) = analysis analyzed
  /\ prevScore (state m1) = JNumber (mkNumber false 62 0)
  /\ prevScore (state m2) = JNumber (mkNumber false 62 0).
Proof.
  apply (baseline_is_the_extraction_score FirstApp
           (serveWith geminiService0 someKey
              (scripted [says extractionText; says revisionText;
                         says "{'match_score': 81, 'mode': 'generalized'}"]))
           sourced pastedText).
  - reflexivity.
  - vm_compute. reflexivity.
  - vm_compute. reflexivity.
Defined.

(** * Further properties of the service *)

Lemma rectify_not_prompted rev d i env analysis jd e :
  (rev = part_000 -> truthy (API_KEY env) = true) ->
  construct d i (API_KEY env) = None ->
  promptForOf rev analysis = throw e ->
  runSvc d i (rectify (serviceOf rev) env analysis jd) = mkSvcRun (throw e) [] [].
Proof.
  intros K C P.
  destruct rev; unfold serviceOf, promptForOf in *;
    cbn [rectify geminiService0 geminiService1 geminiService2].
  - unfold GeminiService0.rectifyResume. rewrite K by reflexivity. cbn.
    rewrite C. cbn. unfold throw in P. rewrite P. reflexivity.
  - unfold GeminiService1.rectifyResume. cbn. rewrite C. cbn.
    unfold throw in P. rewrite P. reflexivity.
  - unfold GeminiService2.rectifyResume. cbn. rewrite C. cbn.
    unfold throw in P. rewrite P. reflexivity.
Qed.

(** Whether a call gets past the key check of the first revision. *)
Lemma key_checked rev env :
  (rev = part_000 -> truthy (API_KEY env) = true)
  \/ (rev = part_000 /\ truthy (API_KEY env) = false).
Proof.
  destruct rev; [|left; discriminate|left; discriminate].
  destruct (truthy (API_KEY env)); [left|right]; auto.
Qed.

(** No retry: whatever the delegate does and whatever the call is given, a
    call of [analyzeResume] or of [rectifyResume] issues at most one
    request. *)
Theorem at_most_one_request (rev : ServiceRevision) (d : Delegate) (i : nat) (env : Env) :
  (forall source jd,
      (length (requests (runSvc d i (analyze (serviceOf rev) env source jd))) <= 1)%nat)
  /\ (forall analysis jd,
      (length (requests (runSvc d i (rectify (serviceOf rev) env analysis jd))) <= 1)%nat).
Proof.
  destruct (key_checked rev env) as [K|[-> K]].
  - destruct (construct d i (API_KEY env)) as [e|] eqn:C; split.
    + intros source jd. rewrite (analyze_not_constructed rev d i env source jd e) by assumption; cbn; lia.
    + intros analysis jd. rewrite (rectify_not_constructed rev d i env analysis jd e) by assumption; cbn; lia.
    + intros source jd. destruct (analyze_run rev d i env source jd K C) as [Q _].
      rewrite Q; cbn; lia.
    + intros analysis jd. destruct (promptForOf rev analysis) as [e|p] eqn:P.
      * rewrite (rectify_not_prompted rev d i env analysis jd e) by assumption; cbn; lia.
      * destruct (rectify_run rev d i env analysis jd p K C P) as [Q _].
        rewrite Q; cbn; lia.
  - unfold serviceOf. cbn [analyze rectify geminiService0]. split.
    + intros source jd. rewrite analyzeResume0_no_key by assumption; cbn; lia.
    + intros analysis jd. rewrite rectifyResume0_no_key by assumption; cbn; lia.
Qed.

(** A request that the delegate rejects makes the call fail with the
    delegate's own error, unchanged; the first revision logs it once, under
    the label of the function, the two others log nothing. *)
Theorem rejection_propagates
    (rev : ServiceRevision) (d : Delegate) (i : nat) (env : Env) (e : Exn) :
  (rev = part_000 -> truthy (API_KEY env) = true) ->
  construct d i (API_KEY env) = None ->
  (forall ai params, respond d i ai params = throw e) ->
  (forall source jd,
      let r := runSvc d i (analyze (serviceOf rev) env source jd) in
      outcome r = throw e /\ console r = logged rev (js "AI Analysis Error:") e)
  /\ (forall analysis jd p,
        promptForOf rev analysis = ok p ->
        let r := runSvc d i (rectify (serviceOf rev) env analysis jd) in
        outcome r = throw e /\ console r = logged rev (js "AI Rectification Error:") e).
Proof.
  intros K C R. unfold throw in R. split.
  - intros source jd.
    destruct rev; unfold serviceOf;
      cbn [analyze geminiService0 geminiService1 geminiService2].
    + rewrite analyzeResume0_run by auto. unfold settled0. rewrite R. split; reflexivity.
    + rewrite analyzeResume1_run by auto. unfold settled1. rewrite R. split; reflexivity.
    + rewrite analyzeResume2_run by auto. unfold settled1. rewrite R. split; reflexivity.
  - intros analysis jd p P.
    destruct rev; unfold serviceOf, promptForOf in *;
      cbn [rectify geminiService0 geminiService1 geminiService2].
    + rewrite (rectifyResume0_run _ _ _ C _ _ p) by auto. unfold settled0.
      rewrite R. split; reflexivity.
    + rewrite (rectifyResume1_run _ _ _ C _ _ p) by auto. unfold settled1.
      rewrite R. split; reflexivity.
    + rewrite (rectifyResume2_run _ _ _ C _ _ p) by auto. unfold settled1.
      rewrite R. split; reflexivity.
Qed.

Lemma rejection_propagates_witness :
  (forall source jd,
      let r := runSvc (rejecting (JString (js "429"))) 0
                 (analyze (serviceOf part_000) someKey source jd) in
      outcome r = throw (Rejected (JString (js "429"))) /\
      console r = logged part_000 (js "AI Analysis Error:") (Rejected (JString (js "429"))))
  /\ (forall analysis jd p,
        promptForOf part_000 analysis = ok p ->
        let r := runSvc (rejecting (JString (js "429"))) 0
                   (rectify (serviceOf part_000) someKey analysis jd) in
        outcome r = throw (Rejected (JString (js "429"))) /\
        console r
        = logged part_000 (js "AI Rectification Error:") (Rejected (JString (js "429")))).
Proof.
  apply (rejection_propagates part_000 (rejecting (JString (js "429"))) 0 someKey).
  - intros _. reflexivity.
  - reflexivity.
  - intros ai params. reflexivity.
Defined.

(** The text of the job description reaches the delegate in no revision:
    two calls that differ only in their job description are the same
    program whenever the two descriptions are both blank or both not (the
    second revision puts that one bit in its instruction; the two others
    and every [rectifyResume] ignore the argument). *)
Theorem job_description_never_sent
    (rev : ServiceRevision) (env : Env) (source : ResumeSource) (analysis : JSValue)
    (jd jd' : option jsstring) :
  isGeneralizedFor jd = isGeneralizedFor jd' ->
  analyze (serviceOf rev) env source jd = analyze (serviceOf rev) env source jd'
  /\ rectify (serviceOf rev) env analysis jd = rectify (serviceOf rev) env analysis jd'.
Proof.
  intros G. destruct rev; split; try reflexivity.
  unfold serviceOf. cbn [analyze geminiService1].
  unfold GeminiService1.analyzeResume. rewrite G. reflexivity.
Qed.

Lemma job_description_never_sent_witness :
  analyze (serviceOf part_001) someKey pastedText (Some (js "Senior Python Engineer"))
  = analyze (serviceOf part_001) someKey pastedText (Some (js "Pastry chef, nights"))
  /\ rectify (serviceOf part_001) someKey (JObject []) (Some (js "Senior Python Engineer"))
     = rectify (serviceOf part_001) someKey (JObject []) (Some (js "Pastry chef, nights")).
Proof.
  apply (job_description_never_sent part_001 someKey pastedText (JObject [])).
  vm_compute. reflexivity.
Defined.

(** A source with no file and a text that is not empty: the request has
    two text parts, the instruction and the text itself, unchanged, after a
    one-line heading. *)
Theorem text_source_parts
    (rev : ServiceRevision) (d : Delegate) (i : nat) (env : Env)
    (source : ResumeSource) (jd : option jsstring) (c : N) (t : jsstring) :
  (rev = part_000 -> truthy (API_KEY env) = true) ->
  construct d i (API_KEY env) = None ->
  file source = None ->
  text source = Some (c :: t) ->
  map partsOf (requests (runSvc d i (analyze (serviceOf rev) env source jd)))
  = [[TextPart (systemPromptOf rev jd); TextPart (labelOf rev ++ [10] ++ c :: t)]].
Proof.
  intros K C F T.
  destruct (analyze_run rev d i env source jd K C) as [Q _]. rewrite Q. clear Q.
  destruct rev; unfold analysisParamsOf, systemPromptOf, labelOf, partsOf;
    cbn [map snd contents];
    unfold GeminiService0.analysisParams, GeminiService1.analysisParams,
      GeminiService2.analysisParams, sourceParts;
    cbn [contents]; rewrite F, T; reflexivity.
Qed.

Lemma text_source_parts_witness :
  map partsOf (requests (runSvc (answering (Some (dq "{}"))) 0
                           (analyze (serviceOf part_001) noKey
                              (mkSource (Some (js "Jane Doe")) None) None)))
  = [[TextPart (systemPromptOf part_001 None);
      TextPart (labelOf part_001 ++ [10] ++ js "Jane Doe")]].
Proof.
  apply (text_source_parts part_001 (answering (Some (dq "{}"))) 0 noKey
           (mkSource (Some (js "Jane Doe")) None) None 74 (js "ane Doe")).
  - intros E. discriminate E.
  - reflexivity.
  - reflexivity.
  - reflexivity.
Defined.

(** On an analysis whose keyword lists are arrays of strings, the keywords
    of the instruction are all the missing keywords, then all the hard
    skill gaps, in their order, separated by a comma and a space; nothing
    is removed or merged. *)
Lemma keywordsListOf_typed (analysis : JSValue) (mk hg : list jsstring) :
  getProp analysis (js "missing_keywords") = ok (JArray (map JString mk)) ->
  getProp analysis (js "hard_skill_gaps") = ok (JArray (map JString hg)) ->
  keywordsListOf analysis = ok (join (js ", ") (mk ++ hg)).
Proof.
  intros M H. unfold keywordsListOf. unfold ok in *. rewrite M. cbn.
  rewrite H. cbn. unfold Array_join. rewrite <- map_app, joinParts_strings.
  reflexivity.
Qed.

(** The request of a revision, on an analysis whose fields have the types
    the interface declares: one request, whose content is the instruction
    template filled with the keywords (the missing keywords, then the hard
    skill gaps, in order, duplicates kept), the impact analysis as it is and
    the JSON text of the experience. *)
Theorem revision_request
    (rev : ServiceRevision) (d : Delegate) (i : nat) (env : Env)
    (analysis : JSValue) (jd : option jsstring)
    (mk hg : list jsstring) (sm : jsstring) (ex : JSValue) (t : jsstring) :
  (rev = part_000 -> truthy (API_KEY env) = true) ->
  construct d i (API_KEY env) = None ->
  getProp analysis (js "missing_keywords") = ok (JArray (map JString mk)) ->
  getProp analysis (js "hard_skill_gaps") = ok (JArray (map JString hg)) ->
  getProp analysis (js "impact_analysis") = ok (JString sm) ->
  getProp analysis (js "experience") = ok ex ->
  serialize ex = Some t ->
  requests (runSvc d i (rectify (serviceOf rev) env analysis jd))
  = [(mkClient (API_KEY env),
      rectifyParamsOf rev (promptOf rev (join (js ", ") (mk ++ hg)) sm t))].
Proof.
  intros K C M H S E T.
  assert (P : promptForOf rev analysis
              = ok (promptOf rev (join (js ", ") (mk ++ hg)) sm t)).
  { destruct rev; unfold promptForOf, promptOf, GeminiService0.promptFor,
      GeminiService1.promptFor, GeminiService2.promptFor;
      rewrite (keywordsListOf_typed analysis mk hg M H); unfold ok in *;
      cbn [rbind]; rewrite S, E; cbn [rbind ToString];
      unfold JSON_stringify; rewrite T; reflexivity. }
  apply (rectify_run rev d i env analysis jd _ K C P).
Qed.

Lemma revision_request_witness :
  requests (runSvc (answering (Some (dq "{}"))) 0
              (rectify (serviceOf part_002) someKey (analysis analyzed) None))
  = [(mkClient (API_KEY someKey),
      rectifyParamsOf part_002
        (promptOf part_002 (join (js ", ") ([js "Kubernetes"] ++ [js "Python"]))
           (js "Engineer at Acme.")
           (dq "[{'company':'Acme','role':'Software Engineer','date':'2020-Present','bullets':['Built X.']}]")))].
Proof.
  apply (revision_request part_002 (answering (Some (dq "{}"))) 0 someKey
           (analysis analyzed) None [js "Kubernetes"] [js "Python"]
           (js "Engineer at Acme.")
           (getProp_or_undefined (analysis analyzed) (js "experience"))).
  - intros E. discriminate E.
  - reflexivity.
  - vm_compute. reflexivity.
  - vm_compute. reflexivity.
  - vm_compute. reflexivity.
  - vm_compute. reflexivity.
  - vm_compute. reflexivity.
Defined.

(** When [analysis.missing_keywords] cannot be spread (it is absent, or
    neither an array nor a string), [rectifyResume] fails with a
    [TypeError] of its own: no request is issued and, the failure being
    outside [try], nothing is logged. *)
Theorem revision_fails_without_keywords
    (rev : ServiceRevision) (d : Delegate) (i : nat) (env : Env)
    (analysis : JSValue) (jd : option jsstring) (x : JSValue) :
  (rev = part_000 -> truthy (API_KEY env) = true) ->
  construct d i (API_KEY env) = None ->
  getProp analysis (js "missing_keywords") = ok x ->
  (forall l, x <> JArray l) -> (forall s, x <> JString s) ->
  runSvc d i (rectify (serviceOf rev) env analysis jd) = mkSvcRun (throw TypeError) [] [].
Proof.
  intros K C M NA NS.
  apply rectify_not_prompted; try assumption.
  assert (S : spread x = throw TypeError).
  { destruct x; try reflexivity; [now elim (NS s)|now elim (NA elems)]. }
  assert (Q : keywordsListOf analysis = throw TypeError).
  { unfold keywordsListOf. unfold ok in M. rewrite M. cbn [rbind]. now rewrite S. }
  destruct rev; unfold promptForOf, GeminiService0.promptFor,
    GeminiService1.promptFor, GeminiService2.promptFor; rewrite Q; reflexivity.
Qed.

Lemma revision_fails_without_keywords_witness :
  runSvc (answering (Some (dq "{}"))) 0
    (rectify (serviceOf part_001) someKey (JObject []) None)
  = mkSvcRun (throw TypeError) [] [].
Proof.
  apply (revision_fails_without_keywords part_001 (answering (Some (dq "{}"))) 0
           someKey (JObject []) None JUndefined).
  - intros E. discriminate E.
  - reflexivity.
  - reflexivity.
  - intros l E. discriminate E.
  - intros s E. discriminate E.
Defined.

Lemma trimStart_blank (s : jsstring) : trimStart s = [] <-> blank s.
Proof.
  unfold blank. induction s as [|c s IH]; cbn.
  - split; auto.
  - destruct (isWhiteSpace c) eqn:W.
    + rewrite IH. split; [intros H; constructor; assumption|].
      intros H. now inversion H.
    + split; [discriminate|]. intros H. inversion H. congruence.
Qed.

Lemma trimStart_head (s r : jsstring) (c : N) :
  trimStart s = c :: r -> isWhiteSpace c = false.
Proof.
  induction s as [|x s IH]; cbn; [discriminate|].
  destruct (isWhiteSpace x) eqn:W; [exact IH|].
  intros H. injection H as <- _. exact W.
Qed.

(** [trim] leaves nothing exactly of the strings made of white space. *)
Lemma trim_blank (s : jsstring) : trim s = [] <-> blank s.
Proof.
  unfold trim, trimEnd. split.
  - intros H. apply trimStart_blank.
    assert (B : blank (trimStart s)).
    { assert (R : trimStart (rev (trimStart s)) = []).
      { destruct (trimStart (rev (trimStart s))); [reflexivity|].
        apply (f_equal (@length N)) in H. rewrite length_rev in H. discriminate. }
      apply trimStart_blank in R. unfold blank in *.
      rewrite <- (rev_involutive (trimStart s)). now apply Forall_rev. }
    destruct (trimStart s) as [|c r] eqn:E; [reflexivity|].
    apply trimStart_head in E. inversion B. congruence.
  - intros B. apply trimStart_blank in B. rewrite B. reflexivity.
Qed.

(** The local classification: a call is "generalized" exactly when the job
    description is absent, empty, or made of white space only. *)
Theorem generalized_iff_blank (jd : option jsstring) :
  isGeneralizedFor jd = true
  <-> match jd with
      | None => True
      | Some s => blank s
      end.
Proof.
  unfold isGeneralizedFor. destruct jd as [[|c s]|]; cbn.
  - split; [intros _; constructor|reflexivity].
  - rewrite <- trim_blank.
    destruct (trim (c :: s)) eqn:E; cbn; split; congruence.
  - split; auto.
Qed.

Lemma parse_empty_text : JSON_parse [] = throw SyntaxError.
Proof. vm_compute. reflexivity. Qed.

(** A response whose text is not empty but made of white space only: the
    first revision fails with the [SyntaxError] of [JSON.parse] on the
    empty string; the two others return the empty object. *)
Theorem blank_response_text
    (rev : ServiceRevision) (d : Delegate) (i : nat) (env : Env)
    (source : ResumeSource) (jd : option jsstring)
    (resp : GenerateContentResponse) (c : N) (t : jsstring) :
  (rev = part_000 -> truthy (API_KEY env) = true) ->
  construct d i (API_KEY env) = None ->
  respond d i (mkClient (API_KEY env)) (analysisParamsOf rev source jd) = ok resp ->
  response_text resp = Some (c :: t) ->
  blank (c :: t) ->
  outcome (runSvc d i (analyze (serviceOf rev) env source jd))
  = match rev with
    | part_000 => throw SyntaxError
    | _ => ok (JObject [])
    end.
Proof.
  intros K C R T B.
  destruct (analyze_run rev d i env source jd K C) as [_ O]. rewrite O.
  unfold ok in R. rewrite R, T. apply trim_blank in B.
  destruct rev; unfold payloadOf; rewrite B.
  - apply parse_empty_text.
  - apply parse_empty_object.
  - apply parse_empty_object.
Qed.

Lemma blank_response_text_witness :
  outcome (runSvc (answering (Some (js "  "))) 0
             (analyze (serviceOf part_000) someKey pastedText None))
  = throw SyntaxError.
Proof.
  apply (blank_response_text part_000 (answering (Some (js "  "))) 0 someKey
           pastedText None (mkResponse (Some (js "  "))) 32 (js " ")).
  - intros _. reflexivity.
  - reflexivity.
  - reflexivity.
  - reflexivity.
  - repeat constructor.
Defined.

Lemma strings_conform (l : list jsstring) :
  forallb (conforms STRING) (map JString l) = true.
Proof. induction l as [|x l IH]; cbn; auto. Qed.

Lemma ExperienceEntry_conforms (e : ExperienceEntry) :
  conforms
    (OBJECT [(js "company", STRING); (js "role", STRING);
             (js "date", STRING); (js "bullets", ARRAY STRING)]
            [js "company"; js "role"; js "bullets"])
    (ExperienceEntry_value e) = true.
Proof.
  unfold ExperienceEntry_value.
  change (forallb (conforms STRING) (map JString (bullets e)) && true = true).
  now rewrite strings_conform.
Qed.

(** The interface and the schema agree in one direction: every value of
    the [RectifyResponse] interface of [types.ts] has the structure that
    [RECTIFY_SCHEMA] declares. *)
Theorem RectifyResponse_conforms (r : RectifyResponse) :
  conforms RECTIFY_SCHEMA (RectifyResponse_value r) = true.
Proof.
  unfold RectifyResponse_value, RECTIFY_SCHEMA.
  change (forallb
            (conforms
               (OBJECT [(js "company", STRING); (js "role", STRING);
                        (js "date", STRING); (js "bullets", ARRAY STRING)]
                       [js "company"; js "role"; js "bullets"]))
            (map ExperienceEntry_value (revisedExperience r)) && true = true).
  rewrite andb_true_r.
  induction (revisedExperience r) as [|e l IH]; [reflexivity|].
  cbn [map forallb]. now rewrite ExperienceEntry_conforms, IH.
Qed.

(** * Further properties of the handlers *)

(** The view reads the analysis, the baseline score and the draft of a
    state, and nothing else that can make it throw. *)
Lemma viewOf_frame (app : AppRevision) (s s' : AppState) :
  analysis s' = analysis s -> prevScore s' = prevScore s -> draft s' = draft s ->
  viewOf app s' = viewOf app s.
Proof.
  intros A P D. destruct app; unfold viewOf, View1.view, View2.view;
    now rewrite A, P, D.
Qed.

(** While the extraction call is pending the component shows the busy
    flag with nothing else changed, and the view that went through on the
    state before goes through on that one; whatever the call does, by
    success or failure, the state given to the last render has the flag
    off. *)
Theorem extraction_busy_flag
    (app : AppRevision) (serve : Server) (s : AppState) (source : ResumeSource) :
  resumeSource s = Some source ->
  viewOf app s = Some true ->
  let busy := mkState (resumeSource s) (jobDescription s) true (analysis s)
                (prevScore s) (isRectifying s) (draft s) in
  let m := dispatch serve (handleAnalyzeOf app) (mount s) in
  hd_error (renders (events m)) = Some busy
  /\ viewOf app busy = Some true
  /\ isAnalyzing (state m) = false.
Proof.
  intros S V busy m. subst busy m.
  split; [|split].
  - unfold dispatch.
    destruct app; unfold handleAnalyzeOf;
      [unfold App1.handleAnalyze|unfold App2.handleAnalyze];
      cbn; rewrite S; cbn;
      destruct (serve 0%nat _) as [e|res]; cbn;
      try (destruct (getProp res (js "match_score")) as [e|score]; cbn);
      try (destruct (draftOf res) as [e'|d]; cbn);
      repeat match goal with
             | |- context [auditMessage ?x] => destruct (auditMessage x); cbn
             end;
      rewrite ?S; reflexivity.
  - rewrite <- V. now apply viewOf_frame.
  - unfold dispatch.
    destruct app; unfold handleAnalyzeOf;
      [unfold App1.handleAnalyze|unfold App2.handleAnalyze];
      cbn; rewrite S; cbn;
      destruct (serve 0%nat _) as [e|res]; cbn;
      try (destruct (getProp res (js "match_score")) as [e|score]; cbn);
      try (destruct (draftOf res) as [e'|d]; cbn);
      repeat match goal with
             | |- context [auditMessage ?x] => destruct (auditMessage x); cbn
             end;
      reflexivity.
Qed.

Lemma extraction_busy_flag_witness :
  let s := analyzed in
  let busy := mkState (resumeSource s) (jobDescription s) true (analysis s)
                (prevScore s) (isRectifying s) (draft s) in
  let m := dispatch (serveWith geminiService1 someKey (rejecting JNull))
             (handleAnalyzeOf SecondApp) (mount s) in
  hd_error (renders (events m)) = Some busy
  /\ viewOf SecondApp busy = Some true
  /\ isAnalyzing (state m) = false.
Proof.
  apply (extraction_busy_flag SecondApp
           (serveWith geminiService1 someKey (rejecting JNull)) analyzed pastedText).
  - reflexivity.
  - vm_compute. reflexivity.
Defined.

(** A failed extraction call changes nothing but the busy flag: the
    handler makes that one call and tells the user once, and the source,
    the job description, the analysis, the baseline and the draft are what
    they were.  The second revision logs the error first and builds its
    alert from [err.message]: when that cannot be read (the call was
    rejected with [undefined] or [null]) or cannot be made a string, the
    handler fails there, after [finally], and no alert is shown.  The
    events are those of the component; what the service wrote to the
    console is part of the call. *)
Theorem extraction_failure
    (app : AppRevision) (serve : Server) (s : AppState) (source : ResumeSource)
    (e : Exn) :
  resumeSource s = Some source ->
  serve 0%nat (AnalyzeResume source (Some (jobDescription s))) = throw e ->
  let busy := mkState (resumeSource s) (jobDescription s) true (analysis s)
                (prevScore s) (isRectifying s) (draft s) in
  let idle := mkState (resumeSource s) (jobDescription s) false (analysis s)
                (prevScore s) (isRectifying s) (draft s) in
  let m := dispatch serve (handleAnalyzeOf app) (mount s) in
  state m = idle
  /\ events m
     = Rendered busy
       :: Called (AnalyzeResume source (Some (jobDescription s))) (throw e)
       :: match app with
          | FirstApp =>
              [Alerted (Literal (js "Extraction failed. Please ensure the document is not password protected."));
               Rendered idle]
          | SecondApp =>
              Logged (js "ANALYSIS_ERROR:") e
              :: match auditMessage e with
                 | inr _ => [Alerted (AuditFailed e); Rendered idle]
                 | inl _ => [Rendered idle]
                 end
          end.
Proof.
  intros S R busy idle m. subst busy idle m. unfold dispatch.
  destruct app; unfold handleAnalyzeOf;
    [unfold App1.handleAnalyze|unfold App2.handleAnalyze];
    cbn; rewrite S; cbn; unfold throw in *; rewrite R; cbn;
    try (destruct (auditMessage e); cbn);
    split; rewrite ?S; reflexivity.
Qed.

Lemma extraction_failure_witness :
  let s := analyzed in
  let e := Rejected JNull in
  let busy := mkState (resumeSource s) (jobDescription s) true (analysis s)
                (prevScore s) (isRectifying s) (draft s) in
  let idle := mkState (resumeSource s) (jobDescription s) false (analysis s)
                (prevScore s) (isRectifying s) (draft s) in
  let m := dispatch (serveWith geminiService1 someKey (rejecting JNull))
             (handleAnalyzeOf SecondApp) (mount s) in
  state m = idle
  /\ events m
     = [Rendered busy;
        Called (AnalyzeResume pastedText (Some (jobDescription s))) (throw e);
        Logged (js "ANALYSIS_ERROR:") e; Rendered idle].
Proof.
  apply (extraction_failure SecondApp
           (serveWith geminiService1 someKey (rejecting JNull))
           analyzed pastedText (Rejected JNull)).
  - reflexivity.
  - reflexivity.
Defined.

(** A successful extraction whose result the view can render replaces the
    analysis by the result, makes the result's match score the baseline and
    rebuilds the draft from the result alone: the summary is the result's
    impact analysis, the five other fields are the result's fields of the
    same name, and nothing of the former draft is kept.  No alert is shown,
    and the view goes through on both states the component renders. *)
Theorem extraction_success
    (app : AppRevision) (serve : Server) (s : AppState) (source : ResumeSource)
    (res score : JSValue) :
  resumeSource s = Some source ->
  serve 0%nat (AnalyzeResume source (Some (jobDescription s))) = ok res ->
  getProp res (js "match_score") = ok score ->
  let busy := mkState (resumeSource s) (jobDescription s) true (analysis s)
                (prevScore s) (isRectifying s) (draft s) in
  let done :=
    mkState (resumeSource s) (jobDescription s) false res score (isRectifying s)
      (Some (mkDraft (getProp_or_undefined res (js "personal_info"))
               (getProp_or_undefined res (js "education"))
               (getProp_or_undefined res (js "experience"))
               (getProp_or_undefined res (js "skills"))
               (getProp_or_undefined res (js "certifications"))
               (getProp_or_undefined res (js "impact_analysis")))) in
  viewOf app s = Some true ->
  viewOf app done = Some true ->
  let m := dispatch serve (handleAnalyzeOf app) (mount s) in
  state m = done
  /\ events m
     = [Rendered busy;
        Called (AnalyzeResume source (Some (jobDescription s))) (ok res);
        Rendered done]
  /\ Forall (fun st => viewOf app st = Some true) (renders (events m)).
Proof.
  intros S R G busy done V V' m.
  assert (D : draftOf res
              = ok (mkDraft (getProp_or_undefined res (js "personal_info"))
                      (getProp_or_undefined res (js "education"))
                      (getProp_or_undefined res (js "experience"))
                      (getProp_or_undefined res (js "skills"))
                      (getProp_or_undefined res (js "certifications"))
                      (getProp_or_undefined res (js "impact_analysis")))).
  { unfold draftOf, getProp_or_undefined.
    destruct (getProp_total res _ _ G (js "personal_info")) as [a ->].
    destruct (getProp_total res _ _ G (js "education")) as [b ->].
    destruct (getProp_total res _ _ G (js "experience")) as [c ->].
    destruct (getProp_total res _ _ G (js "skills")) as [d ->].
    destruct (getProp_total res _ _ G (js "certifications")) as [e ->].
    destruct (getProp_total res _ _ G (js "impact_analysis")) as [f ->].
    reflexivity. }
  assert (E : state m = done
              /\ events m
                 = [Rendered busy;
                    Called (AnalyzeResume source (Some (jobDescription s))) (ok res);
                    Rendered done]).
  { subst busy done m. unfold dispatch.
    destruct app; unfold handleAnalyzeOf;
      [unfold App1.handleAnalyze|unfold App2.handleAnalyze];
      cbn; rewrite S; cbn; unfold ok in *; rewrite R; cbn; rewrite G; cbn;
      rewrite D; cbn; split; rewrite ?S; reflexivity. }
  destruct E as [E1 E2]. split; [exact E1|]. split; [exact E2|].
  rewrite E2. cbn [renders]. repeat constructor.
  - rewrite <- V. now apply viewOf_frame.
  - exact V'.
Qed.

Lemma extraction_success_witness :
  let s := sourced in
  let res := analysis analyzed in
  let score := prevScore analyzed in
  let serve := serveWith geminiService0 someKey (scripted [says extractionText]) in
  let busy := mkState (resumeSource s) (jobDescription s) true (analysis s)
                (prevScore s) (isRectifying s) (draft s) in
  let done :=
    mkState (resumeSource s) (jobDescription s) false res score (isRectifying s)
      (Some (mkDraft (getProp_or_undefined res (js "personal_info"))
               (getProp_or_undefined res (js "education"))
               (getProp_or_undefined res (js "experience"))
               (getProp_or_undefined res (js "skills"))
               (getProp_or_undefined res (js "certifications"))
               (getProp_or_undefined res (js "impact_analysis")))) in
  let m := dispatch serve (handleAnalyzeOf SecondApp) (mount s) in
  state m = done
  /\ events m
     = [Rendered busy;
        Called (AnalyzeResume pastedText (Some (jobDescription s))) (ok res);
        Rendered done]
  /\ Forall (fun st => viewOf SecondApp st = Some true) (renders (events m)).
Proof.
  apply (extraction_success SecondApp
           (serveWith geminiService0 someKey (scripted [says extractionText]))
           sourced pastedText (analysis analyzed) (prevScore analyzed)).
  - reflexivity.
  - vm_compute. reflexivity.
  - vm_compute. reflexivity.
  - vm_compute. reflexivity.
  - vm_compute. reflexivity.
Defined.

(** When the extraction call returns [null] (the delegate's text was the
    JSON [null]), the handler has stored it before it fails on
    [res.match_score]: the analysis is cleared, the user is told the
    extraction failed, and the baseline and the draft of the former
    analysis stay. *)
Theorem extraction_null_payload
    (app : AppRevision) (serve : Server) (s : AppState) (source : ResumeSource) :
  resumeSource s = Some source ->
  serve 0%nat (AnalyzeResume source (Some (jobDescription s))) = ok JNull ->
  let m := dispatch serve (handleAnalyzeOf app) (mount s) in
  state m = mkState (resumeSource s) (jobDescription s) false JNull (prevScore s)
              (isRectifying s) (draft s)
  /\ In (Alerted match app with
                 | FirstApp =>
                     Literal (js "Extraction failed. Please ensure the document is not password protected.")
                 | SecondApp => AuditFailed TypeError
                 end) (events m).
Proof.
  intros S R m. subst m. unfold dispatch.
  destruct app; unfold handleAnalyzeOf;
    [unfold App1.handleAnalyze|unfold App2.handleAnalyze];
    cbn; rewrite S; cbn; unfold ok in *; rewrite R; cbn;
    (split; [rewrite ?S; reflexivity|]); cbn;
    repeat (first [left; reflexivity | right]).
Qed.

Lemma extraction_null_payload_witness :
  let m := dispatch (serveWith geminiService1 someKey (scripted [says "null"]))
             (handleAnalyzeOf SecondApp) (mount analyzed) in
  state m = mkState (resumeSource analyzed) (jobDescription analyzed) false JNull
              (prevScore analyzed) (isRectifying analyzed) (draft analyzed)
  /\ In (Alerted (AuditFailed TypeError)) (events m).
Proof.
  apply (extraction_null_payload SecondApp
           (serveWith geminiService1 someKey (scripted [says "null"]))
           analyzed pastedText).
  - reflexivity.
  - vm_compute. reflexivity.
Defined.

(** A failed revision call changes nothing but the busy flag: no
    re-scoring call is made, the user is told once, and the draft and the
    analysis are what they were. *)
Theorem revision_failure
    (app : AppRevision) (serve : Server) (s : AppState) (d : ResumeDraft) (e : Exn) :
  ToBoolean (analysis s) = true ->
  draft s = Some d ->
  serve 0%nat (RectifyResume (analysis s) (Some (jobDescription s))) = throw e ->
  let busy := mkState (resumeSource s) (jobDescription s) (isAnalyzing s)
                (analysis s) (prevScore s) true (draft s) in
  let idle := mkState (resumeSource s) (jobDescription s) (isAnalyzing s)
                (analysis s) (prevScore s) false (draft s) in
  let m := dispatch serve (handleRectifyOf app) (mount s) in
  state m = idle
  /\ events m
     = Rendered busy
       :: Called (RectifyResume (analysis s) (Some (jobDescription s))) (throw e)
       :: match app with
          | FirstApp =>
              [Alerted (Literal (js "The surgery was interrupted. Please try again."));
               Rendered idle]
          | SecondApp =>
              [Logged (js "RECTIFY_ERROR:") e;
               Alerted (Literal (js "Optimization gateway timed out. Please try again."));
               Rendered idle]
          end.
Proof.
  intros T D R busy idle m. subst busy idle m. unfold dispatch.
  destruct app; unfold handleRectifyOf;
    [unfold App1.handleRectify|unfold App2.handleRectify];
    cbn; rewrite T, D; cbn; unfold throw in *; rewrite R; cbn;
    split; rewrite ?D; reflexivity.
Qed.

Lemma revision_failure_witness :
  let s := analyzed in
  let e := Rejected (JString (js "429")) in
  let busy := mkState (resumeSource s) (jobDescription s) (isAnalyzing s)
                (analysis s) (prevScore s) true (draft s) in
  let idle := mkState (resumeSource s) (jobDescription s) (isAnalyzing s)
                (analysis s) (prevScore s) false (draft s) in
  let m := dispatch (serveWith geminiService2 someKey (rejecting (JString (js "429"))))
             (handleRectifyOf FirstApp) (mount s) in
  state m = idle
  /\ events m
     = [Rendered busy;
        Called (RectifyResume (analysis s) (Some (jobDescription s))) (throw e);
        Alerted (Literal (js "The surgery was interrupted. Please try again."));
        Rendered idle].
Proof.
  refine (revision_failure FirstApp
            (serveWith geminiService2 someKey (rejecting (JString (js "429"))))
            analyzed _ (Rejected (JString (js "429"))) _ _ _).
  - vm_compute. reflexivity.
  - vm_compute. reflexivity.
  - vm_compute. reflexivity.
Defined.

Lemma revisedDraft_frame (d newDraft : ResumeDraft) (res : JSValue) :
  revisedDraft d res = ok newDraft ->
  personal_info newDraft = personal_info d /\ education newDraft = education d
  /\ skills newDraft = skills d /\ certifications newDraft = certifications d.
Proof.
  unfold revisedDraft.
  destruct (getProp res (js "revisedSummary")); [discriminate|].
  destruct (getProp res (js "revisedExperience")); [discriminate|].
  cbn. intros H. injection H as <-. repeat split.
Qed.

(** What a revision cycle never touches, however its calls settle: the
    source, the job description, and the personal information, education,
    skills and certifications of the draft. *)
Theorem revision_draft_frame (app : AppRevision) (serve : Server) (s : AppState) :
  let m := dispatch serve (handleRectifyOf app) (mount s) in
  let kept (d : ResumeDraft) :=
    (personal_info d, education d, skills d, certifications d) in
  resumeSource (state m) = resumeSource s
  /\ jobDescription (state m) = jobDescription s
  /\ option_map kept (draft (state m)) = option_map kept (draft s).
Proof.
  intros m kept. subst m. unfold dispatch.
  assert (F : forall d nd, personal_info nd = personal_info d ->
                education nd = education d -> skills nd = skills d ->
                certifications nd = certifications d -> kept nd = kept d).
  { intros d nd H1 H2 H3 H4. subst kept. cbn. now rewrite H1, H2, H3, H4. }
  destruct app; unfold handleRectifyOf;
    [unfold App1.handleRectify|unfold App2.handleRectify];
    cbn;
    (destruct (ToBoolean (analysis s)); [|repeat split]);
    (destruct (draft s) as [d|] eqn:D; [|cbn; rewrite ?D; repeat split]);
    cbn;
    (destruct (serve 0%nat _) as [e|res]; [cbn; rewrite ?D; repeat split|]);
    cbn;
    (destruct (revisedDraft d res) as [e|nd] eqn:N;
     [cbn; rewrite ?D; repeat split|]);
    apply revisedDraft_frame in N; destruct N as [N1 [N2 [N3 N4]]];
    specialize (F d nd N1 N2 N3 N4);
    cbn;
    match goal with
    | |- context [App1.fullContent nd] =>
        destruct (App1.fullContent nd) as [e|content]
    | |- context [App2.fullText nd] =>
        destruct (App2.fullText nd) as [e|content]
    end;
    cbn; try (rewrite F; repeat split; fail);
    (destruct (serve 1%nat _) as [e|reScore];
     [cbn; rewrite F; repeat split|]);
    cbn; unfold flush; cbn;
    destruct (withMatchScore reScore (analysis s)); cbn;
    rewrite F; repeat split.
Qed.

(** * The application on top of the service *)

(** Without a key, on the first revision of the service: an extraction
    asks nothing of the delegate, whatever the delegate is, and the user is
    told "Missing API Key" (the second revision of the application puts the
    message of the error in its alert; the first shows its fixed text); the
    state is what it was. *)
Theorem extraction_without_key
    (app : AppRevision) (d : Delegate) (env : Env) (s : AppState)
    (source : ResumeSource) :
  truthy (API_KEY env) = false ->
  resumeSource s = Some source ->
  let m := dispatch (serveWith geminiService0 env d) (handleAnalyzeOf app) (mount s) in
  state m = mkState (resumeSource s) (jobDescription s) false (analysis s)
              (prevScore s) (isRectifying s) (draft s)
  /\ calls (events m) = [AnalyzeResume source (Some (jobDescription s))]
  /\ In (Alerted match app with
                 | FirstApp =>
                     Literal (js "Extraction failed. Please ensure the document is not password protected.")
                 | SecondApp => AuditFailed (Error (js "Missing API Key"))
                 end) (events m).
Proof.
  intros K S m. subst m. unfold dispatch.
  assert (R : forall c, serveWith geminiService0 env d 0%nat
                          (AnalyzeResume source c)
                        = inl (Error (js "Missing API Key"))).
  { intros c. unfold serveWith. cbn [analyze geminiService0].
    now rewrite analyzeResume0_no_key. }
  destruct app; unfold handleAnalyzeOf;
    [unfold App1.handleAnalyze|unfold App2.handleAnalyze];
    cbn; rewrite S; cbn; rewrite R; cbn;
    (split; [rewrite ?S; reflexivity|]);
    (split; [reflexivity|]);
    cbn; repeat (first [left; reflexivity | right]).
Qed.

Lemma extraction_without_key_witness :
  let m := dispatch (serveWith geminiService0 (mkEnv (Some [])) (answering None))
             (handleAnalyzeOf SecondApp) (mount sourced) in
  state m = mkState (resumeSource sourced) (jobDescription sourced) false
              (analysis sourced) (prevScore sourced) (isRectifying sourced)
              (draft sourced)
  /\ calls (events m) = [AnalyzeResume pastedText (Some (jobDescription sourced))]
  /\ In (Alerted (AuditFailed (Error (js "Missing API Key")))) (events m).
Proof.
  apply (extraction_without_key SecondApp (answering None) (mkEnv (Some []))
           sourced pastedText).
  - reflexivity.
  - reflexivity.
Defined.

(** On the second and third revisions of the service, a response whose
    text is empty does not fail the extraction: the handler shows no alert
    and hands the empty object to the component as its analysis, with
    [undefined] for baseline and a draft whose six fields are [undefined].
    On that state the view throws ([analysis.formatting_issues] and
    [draft.personal_info] are [undefined]): with no error boundary, the
    component unmounts. *)
Theorem extraction_of_empty_text
    (app : AppRevision) (rev : ServiceRevision) (d : Delegate) (env : Env)
    (s : AppState) (source : ResumeSource) :
  rev <> part_000 ->
  construct d 0%nat (API_KEY env) = None ->
  (forall ai params, respond d 0%nat ai params = ok (mkResponse (Some []))) ->
  resumeSource s = Some source ->
  let m := dispatch (serveWith (serviceOf rev) env d) (handleAnalyzeOf app) (mount s) in
  state m
  = mkState (resumeSource s) (jobDescription s) false (JObject []) JUndefined
      (isRectifying s)
      (Some (mkDraft JUndefined JUndefined JUndefined JUndefined JUndefined JUndefined))
  /\ alerts (events m) = []
  /\ last (renders (events m)) s = state m
  /\ viewOf app (state m) = Some false.
Proof.
  intros N C R S m.
  assert (Q : forall c, serveWith (serviceOf rev) env d 0%nat (AnalyzeResume source c)
                        = inr (JObject [])).
  { intros c. unfold serveWith.
    destruct (analyze_run rev d 0%nat env source c) as [_ O];
      [intros E; contradiction|assumption|].
    rewrite O, R. unfold ok. cbn [response_text].
    destruct rev; [contradiction| |]; apply parse_empty_object. }
  assert (E : state m
              = mkState (resumeSource s) (jobDescription s) false (JObject [])
                  JUndefined (isRectifying s)
                  (Some (mkDraft JUndefined JUndefined JUndefined JUndefined
                           JUndefined JUndefined))
              /\ alerts (events m) = []
              /\ last (renders (events m)) s = state m).
  { subst m. unfold dispatch.
    destruct app; unfold handleAnalyzeOf;
      [unfold App1.handleAnalyze|unfold App2.handleAnalyze];
      cbn; rewrite S; cbn; rewrite Q; cbn;
      repeat split; rewrite ?S; reflexivity. }
  destruct E as [E1 [E2 E3]]. repeat split; try assumption.
  rewrite E1. destruct app; reflexivity.
Qed.

Lemma extraction_of_empty_text_witness :
  let s := sourced in
  let m := dispatch (serveWith (serviceOf part_002) someKey (answering (Some [])))
             (handleAnalyzeOf FirstApp) (mount s) in
  state m
  = mkState (resumeSource s) (jobDescription s) false (JObject []) JUndefined
      (isRectifying s)
      (Some (mkDraft JUndefined JUndefined JUndefined JUndefined JUndefined JUndefined))
  /\ alerts (events m) = []
  /\ last (renders (events m)) s = state m
  /\ viewOf FirstApp (state m) = Some false.
Proof.
  apply (extraction_of_empty_text FirstApp part_002 (answering (Some [])) someKey
           sourced pastedText).
  - intros E. discriminate E.
  - reflexivity.
  - intros ai params. reflexivity.
  - reflexivity.
Defined.

(** ** The upload *)

Lemma splitComma_no_comma (s : jsstring) :
  Forall (fun c => c <> 44) s -> splitComma s = [s].
Proof.
  induction 1 as [|c s C _ IH]; cbn; [reflexivity|].
  apply N.eqb_neq in C. rewrite C, IH. reflexivity.
Qed.

Lemma splitComma_app (p rest : jsstring) :
  Forall (fun c => c <> 44) p ->
  splitComma (p ++ 44 :: rest) = p :: splitComma rest.
Proof.
  induction 1 as [|c s C _ IH]; cbn; [reflexivity|].
  apply N.eqb_neq in C. rewrite C, IH. reflexivity.
Qed.

(** A chosen file whose data URL is a header, a comma and a payload (as
    base64 text, the payload has no comma) is stored as a source without
    text whose data are the payload alone; an extraction of that source
    sends the instruction and the payload, as inline data under the file's
    media type, and nothing else: the header and the file's name are not
    sent. *)
Theorem upload_then_extract
    (rev : ServiceRevision) (d : Delegate) (i : nat) (env : Env)
    (f : ChosenFile) (header payload : jsstring) (jd : option jsstring) :
  reader_result f = header ++ 44 :: payload ->
  Forall (fun c => c <> 44) header ->
  Forall (fun c => c <> 44) payload ->
  (rev = part_000 -> truthy (API_KEY env) = true) ->
  construct d i (API_KEY env) = None ->
  let source := mkSource None (Some (mkFile payload (file_type f) (file_name f))) in
  uploadedSource f = Some source
  /\ map partsOf (requests (runSvc d i (analyze (serviceOf rev) env source jd)))
     = [[TextPart (systemPromptOf rev jd); InlineData payload (file_type f)]].
Proof.
  intros U H P K C source. subst source. split.
  - unfold uploadedSource. rewrite U, (splitComma_app _ _ H), (splitComma_no_comma _ P).
    reflexivity.
  - destruct (analyze_run rev d i env
                (mkSource None (Some (mkFile payload (file_type f) (file_name f))))
                jd K C) as [Q _].
    rewrite Q. destruct rev; reflexivity.
Qed.

Lemma upload_then_extract_witness :
  let f := mkChosen (js "application/pdf") (js "cv.pdf")
             (js "data:application/pdf;base64,JVBERi0xLjQK") in
  let source := mkSource None (Some (mkFile (js "JVBERi0xLjQK") (file_type f) (file_name f))) in
  uploadedSource f = Some source
  /\ map partsOf (requests (runSvc (answering (Some (dq "{}"))) 0
                              (analyze (serviceOf part_000) someKey source None)))
     = [[TextPart (systemPromptOf part_000 None);
         InlineData (js "JVBERi0xLjQK") (file_type f)]].
Proof.
  apply (upload_then_extract part_000 (answering (Some (dq "{}"))) 0 someKey
           (mkChosen (js "application/pdf") (js "cv.pdf")
              (js "data:application/pdf;base64,JVBERi0xLjQK"))
           (js "data:application/pdf;base64") (js "JVBERi0xLjQK") None).
  - reflexivity.
  - vm_compute. repeat constructor; discriminate.
  - vm_compute. repeat constructor; discriminate.
  - intros _. reflexivity.
  - reflexivity.
Defined.

(** ** The name of the export *)

Lemma underscore_not_white : isWhiteSpace 95 = false.
Proof. reflexivity. Qed.

Lemma replaceRuns_clean (inRun : bool) (s : jsstring) :
  Forall (fun c => isWhiteSpace c = false) (replaceRuns inRun s).
Proof.
  revert inRun. induction s as [|c s IH]; intros inRun; cbn; [constructor|].
  destruct (isWhiteSpace c) eqn:W.
  - destruct inRun; [apply IH|]. constructor; [exact underscore_not_white|apply IH].
  - constructor; [exact W|apply IH].
Qed.

Lemma replaceRuns_identity (inRun : bool) (s : jsstring) :
  Forall (fun c => isWhiteSpace c = false) s -> replaceRuns inRun s = s.
Proof.
  intros H. revert inRun. induction H as [|c s W _ IH]; intros inRun; cbn;
    [reflexivity|].
  rewrite W, IH. reflexivity.
Qed.

Lemma replaceRuns_length (inRun : bool) (s : jsstring) :
  (length (replaceRuns inRun s) <= length s)%nat.
Proof.
  revert inRun. induction s as [|c s IH]; intros inRun; cbn; [lia|].
  destruct (isWhiteSpace c); [destruct inRun|]; cbn.
  - specialize (IH true). lia.
  - specialize (IH true). lia.
  - specialize (IH false). lia.
Qed.

(** The name given to the exported PDF, when the draft's name is a
    string: a stem followed by [_Final_CV.pdf], where the stem has no white
    space of any kind, is not longer than the name, and is the name itself
    when the name has no white space. *)
Theorem export_file_name (draft : ResumeDraft) (name : jsstring) :
  getProp (personal_info draft) (js "name") = ok (JString name) ->
  exists stem,
    exportFileName draft = ok (stem ++ js "_Final_CV.pdf")
    /\ Forall (fun c => isWhiteSpace c = false) stem
    /\ (length stem <= length name)%nat
    /\ (Forall (fun c => isWhiteSpace c = false) name -> stem = name).
Proof.
  intros G. exists (replaceRuns false name).
  unfold exportFileName. unfold ok in G. rewrite G. cbn [rbind].
  repeat split.
  - apply replaceRuns_clean.
  - apply replaceRuns_length.
  - apply replaceRuns_identity.
Qed.

Lemma export_file_name_witness :
  exists stem,
    exportFileName (mkDraft (JObject [(js "name", JString (js "Jane  Q. Doe"))])
                      JUndefined JUndefined JUndefined JUndefined JUndefined)
    = ok (stem ++ js "_Final_CV.pdf")
    /\ Forall (fun c => isWhiteSpace c = false) stem
    /\ (length stem <= length (js "Jane  Q. Doe"))%nat
    /\ (Forall (fun c => isWhiteSpace c = false) (js "Jane  Q. Doe") ->
        stem = js "Jane  Q. Doe").
Proof.
  apply (export_file_name
           (mkDraft (JObject [(js "name", JString (js "Jane  Q. Doe"))])
              JUndefined JUndefined JUndefined JUndefined JUndefined)
           (js "Jane  Q. Doe")).
  reflexivity.
Defined.

(** ** The guards of the handlers *)

(** Without a source an extraction does nothing at all: no call, no
    render, no alert, not even the busy flag. *)
Theorem extraction_needs_source (app : AppRevision) (serve : Server) (s : AppState) :
  resumeSource s = None ->
  dispatch serve (handleAnalyzeOf app) (mount s) = mount s.
Proof.
  intros S. unfold dispatch.
  destruct app; unfold handleAnalyzeOf;
    [unfold App1.handleAnalyze|unfold App2.handleAnalyze];
    cbn; rewrite S; reflexivity.
Qed.

Lemma extraction_needs_source_witness :
  dispatch (serveWith geminiService1 someKey (answering (Some (dq "{}"))))
    (handleAnalyzeOf FirstApp) (mount initialState)
  = mount initialState.
Proof.
  apply (extraction_needs_source FirstApp
           (serveWith geminiService1 someKey (answering (Some (dq "{}"))))
           initialState).
  reflexivity.
Defined.

(** A revision needs both an analysis and a draft: when the stored
    analysis is falsy ([null] before the first extraction) or there is no
    draft, the handler does nothing at all. *)
Theorem revision_needs_analysis_and_draft
    (app : AppRevision) (serve : Server) (s : AppState) :
  ToBoolean (analysis s) = false \/ draft s = None ->
  dispatch serve (handleRectifyOf app) (mount s) = mount s.
Proof.
  intros G. unfold dispatch.
  destruct app; unfold handleRectifyOf;
    [unfold App1.handleRectify|unfold App2.handleRectify];
    cbn; destruct G as [G|G]; rewrite G;
    try reflexivity; destruct (ToBoolean (analysis s)); reflexivity.
Qed.

Lemma revision_needs_analysis_and_draft_witness :
  dispatch (serveWith geminiService2 someKey (answering (Some (dq "{}"))))
    (handleRectifyOf SecondApp) (mount sourced)
  = mount sourced.
Proof.
  apply (revision_needs_analysis_and_draft SecondApp
           (serveWith geminiService2 someKey (answering (Some (dq "{}"))))
           sourced).
  left. reflexivity.
Defined.

(** * Resets and pending calls *)

(** A handler run with nothing in between is a handler run stretch by
    stretch, each call answered by the server as soon as it is made. *)
Lemma dispatch_advance {A} (serve : Server) (t : Task A) (m : Machine) :
  flush (snd (runTask serve t m))
  = match advance t m with
    | (Finished _, m') => m'
    | (Waiting c k, m') =>
        flush (snd (runTask serve (k (serve (served m') c))
                      (answered c (serve (served m') c) m')))
    end.
Proof.
  revert m. induction t as [a|e|c k IH|u k IH|msg k IH|label e k IH]; intros m; cbn;
    try reflexivity; apply IH.
Qed.

(** C9, as stated, fails.  In the second revision the button that runs
    [resetAll] is live while an extraction is pending.  The user starts an
    extraction, resets, and the call then succeeds: the component comes to
    show a state with no source and an empty job description, but with the
    analysis, the baseline score and the draft of the extraction; the view
    goes through on every state of the sequence. *)
Lemma partial_reset_counterexample :
  let x := settle (ok (analysis analyzed))
             (click (clearButtonOf SecondApp)
                (click (handleAnalyzeOf SecondApp) (idle (mount sourced)))) in
  let shown := state (machine x) in
  renders (events (machine x))
  = [mkState (Some pastedText) jobText true JNull JUndefined false None;
     mkState None [] true JNull JUndefined false None;
     shown]
  /\ Forall (fun st => viewOf SecondApp st = Some true) (renders (events (machine x)))
  /\ resumeSource shown = None
  /\ analysis shown = analysis analyzed /\ analysis shown <> JNull
  /\ prevScore shown = prevScore analyzed /\ prevScore shown <> JUndefined
  /\ draft shown = draft analyzed /\ draft shown <> None.
Proof.
  vm_compute. repeat split; try discriminate.
  repeat constructor.
Qed.

(** C9, amended.  A run of [resetAll] is one render: whatever the state
    and whatever calls are pending, the state after it has no source, no
    analysis, no draft, no baseline score and an empty job description, no
    state in between is rendered, the view goes through on it, and the
    pending calls stay pending.  A reset cancels nothing: when the button
    beside the file name is clicked while an extraction is pending and the
    extraction then succeeds with a result the view can render, the handler
    stores the analysis, the baseline score and the draft of its result as
    if there had been no reset, and the component shows them with the
    source cleared.  That button runs [resetAll] in the second revision
    only; in the first it clears the source and nothing else. *)
Theorem reset_cancels_no_call
    (app : AppRevision) (m : Machine)
    (w : list (Call * (result JSValue -> Task unit)))
    (s : AppState) (source : ResumeSource) (res score : JSValue) (d : ResumeDraft) :
  pending m = [] ->
  renderError m = None ->
  resumeSource s = Some source ->
  getProp res (js "match_score") = ok score ->
  draftOf res = ok d ->
  let cleared := mkState None [] (isAnalyzing (state m)) JNull JUndefined
                   (isRectifying (state m)) None in
  let restored := mkState None
                    match app with
                    | FirstApp => jobDescription s
                    | SecondApp => []
                    end false res score (isRectifying s) (Some d) in
  viewOf app s = Some true ->
  viewOf app restored = Some true ->
  (let x := click (fun _ => resetAllOf app) (mkSession m w) in
   state (machine x) = cleared
   /\ renders (events (machine x)) = renders (events m) ++ [cleared]
   /\ viewOf app cleared = Some true
   /\ waiting x = w)
  /\ (let x := settle (ok res)
                 (click (clearButtonOf app)
                    (click (handleAnalyzeOf app) (idle (mount s)))) in
      state (machine x) = restored
      /\ last (renders (events (machine x))) s = restored
      /\ Forall (fun st => viewOf app st = Some true) (renders (events (machine x)))
      /\ waiting x = [])
  /\ state (machine (click (clearButtonOf FirstApp) (mkSession m w)))
     = mkState None (jobDescription (state m)) (isAnalyzing (state m))
         (analysis (state m)) (prevScore (state m)) (isRectifying (state m))
         (draft (state m)).
Proof.
  intros P E S G D cleared restored V V'.
  destruct m as [st pe re se ev]. cbn in P, E. subst pe re.
  split; [|split].
  - subst cleared. destruct app; cbn; rewrite renders_app; repeat split.
  - assert (R : let x := settle (ok res)
                           (click (clearButtonOf app)
                              (click (handleAnalyzeOf app) (idle (mount s)))) in
                state (machine x) = restored
                /\ renders (events (machine x))
                   = [mkState (resumeSource s) (jobDescription s) true (analysis s)
                        (prevScore s) (isRectifying s) (draft s);
                      mkState None
                        match app with
                        | FirstApp => jobDescription s
                        | SecondApp => []
                        end true
                        match app with
                        | FirstApp => analysis s
                        | SecondApp => JNull
                        end
                        match app with
                        | FirstApp => prevScore s
                        | SecondApp => JUndefined
                        end (isRectifying s)
                        match app with
                        | FirstApp => draft s
                        | SecondApp => None
                        end;
                      restored]
                /\ waiting x = []).
    { subst restored. unfold ok in *.
      destruct app; unfold handleAnalyzeOf, clearButtonOf, click, settle, idle;
        [unfold App1.handleAnalyze|unfold App2.handleAnalyze];
        cbn; rewrite S; cbn; rewrite G; cbn; rewrite D; cbn;
        repeat split; rewrite ?S; reflexivity. }
    cbv zeta in R. destruct R as [R1 [R2 R3]]. cbv zeta.
    rewrite R1, R2, R3. repeat split.
    repeat constructor.
    + rewrite <- V. now apply viewOf_frame.
    + destruct app; [rewrite <- V; now apply viewOf_frame|reflexivity].
    + exact V'.
  - reflexivity.
Qed.

Lemma reset_cancels_no_call_witness :
  let app := SecondApp in
  let m := mount analyzed in
  let s := sourced in
  let res := analysis analyzed in
  let cleared := mkState None [] (isAnalyzing (state m)) JNull JUndefined
                   (isRectifying (state m)) None in
  let restored := mkState None [] false res (prevScore analyzed) (isRectifying s)
                    (Some extracted) in
  (let x := click (fun _ => resetAllOf app) (mkSession m []) in
   state (machine x) = cleared
   /\ renders (events (machine x)) = renders (events m) ++ [cleared]
   /\ viewOf app cleared = Some true
   /\ waiting x = [])
  /\ (let x := settle (ok res)
                 (click (clearButtonOf app)
                    (click (handleAnalyzeOf app) (idle (mount s)))) in
      state (machine x) = restored
      /\ last (renders (events (machine x))) s = restored
      /\ Forall (fun st => viewOf app st = Some true) (renders (events (machine x)))
      /\ waiting x = [])
  /\ state (machine (click (clearButtonOf FirstApp) (mkSession m [])))
     = mkState None (jobDescription (state m)) (isAnalyzing (state m))
         (analysis (state m)) (prevScore (state m)) (isRectifying (state m))
         (draft (state m)).
Proof.
  apply (reset_cancels_no_call SecondApp (mount analyzed) [] sourced pastedText
           (analysis analyzed) (prevScore analyzed) extracted).
  - reflexivity.
  - reflexivity.
  - reflexivity.
  - vm_compute. reflexivity.
  - vm_compute. reflexivity.
  - vm_compute. reflexivity.
  - vm_compute. reflexivity.
Defined.
